(** * Supply-chain dashboard (app/main.py): a shallow embedding

    The dashboard loads a handful of CSV files into pandas frames, filters
    them by the widgets of the sidebar, aggregates them (group-by-sum, sort,
    head) and accepts uploads that overwrite the files and clear the
    memoisation of the loaders.

    - [Py]     Python values, exceptions, [str], [str.lower], [sorted].
    - [Pandas] the part of pandas the application calls: frames, column
               access, boolean masks, [isin], [dropna], [unique],
               group-by-sum, [sort_values], [head].
    - [App]    the functions of app/main.py, with their names.
    - [Sample] instances of the library functions left as parameters.
    - [Spec]   the vocabulary of the statements.
    The lemmas follow, by component. *)

From Stdlib Require Import ZArith Ascii Strings.Byte Sorting.Sorted Permutation Lia.
From stdpp Require Import base option list gmap strings sorting pretty.

Local Open Scope Z_scope.
Set Warnings "-clear-no-such-hyp".

(* ===================================================================== *)
(** * Python values and exceptions *)
(* ===================================================================== *)

Module Py.

(** A non-null cell: pandas reads a CSV column either as numbers or as
    strings (object dtype).  Numbers are modelled by integers: rounding of
    binary floating point is outside the model.  A [datetime64] cell is
    modelled by its count of nanoseconds. *)
Inductive scalar :=
  | SInt (z : Z)
  | SStr (s : string).

(** A cell, or any object handed to [str]: [None], the missing-value marker
    NaN (also NaT), or a scalar. *)
Inductive value :=
  | VNone
  | VNaN
  | VInt (z : Z)
  | VStr (s : string).

#[global] Instance scalar_eq_dec : EqDecision scalar.
Proof. solve_decision. Defined.
#[global] Instance value_eq_dec : EqDecision value.
Proof. solve_decision. Defined.
#[global] Instance value_inhabited : Inhabited value := populate VNaN.

Definition of_scalar (x : scalar) : value :=
  match x with SInt z => VInt z | SStr s => VStr s end.

Definition to_scalar (v : value) : option scalar :=
  match v with
  | VInt z => Some (SInt z)
  | VStr s => Some (SStr s)
  | VNone | VNaN => None
  end.

(** [pd.isna] *)
Definition isna (v : value) : bool :=
  match v with VNone | VNaN => true | _ => false end.

(** The exceptions the modelled code can raise. *)
Inductive exn :=
  | KeyError (key : string)
  | TypeError
  | ValueError
  | IndexError
  | ParserError.

#[global] Instance exn_eq_dec : EqDecision exn.
Proof. solve_decision. Defined.

(** A computation that returns or raises. *)
Inductive result (A : Type) :=
  | Ok (a : A)
  | Raise (e : exn).
Arguments Ok {A} a.
Arguments Raise {A} e.

Definition bind {A B} (m : result A) (k : A → result B) : result B :=
  match m with Ok a => k a | Raise e => Raise e end.

Definition is_ok {A} (m : result A) : bool :=
  match m with Ok _ => true | Raise _ => false end.

(** [str(val)] *)
Definition str (v : value) : string :=
  match v with
  | VNone => "None"
  | VNaN => "nan"
  | VInt z => pretty z
  | VStr s => s
  end.

(** [str.lower] on one character.  Python lowers by Unicode tables; a
    string is here its UTF-8 bytes and only A..Z are mapped.  No character
    outside ASCII lowers to one of the letters of "high" or "medium", so
    the comparisons of [urgency_label] are decided alike. *)
Definition lower_ascii (c : ascii) : ascii :=
  let n := N_of_ascii c in
  if ((65 <=? n) && (n <=? 90))%N then ascii_of_N (n + 32) else c.

Fixpoint lower (s : string) : string :=
  match s with
  | EmptyString => EmptyString
  | String c s' => String (lower_ascii c) (lower s')
  end.

(** The order of sorted cells: numbers by value, strings by code point
    (the order of their UTF-8 bytes), numbers before strings. *)
Definition scalar_leb (a b : scalar) : bool :=
  match a, b with
  | SInt x, SInt y => bool_decide (x ≤ y)
  | SInt _, SStr _ => true
  | SStr _, SInt _ => false
  | SStr s, SStr t => String.leb s t
  end.

Definition is_str (x : scalar) : bool :=
  match x with SStr _ => true | SInt _ => false end.

(** Stable insertion sort by a boolean order, the sort of [sorted] and of
    the stable kinds of pandas. *)
Section stable_sort.
Context {A : Type} (leb : A → A → bool).

Fixpoint insert_sorted (x : A) (l : list A) : list A :=
  match l with
  | [] => [x]
  | y :: l' => if leb x y then x :: l else y :: insert_sorted x l'
  end.

Definition stable_sort (l : list A) : list A := foldr insert_sorted [] l.
End stable_sort.

(** [sorted(l)] on non-null cells: comparing a [str] with an [int] raises
    TypeError, and every comparison sort of a list holding both kinds
    compares such a pair. *)
Definition sorted (l : list scalar) : result (list scalar) :=
  if forallb is_str l || forallb (λ x, negb (is_str x)) l
  then Ok (stable_sort scalar_leb l)
  else Raise TypeError.

End Py.

Export Py.

Notation "x ← m ; k" := (Py.bind m (λ x, k))
  (at level 20, m at level 100, k at level 200, only parsing).


(* ===================================================================== *)
(** * pandas, as far as the application calls it *)
(* ===================================================================== *)

Module Pandas.

(** A frame: the column labels and the rows, a cell per label. *)
Record DataFrame := {
  columns : list string;
  rows : list (list value);
}.

(** [pd.DataFrame()] *)
Definition empty_frame : DataFrame := {| columns := []; rows := [] |}.

(** [df.empty]: some axis has length 0. *)
Definition empty (df : DataFrame) : bool :=
  match columns df, rows df with
  | [], _ | _, [] => true
  | _, _ => false
  end.

Fixpoint index_of (c : string) (cols : list string) : option nat :=
  match cols with
  | [] => None
  | c' :: cols' => if decide (c = c') then Some 0%nat else S <$> index_of c cols'
  end.

Definition cell (i : nat) (r : list value) : value := r !!! i.

Definition column (i : nat) (df : DataFrame) : list value := cell i <$> rows df.

(** [df[c]] *)
Definition getitem (df : DataFrame) (c : string) : result (list value) :=
  match index_of c (columns df) with
  | Some i => Ok (column i df)
  | None => Raise (KeyError c)
  end.

(** [df.get(c, default)] *)
Definition get (df : DataFrame) (c : string) (default : list value) : list value :=
  match index_of c (columns df) with
  | Some i => column i df
  | None => default
  end.

(** [s.iloc[0]] *)
Definition iloc0 (s : list value) : result value :=
  match s with
  | v :: _ => Ok v
  | [] => Raise IndexError
  end.

(** [s.isin(values)] *)
Definition isin (s : list value) (values : list scalar) : list bool :=
  (λ v, bool_decide (v ∈ of_scalar <$> values)) <$> s.

(** [df[mask]] for a boolean mask aligned with the rows. *)
Definition select (df : DataFrame) (mask : list bool) : DataFrame :=
  {| columns := columns df;
     rows := snd <$> filter (λ p, p.1 = true) (zip mask (rows df)) |}.

(** [df[c] = s] *)
Definition setitem (df : DataFrame) (c : string) (s : list value) : DataFrame :=
  match index_of c (columns df) with
  | Some i =>
      {| columns := columns df;
         rows := zip_with (λ r v, <[i:=v]> r) (rows df) s |}
  | None =>
      {| columns := columns df ++ [c];
         rows := zip_with (λ r v, r ++ [v]) (rows df) s |}
  end.

(** [df[cols]] for a list of labels. *)
Fixpoint indices (cols : list string) (df : DataFrame) : result (list nat) :=
  match cols with
  | [] => Ok []
  | c :: cols' =>
      match index_of c (columns df) with
      | Some i => ixs ← indices cols' df; Ok (i :: ixs)
      | None => Raise (KeyError c)
      end
  end.

Definition getitems (df : DataFrame) (cols : list string) : result DataFrame :=
  ixs ← indices cols df;
  Ok {| columns := cols; rows := (λ r, (λ i, cell i r) <$> ixs) <$> rows df |}.

(** [s.dropna()] *)
Definition dropna (s : list value) : list scalar := omap to_scalar s.

(** [s.unique()], in order of first appearance. *)
Fixpoint unique (l : list scalar) : list scalar :=
  match l with
  | [] => []
  | x :: l' => x :: filter (λ y, y ≠ x) (unique l')
  end.

(** The order of [sort_values] on cells: missing values last. *)
Definition value_leb (a b : value) : bool :=
  match to_scalar a, to_scalar b with
  | Some x, Some y => scalar_leb x y
  | Some _, None => true
  | None, Some _ => false
  | None, None => true
  end.

(** Rows compared on the key columns [ks], the first key first. *)
Fixpoint rows_leb (ks : list nat) (r1 r2 : list value) : bool :=
  match ks with
  | [] => true
  | k :: ks' =>
      let a := cell k r1 in
      let b := cell k r2 in
      if value_leb a b
      then if value_leb b a then rows_leb ks' r1 r2 else true
      else false
  end.

(** [df.sort_values(cols)] for a list of labels: pandas sorts on several
    keys with a lexicographic, stable sort. *)
Definition sort_values (df : DataFrame) (cols : list string) : result DataFrame :=
  ks ← indices cols df;
  Ok {| columns := columns df; rows := stable_sort (rows_leb ks) (rows df) |}.

(** A metric cell as a number; [sum] skips the missing ones.  The metrics
    of the application are quantities: the sum of a column of strings is
    not modelled, the model stops there with TypeError. *)
Definition numeric (v : value) : result (option Z) :=
  match v with
  | VInt z => Ok (Some z)
  | VNone | VNaN => Ok None
  | VStr _ => Raise TypeError
  end.

(** The dtype of a metric column is read off its cells: a column of
    integers between -2^63 and 2^63 - 1 is int64. *)
Definition is_int64 (vals : list value) : bool :=
  forallb (λ v, match v with
                | VInt z => bool_decide (-9223372036854775808 ≤ z < 9223372036854775808)
                | _ => false
                end) vals.

(** The int64 that is congruent to [z] modulo 2^64. *)
Definition wrap64 (z : Z) : Z :=
  (z + 9223372036854775808) `mod` 18446744073709551616 - 9223372036854775808.

(** The addition of a sum.  On int64 it wraps around.  A numeric column
    that is not int64 (it has missing cells) is float64: its numbers are
    the whole numbers of this model and add up exactly, the rounding of
    float64 being outside the model. *)
Definition sum_add (int64 : bool) (a b : Z) : Z :=
  if int64 then wrap64 (a + b) else a + b.

Fixpoint mapM {A B} (f : A → result B) (l : list A) : result (list B) :=
  match l with
  | [] => Ok []
  | x :: l' => y ← f x; ys ← mapM f l'; Ok (y :: ys)
  end.

(** One more row for the group of key [k], whose sum starts from 0; the
    groups are kept in ascending order of their key, as [groupby]
    (sort=True) leaves them. *)
Fixpoint group_add (add : Z → Z → Z) (k : scalar) (q : Z)
    (acc : list (scalar * Z)) : list (scalar * Z) :=
  match acc with
  | [] => [(k, add 0 q)]
  | (k', s) :: acc' =>
      if decide (k = k') then (k', add s q) :: acc'
      else if scalar_leb k k' then (k, add 0 q) :: acc
      else (k', s) :: group_add add k q acc'
  end.

Definition group_sums (add : Z → Z → Z) (keyed : list (value * option Z))
    : list (scalar * Z) :=
  foldr (λ p acc,
           match to_scalar p.1 with
           | Some k => group_add add k (default 0 p.2) acc
           | None => acc
           end) [] keyed.

(** [df.groupby(by, as_index=False)[metric].sum()]: the frame of the two
    columns [by] and [metric], a row per group; rows with a missing key
    belong to no group. *)
Definition groupby_sum (df : DataFrame) (by_ metric : string) : result (list (scalar * Z)) :=
  keys ← getitem df by_;
  vals ← getitem df metric;
  nums ← mapM numeric vals;
  Ok (group_sums (sum_add (is_int64 vals)) (zip keys nums)).

(** [grouped.sort_values(metric, ascending=False)].  On one key pandas
    sorts with kind="quicksort", numpy's argsort, which is not a stable
    sort: the indexer is a parameter, bound only by [argsort_desc_spec]. *)
Definition sort_values_desc (argsort : list Z → list nat)
    (grouped : list (scalar * Z)) : list (scalar * Z) :=
  omap (λ i, grouped !! i) (argsort grouped.*2).

Definition descending (l : list Z) : Prop := Sorted (λ a b, b ≤ a) l.

Definition argsort_desc_spec (argsort : list Z → list nat) : Prop :=
  ∀ l : list Z,
    argsort l ≡ₚ seq 0 (length l) ∧
    descending (omap (λ i, l !! i) (argsort l)).

(** [df.head(n)] *)
Definition head {A} (n : nat) (l : list A) : list A := take n l.

(** A timestamp is its count of nanoseconds since 1970-01-01 00:00, NaT
    is NaN; a calendar date ([datetime.date]) is its count of days since
    1970-01-01. *)
Definition ns_per_day : Z := 86400000000000.

(** [t.date()]: the calendar day the timestamp falls on. *)
Definition Timestamp_date (t : Z) : Z := t `div` ns_per_day.

(** [pd.to_datetime(d)] on a calendar date: the day at midnight. *)
Definition date_to_datetime (d : Z) : Z := d * ns_per_day.

(** [pd.to_datetime] on a column: strings are parsed by pandas' parser, a
    parameter; numbers count nanoseconds. *)
Section to_datetime.
Variable parse_datetime : string → option Z.

Definition to_datetime1 (v : value) : result value :=
  match v with
  | VNone | VNaN => Ok VNaN
  | VInt z => Ok (VInt z)
  | VStr s =>
      match parse_datetime s with
      | Some t => Ok (VInt t)
      | None => Raise ValueError
      end
  end.

Definition to_datetime (s : list value) : result (list value) :=
  mapM to_datetime1 s.
End to_datetime.

(** [s >= t] and [s <= t] on a column of timestamps: NaT compares false. *)
Definition ge_ts (s : list value) (t : Z) : list bool :=
  (λ v, match v with VInt x => bool_decide (t ≤ x) | _ => false end) <$> s.

Definition le_ts (s : list value) (t : Z) : list bool :=
  (λ v, match v with VInt x => bool_decide (x ≤ t) | _ => false end) <$> s.

(** [m1 & m2] *)
Definition mask_and (m1 m2 : list bool) : list bool := zip_with andb m1 m2.

(** [s.min()] and [s.max()] of a column of timestamps, NaT when there is
    no value. *)
Definition ts_min (s : list value) : option Z :=
  foldr (λ v acc, match v, acc with
                  | VInt x, Some m => Some (Z.min x m)
                  | VInt x, None => Some x
                  | _, _ => acc
                  end) None s.

Definition ts_max (s : list value) : option Z :=
  foldr (λ v acc, match v, acc with
                  | VInt x, Some m => Some (Z.max x m)
                  | VInt x, None => Some x
                  | _, _ => acc
                  end) None s.

End Pandas.

(* ===================================================================== *)
(** * app/main.py *)
(* ===================================================================== *)

Module App.
Import Pandas.

(** ** Storage and the memoised loaders *)

(** The files of DATA_DIR by name, and the two caches of [st.cache_data]:
    [load_csv] is memoised by its path, [get_all_data] has no argument. *)
Record world := {
  files : gmap string (list Byte.byte);
  load_csv_cache : gmap string DataFrame;
  get_all_data_cache : option (gmap string DataFrame);
}.

(** A script step: it reads and writes the world and returns or raises.
    What was written before an exception stays written. *)
Definition M (A : Type) : Type := world → result A * world.

Definition ret {A} (a : A) : M A := λ w, (Ok a, w).

Definition lift {A} (r : result A) : M A := λ w, (r, w).

Definition mbind {A B} (m : M A) (k : A → M B) : M B :=
  λ w, match m w with
       | (Ok a, w') => k a w'
       | (Raise e, w') => (Raise e, w')
       end.

Notation "x ⇐ m ; k" := (mbind m (λ x, k))
  (at level 20, m at level 100, k at level 200, only parsing).

Section app.
(** [pd.read_csv] on the bytes of a file, and [df.to_csv(index=False)]. *)
Variable read_csv : list Byte.byte → result DataFrame.
Variable to_csv : DataFrame → list Byte.byte.
(** pandas' parser of date strings. *)
Variable parse_datetime : string → option Z.
(** Python's [float]: the type of its values, the conversion [float(x)] of
    a cell, which returns or raises, and the literal [0.0]. *)
Context {float : Type}.
Variable py_float : value → result float.
Variable float_zero : float.
(** numpy's argsort behind [sort_values] on one key. *)
Variable argsort : list Z → list nat.

(** [DATA_DIR.mkdir(parents=True, exist_ok=True)]: no file changes. *)
Definition ensure_data_dir : M unit := ret tt.

(** The body of [load_csv], lines 76-78. *)
Definition load_csv_body (path : string) : M DataFrame :=
  λ w, match files w !! path with
       | None => (Ok empty_frame, w)
       | Some content => (read_csv content, w)
       end.

(** [load_csv] under [st.cache_data]: a stored result is returned
    without running the body; an exception stores nothing. *)
Definition load_csv (path : string) : M DataFrame :=
  λ w, match load_csv_cache w !! path with
       | Some df => (Ok df, w)
       | None =>
           match load_csv_body path w with
           | (Ok df, w') =>
               (Ok df, {| files := files w';
                          load_csv_cache := <[path:=df]> (load_csv_cache w');
                          get_all_data_cache := get_all_data_cache w' |})
           | (Raise e, w') => (Raise e, w')
           end
       end.

Definition datasets : list string :=
  ["kpis"; "forecast"; "recommendations"; "sales"; "inventory";
   "procurement"; "logistics"].

Fixpoint load_datasets (names : list string) : M (gmap string DataFrame) :=
  match names with
  | [] => ret ∅
  | name :: names' =>
      df ⇐ load_csv (name +:+ ".csv");
      data ⇐ load_datasets names';
      ret (<[name:=df]> data)
  end.

(** The body of [get_all_data], lines 82-90. *)
Definition get_all_data_body : M (gmap string DataFrame) :=
  load_datasets datasets.

Definition get_all_data : M (gmap string DataFrame) :=
  λ w, match get_all_data_cache w with
       | Some data => (Ok data, w)
       | None =>
           match get_all_data_body w with
           | (Ok data, w') =>
               (Ok data, {| files := files w';
                            load_csv_cache := load_csv_cache w';
                            get_all_data_cache := Some data |})
           | (Raise e, w') => (Raise e, w')
           end
       end.

(** [st.cache_data.clear()] *)
Definition cache_data_clear : M unit :=
  λ w, (Ok tt, {| files := files w;
                  load_csv_cache := ∅;
                  get_all_data_cache := None |}).

(** [df.to_csv(path, index=False)] *)
Definition write_csv (fname : string) (df : DataFrame) : M unit :=
  λ w, (Ok tt, {| files := <[fname:=to_csv df]> (files w);
                  load_csv_cache := load_csv_cache w;
                  get_all_data_cache := get_all_data_cache w |}).

(** ** Uploads, lines 289-309 *)

Definition mapping : list (string * string) :=
  [("Sales", "sales.csv"); ("Inventory", "inventory.csv");
   ("Procurement", "procurement.csv"); ("Logistics", "logistics.csv");
   ("KPIs", "kpis.csv"); ("Forecast", "forecast.csv");
   ("Recommendations", "recommendations.csv")].

(** One turn of the loop for a slot that holds a file, lines 304-309. *)
Definition upload (fname : string) (file : list Byte.byte) : M unit :=
  _ ⇐ ensure_data_dir;
  df ⇐ lift (read_csv file);
  _ ⇐ write_csv fname df;
  cache_data_clear.

Fixpoint upload_slots (slots : list (string * string))
    (uploaded : string → option (list Byte.byte)) : M unit :=
  match slots with
  | [] => ret tt
  | (label, fname) :: slots' =>
      match uploaded label with
      | Some file =>
          _ ⇐ upload fname file;
          upload_slots slots' uploaded
      | None => upload_slots slots' uploaded
      end
  end.

(** [uploaded label] is what the uploader widget of the slot returns. *)
Definition sidebar_uploaders (uploaded : string → option (list Byte.byte)) : M unit :=
  upload_slots mapping uploaded.

(** ** Sidebar filters, lines 108-128 *)

(** [sorted(list(set(a + b)))]: the set keeps one copy of each value and
    [sorted] forgets the order in which the set lists them. *)
Definition all_skus (df_forecast df_reco : DataFrame) : result (list scalar) :=
  sorted (remove_dups (unique (dropna (get df_forecast "sku" []))
                       ++ unique (dropna (get df_reco "sku" [])))).

Definition all_suppliers (df_reco : DataFrame) : result (list scalar) :=
  sorted (unique (dropna (get df_reco "supplier" []))).

(** Lines 122-126: the pair of calendar dates the date widget starts
    from, [(date_min.date(), date_max.date())]; [None] when either of
    [date_min] and [date_max] is NaT, and no widget is drawn. *)
Definition date_bounds (df_forecast : DataFrame) : result (option (Z * Z)) :=
  dates ← to_datetime parse_datetime (get df_forecast "date" []);
  dates' ← to_datetime parse_datetime (get df_forecast "date" []);
  match ts_min dates, ts_max dates' with
  | Some date_min, Some date_max =>
      Ok (Some (Timestamp_date date_min, Timestamp_date date_max))
  | _, _ => Ok None
  end.

(** The options the three widgets offer; what the user picks from them
    is an input of the pages. *)
Definition sidebar_filters (df_forecast df_reco : DataFrame)
    : result (list scalar * list scalar * option (Z * Z)) :=
  skus ← all_skus df_forecast df_reco;
  suppliers ← all_suppliers df_reco;
  bounds ← date_bounds df_forecast;
  Ok (skus, suppliers, bounds).

(** ** Pages *)

(** [data[key]] *)
Definition data_getitem (data : gmap string DataFrame) (key : string) : result DataFrame :=
  match data !! key with
  | Some df => Ok df
  | None => Raise (KeyError key)
  end.

(** [if selected: df = df[df[c].isin(selected)]] *)
Definition filter_isin (df : DataFrame) (c : string) (selected : list scalar) : result DataFrame :=
  match selected with
  | [] => Ok df
  | _ :: _ => s ← getitem df c; Ok (select df (isin s selected))
  end.

(** Lines 198-200; [date_range] is what the date widget returns, a
    tuple of calendar dates or [None]; the two ends are taken at midnight
    by [pd.to_datetime]. *)
Definition filter_dates (df : DataFrame) (date_range : option (list Z)) : result DataFrame :=
  match date_range with
  | Some [d0; d1] =>
      let start := date_to_datetime d0 in
      let end_ := date_to_datetime d1 in
      s0 ← getitem df "date";
      s1 ← getitem df "date";
      Ok (select df (mask_and (ge_ts s0 start) (le_ts s1 end_)))
  | _ => Ok df
  end.

(** One line of 161-165:
    [float(df_kpis.get(c, pd.Series([0])).iloc[0]) if not df_kpis.empty else 0.0]. *)
Definition kpi (df_kpis : DataFrame) (c : string) : result float :=
  if negb (empty df_kpis)
  then v ← iloc0 (get df_kpis c [VInt 0]); py_float v
  else Ok float_zero.

(** The five values of lines 161-165, by the name of their variable. *)
Record kpi_cards := {
  total_sales : float;
  avg_inventory : float;
  stockout_risk : float;
  avg_lead_time : float;
  avg_delivery_time : float;
}.

Definition kpis (df_kpis : DataFrame) : result kpi_cards :=
  a ← kpi df_kpis "total_sales";
  b ← kpi df_kpis "avg_inventory_per_sku";
  c ← kpi df_kpis "stockout_risk_pct";
  d ← kpi df_kpis "avg_lead_time_days";
  e ← kpi df_kpis "avg_delivery_time_days";
  Ok {| total_sales := a; avg_inventory := b; stockout_risk := c;
        avg_lead_time := d; avg_delivery_time := e |}.

(** [df.groupby(by, as_index=False)[metric].sum()
       .sort_values(metric, ascending=False).head(n)],
    lines 178-182 and 265-267. *)
Definition top_n (df : DataFrame) (by_ metric : string) (n : nat) : result (list (scalar * Z)) :=
  grouped ← groupby_sum df by_ metric;
  Ok (head n (sort_values_desc argsort grouped)).

(** The cards and the bars of the chart, [None] for the info message. *)
Definition page_kpi_dashboard (data : gmap string DataFrame)
    (selected_skus selected_suppliers : list scalar)
    : result (kpi_cards * option (list (scalar * Z))) :=
  df_kpis ← data_getitem data "kpis";
  cards ← kpis df_kpis;
  df_inv ← data_getitem data "inventory";
  if negb (empty df_inv) then
    df_inv ← filter_isin df_inv "sku" selected_skus;
    top_inv ← top_n df_inv "sku" "inventory_qty" 10;
    Ok (cards, Some top_inv)
  else Ok (cards, None).

(** Lines 195-200: the frame behind the chart. *)
Definition forecast_filtered (df_fc : DataFrame) (selected_skus : list scalar)
    (date_range : option (list Z)) : result DataFrame :=
  dates ← getitem df_fc "date";
  dates ← to_datetime parse_datetime dates;
  df_fc ← Ok (setitem df_fc "date" dates);
  df_fc ← filter_isin df_fc "sku" selected_skus;
  filter_dates df_fc date_range.

(** [px.line(df, x=.., y=.., color=..)] checks that its column arguments
    name columns of the frame. *)
Definition px_line (df : DataFrame) (cols : list string) : result unit :=
  if forallb (λ c, bool_decide (c ∈ columns df)) cols then Ok tt else Raise ValueError.

(** The frame of the chart and the table below it, [None] for the info
    message. *)
Definition page_forecasting (data : gmap string DataFrame)
    (selected_skus : list scalar) (date_range : option (list Z))
    : result (option (DataFrame * DataFrame)) :=
  df_fc ← data_getitem data "forecast";
  if empty df_fc then Ok None
  else
    df_fc ← forecast_filtered df_fc selected_skus date_range;
    _ ← px_line df_fc ["date"; "forecast_qty"; "sku"];
    table ← sort_values df_fc ["sku"; "date"];
    Ok (Some (df_fc, table)).

(** Lines 236-242. *)
Definition urgency_label (val : value) : string :=
  let v := lower (str val) in
  if decide (v = "high") then "🔴 High"
  else if decide (v = "medium") then "🟠 Medium"
  else "🟢 Low".

(** Lines 230-233. *)
Definition recommendations_filtered (df_rec : DataFrame)
    (selected_skus selected_suppliers : list scalar) : result DataFrame :=
  df_rec ← filter_isin df_rec "sku" selected_skus;
  filter_isin df_rec "supplier" selected_suppliers.

(** Lines 244-246. *)
Definition add_urgency (df_rec : DataFrame) : result DataFrame :=
  if decide ("urgency" ∈ columns df_rec)
  then
    s ← getitem df_rec "urgency";
    Ok (setitem df_rec "Urgency" ((λ v, VStr (urgency_label v)) <$> s))
  else Ok df_rec.

Definition columns_to_show (display : DataFrame) : list string :=
  filter (λ c, c ∈ columns display)
    ["sku"; "current_stock"; "reorder_point"; "recommended_order_qty";
     "supplier"; "transport_mode"; "lead_time_days"; "Urgency"].

(** Lines 244-259: the Reorder Suggestions table. *)
Definition reorder_suggestions (df_rec : DataFrame) : result DataFrame :=
  display ← add_urgency df_rec;
  shown ← getitems display (columns_to_show display);
  sort_values shown ["Urgency"; "sku"].

(** The table and the bars of the chart ([None] without forecast data),
    or [None] for the info message. *)
Definition page_recommendations (data : gmap string DataFrame)
    (selected_skus selected_suppliers : list scalar)
    : result (option (DataFrame * option (list (scalar * Z)))) :=
  df_rec ← data_getitem data "recommendations";
  if empty df_rec then Ok None
  else
    df_rec ← recommendations_filtered df_rec selected_skus selected_suppliers;
    table ← reorder_suggestions df_rec;
    let df_fc := default empty_frame (data !! "forecast") in
    if negb (empty df_fc) then
      top ← top_n df_fc "sku" "forecast_qty" 10;
      Ok (Some (table, Some top))
    else Ok (Some (table, None)).

(** Lines 271-285: per offered file its name and bytes, [None] for the
    warning. *)
Definition page_downloads (data : gmap string DataFrame)
    : list (string * option (list Byte.byte)) :=
  (λ key,
     let df := default empty_frame (data !! key) in
     (key +:+ ".csv", if empty df then None else Some (to_csv df)))
  <$> ["recommendations"; "forecast"; "kpis"].

(** ** Router, lines 313-338 *)

Inductive page :=
  | Home
  | KPIDashboard
  | Forecasting
  | Recommendations
  | Download.

(** What the widgets return in one run of the script. *)
Record inputs := {
  nav : page;
  selected_skus : list scalar;
  selected_suppliers : list scalar;
  date_range : option (list Z);
  uploaded : string → option (list Byte.byte);
}.

Inductive view :=
  | HomeView
  | KPIView (v : kpi_cards * option (list (scalar * Z)))
  | ForecastView (v : option (DataFrame * DataFrame))
  | RecommendationsView (v : option (DataFrame * option (list (scalar * Z))))
  | DownloadView (v : list (string * option (list Byte.byte))).

Definition main (i : inputs) : M view :=
  _ ⇐ ensure_data_dir;
  data ⇐ get_all_data;
  df_forecast ⇐ lift (data_getitem data "forecast");
  df_reco ⇐ lift (data_getitem data "recommendations");
  _ ⇐ lift (sidebar_filters df_forecast df_reco);
  _ ⇐ sidebar_uploaders (uploaded i);
  lift (match nav i with
        | Home => Ok HomeView
        | KPIDashboard =>
            v ← page_kpi_dashboard data (selected_skus i) (selected_suppliers i);
            Ok (KPIView v)
        | Forecasting =>
            v ← page_forecasting data (selected_skus i) (date_range i);
            Ok (ForecastView v)
        | Recommendations =>
            v ← page_recommendations data (selected_skus i) (selected_suppliers i);
            Ok (RecommendationsView v)
        | Download => Ok (DownloadView (page_downloads data))
        end).

(** ** Runs of the program *)

(** A process starts with both caches empty. *)
Definition fresh (w : world) : Prop :=
  load_csv_cache w = ∅ ∧ get_all_data_cache w = None.

(** The operations that touch the world: the two loaders and the
    uploaders, whatever they return. *)
Inductive step : world → world → Prop :=
  | step_load_csv path w :
      step w (load_csv path w).2
  | step_get_all_data w :
      step w (get_all_data w).2
  | step_uploaders up w :
      step w (sidebar_uploaders up w).2.

Definition reachable (w : world) : Prop :=
  ∃ w0, fresh w0 ∧ rtc step w0 w.

End app.

End App.

(* ===================================================================== *)
(** * Instances of the parameters, for concrete runs *)
(* ===================================================================== *)

Module Sample.
Import Pandas.

#[local] Instance byte_eq_dec : EqDecision Byte.byte := Stdlib.Strings.Byte.byte_eq_dec.

(** A reader for the comma-separated subset without quotes: the first
    line is the header, an empty field is NaN, a field of digits is a
    number, a short line is padded, a line longer than the header or an
    input without a header is rejected, as pandas does. *)
Fixpoint split_on (sep : Byte.byte) (l : list Byte.byte) : list (list Byte.byte) :=
  match l with
  | [] => [[]]
  | b :: l' =>
      if decide (b = sep) then [] :: split_on sep l'
      else match split_on sep l' with
           | h :: t => (b :: h) :: t
           | [] => [[b]]
           end
  end.

(** Unsigned decimal numerals. *)
Fixpoint digits (acc : Z) (s : string) : option Z :=
  match s with
  | EmptyString => Some acc
  | String c s' =>
      let n := Z.of_N (N_of_ascii c) in
      if bool_decide (48 ≤ n ≤ 57) then digits (10 * acc + (n - 48)) s' else None
  end.

Definition field (l : list Byte.byte) : value :=
  match l with
  | [] => VNaN
  | _ =>
      let s := String.string_of_list_byte l in
      match digits 0 s with
      | Some z => VInt z
      | None => VStr s
      end
  end.

Definition read_line (width : nat) (l : list Byte.byte) : result (list value) :=
  let fields := field <$> split_on "," l in
  if decide (length fields ≤ width)%nat
  then Ok (fields ++ replicate (width - length fields) VNaN)
  else Raise ParserError.

Definition read_csv (content : list Byte.byte) : result DataFrame :=
  match filter (λ l, l ≠ []) (split_on "010" content) with
  | [] => Raise ParserError
  | header :: lines =>
      let cols := String.string_of_list_byte <$> split_on "," header in
      rs ← mapM (read_line (length cols)) lines;
      Ok {| columns := cols; rows := rs |}
  end.

Definition join (sep : Byte.byte) (ls : list (list Byte.byte)) : list Byte.byte :=
  match ls with
  | [] => []
  | l :: ls' => l ++ concat ((λ x, sep :: x) <$> ls')
  end.

Definition to_csv (df : DataFrame) : list Byte.byte :=
  join "010"
    (join "," (String.list_byte_of_string <$> columns df)
     :: ((λ r, join "," ((λ v, String.list_byte_of_string
                                 (match v with VNone | VNaN => "" | _ => str v end)) <$> r))
         <$> rows df)).

(** The first days of 2024, the days 19723 to 19725 since 1970-01-01,
    and a time of the day. *)
Definition parse_datetime (s : string) : option Z :=
  if decide (s = "2024-01-01") then Some (date_to_datetime 19723)
  else if decide (s = "2024-01-02") then Some (date_to_datetime 19724)
  else if decide (s = "2024-01-03") then Some (date_to_datetime 19725)
  else if decide (s = "2024-01-03 12:00:00")
       then Some (date_to_datetime 19725 + 43200000000000)
  else None.

(** Python's [float] on the cells whose value is a whole number: a number
    is itself, NaN is nan ([None] here), a string is read as an unsigned
    decimal numeral, [float(None)] raises TypeError. *)
Definition parse_float (s : string) : option Z :=
  match s with
  | EmptyString => None
  | _ => digits 0 s
  end.

Definition py_float (v : value) : result (option Z) :=
  match v with
  | VInt z => Ok (Some z)
  | VNaN => Ok None
  | VNone => Raise TypeError
  | VStr s =>
      match parse_float s with
      | Some z => Ok (Some z)
      | None => Raise ValueError
      end
  end.

Definition float_zero : option Z := Some 0.

(** An indexer that sorts in descending order and leaves equal values in
    their order. *)
Definition desc_leb (l : list Z) (i j : nat) : bool :=
  bool_decide (default 0 (l !! j) ≤ default 0 (l !! i)).

Definition argsort_stable (l : list Z) : list nat :=
  stable_sort (desc_leb l) (seq 0 (length l)).

Definition bytes (s : string) : list Byte.byte := String.list_byte_of_string s.

Definition forecast_csv : list Byte.byte :=
  bytes "sku,date,forecast_qty
A,2024-01-01,10
B,2024-01-02,20".

(** A data directory that holds forecast.csv and sales.csv only, in a
    process that has loaded nothing yet. *)
Definition sales_csv : list Byte.byte :=
  bytes "sku,qty
A,1".

Definition world0 : App.world :=
  {| App.files := {[ "forecast.csv" := forecast_csv; "sales.csv" := sales_csv ]};
     App.load_csv_cache := ∅;
     App.get_all_data_cache := None |}.

(** A data directory whose forecast.csv and recommendations.csv both
    carry a supplier and a date. *)
Definition forecast_by_supplier_csv : list Byte.byte :=
  bytes "sku,date,forecast_qty,supplier
A,2024-01-01,10,S1
B,2024-01-02,20,S2".

Definition recommendations_by_date_csv : list Byte.byte :=
  bytes "sku,supplier,urgency,date
A,S1,high,2024-01-01
B,S1,low,2024-01-02".

Definition world_by_supplier : App.world :=
  {| App.files := {[ "forecast.csv" := forecast_by_supplier_csv;
                     "recommendations.csv" := recommendations_by_date_csv ]};
     App.load_csv_cache := ∅;
     App.get_all_data_cache := None |}.

(** The uploader widgets: a file in the Sales slot only. *)
Definition upload_sales (file : list Byte.byte) (label : string) : option (list Byte.byte) :=
  if decide (label = "Sales") then Some file else None.

End Sample.

(* ===================================================================== *)
(** * Vocabulary of the statements *)
(* ===================================================================== *)

Module Spec.
Import Pandas App.

(** Reading a dataset from storage with no memoisation in between. *)
Definition read_fresh (read_csv : list Byte.byte → result DataFrame)
    (fs : gmap string (list Byte.byte)) (path : string) : result DataFrame :=
  match fs !! path with
  | None => Ok empty_frame
  | Some content => read_csv content
  end.

Fixpoint read_all (read_csv : list Byte.byte → result DataFrame)
    (fs : gmap string (list Byte.byte)) (names : list string)
    : result (gmap string DataFrame) :=
  match names with
  | [] => Ok ∅
  | name :: names' =>
      df ← read_fresh read_csv fs (name +:+ ".csv");
      data ← read_all read_csv fs names';
      Ok (<[name:=df]> data)
  end.

(** Every memoised result is what a fresh read of storage returns. *)
Definition coherent (read_csv : list Byte.byte → result DataFrame) (w : world) : Prop :=
  (∀ path df, load_csv_cache w !! path = Some df →
              read_fresh read_csv (files w) path = Ok df) ∧
  (∀ data, get_all_data_cache w = Some data →
           read_all read_csv (files w) datasets = Ok data).

Definition caches_empty (w : world) : Prop :=
  load_csv_cache w = ∅ ∧ get_all_data_cache w = None.

(** The rows [applyFilters] keeps, in the words of the specification:
    (skuSet is empty or row.sku is in skuSet) and (supplierSet is empty or
    row.supplier is in supplierSet) and (dateRange is none or
    start <= row.date <= end).  The three indices locate the columns. *)
Definition in_range (dateRange : option (Z * Z)) (date : value) : Prop :=
  match dateRange, date with
  | None, _ => True
  | Some (lo, hi), VInt t => lo ≤ t ≤ hi
  | Some _, _ => False
  end.

#[global] Instance in_range_dec dateRange date : Decision (in_range dateRange date).
Proof. unfold in_range. destruct dateRange as [[lo hi]|], date; apply _. Defined.

Definition keeps (i_sku i_supplier i_date : nat) (skuSet supplierSet : list scalar)
    (dateRange : option (Z * Z)) (r : list value) : Prop :=
  (skuSet = [] ∨ cell i_sku r ∈ of_scalar <$> skuSet) ∧
  (supplierSet = [] ∨ cell i_supplier r ∈ of_scalar <$> supplierSet) ∧
  in_range dateRange (cell i_date r).

#[global] Instance keeps_dec i_sku i_supplier i_date skuSet supplierSet dateRange r :
  Decision (keeps i_sku i_supplier i_date skuSet supplierSet dateRange r).
Proof. unfold keeps. apply _. Defined.

(** The range the date widget denotes: from midnight of the first date to
    midnight of the second, or none while the user has picked fewer than
    two. *)
Definition range_of (date_range : option (list Z)) : option (Z * Z) :=
  match date_range with
  | Some [d0; d1] => Some (date_to_datetime d0, date_to_datetime d1)
  | _ => None
  end.

(** The place of a column among the labels of a frame; it is consulted
    only where the column exists. *)
Definition position (c : string) (df : DataFrame) : nat :=
  default 0%nat (index_of c (columns df)).

(** A cell holds a timestamp that is not after [bound]. *)
Definition not_after (bound : Z) (date : value) : Prop :=
  match date with
  | VInt t => t ≤ bound
  | _ => False
  end.

#[global] Instance not_after_dec bound date : Decision (not_after bound date).
Proof. unfold not_after. destruct date; apply _. Defined.

(** A frame is rectangular: every row has a cell per column. *)
Definition wf (df : DataFrame) : Prop :=
  Forall (λ r, length r = length (columns df)) (rows df).

(** Row [r1] may stand before row [r2] in a table ordered by the text of
    the Urgency label first and by sku second ([kU] and [kS] locate the two
    columns). *)
Definition by_urgency_sku (kU kS : nat) (r1 r2 : list value) : Prop :=
  ∃ l1 l2 : string,
    cell kU r1 = VStr l1 ∧ cell kU r2 = VStr l2 ∧
    (String.ltb l1 l2 = true ∨
     (l1 = l2 ∧ value_leb (cell kS r1) (cell kS r2) = true)).

(** The sum of the metric over the rows whose key is [k], missing values
    counting for nothing. *)
Definition sum_for (k : scalar) (keyed : list (value * option Z)) : Z :=
  foldr (λ p acc, if decide (to_scalar p.1 = Some k) then default 0 p.2 + acc else acc)
        0 keyed.

(** The total a list of groups holds for a key. *)
Definition total_of (k : scalar) (g : list (scalar * Z)) : Z :=
  foldr (λ p acc, if decide (p.1 = k) then p.2 + acc else acc) 0 g.

(** Strictly ascending keys. *)
Definition key_lt (a b : scalar) : Prop := scalar_leb a b = true ∧ a ≠ b.

(** A metric cell as the number a sum adds, if any. *)
Definition number (v : value) : option Z :=
  match v with
  | VInt z => Some z
  | _ => None
  end.

(** The numbers an int64 holds. *)
Definition int64 (z : Z) : Prop := -9223372036854775808 ≤ z < 9223372036854775808.

(** Every sum reduced to the int64 congruent to it. *)
Definition wrapped (g : list (scalar * Z)) : list (scalar * Z) :=
  (λ p, (p.1, wrap64 p.2)) <$> g.

#[global] Instance SStr_inj : Inj (=) (=) SStr.
Proof. by intros s t [= ->]. Qed.

#[global] Instance SInt_inj : Inj (=) (=) SInt.
Proof. by intros s t [= ->]. Qed.

#[global] Instance ge_trans : Transitive (λ a b : Z, b ≤ a).
Proof. intros a b c. lia. Qed.

(** The inputs of a run in which no uploader holds a file. *)
Definition no_uploads (i : inputs) : inputs :=
  {| nav := nav i; selected_skus := selected_skus i;
     selected_suppliers := selected_suppliers i; date_range := date_range i;
     uploaded := λ _, None |}.

(** What each page shows when no dataset has any row. *)
Definition placeholder {float : Type} (float_zero : float) (p : page) : view :=
  match p with
  | Home => HomeView
  | KPIDashboard =>
      KPIView ({| total_sales := float_zero; avg_inventory := float_zero;
                  stockout_risk := float_zero; avg_lead_time := float_zero;
                  avg_delivery_time := float_zero |}, None)
  | Forecasting => ForecastView None
  | Recommendations => RecommendationsView None
  | Download =>
      DownloadView [("recommendations.csv", None); ("forecast.csv", None);
                    ("kpis.csv", None)]
  end.

(** The sum of a column of numbers. *)
Definition total (l : list Z) : Z := foldr Z.add 0 l.

(** The sum of the metric over the rows that have a key. *)
Definition keyed_total (keyed : list (value * option Z)) : Z :=
  foldr (λ p acc, if isna p.1 then acc else default 0 p.2 + acc) 0 keyed.

(** The same world with other files: storage changed behind the caches. *)
Definition with_files (fs : gmap string (list Byte.byte)) (w : world) : world :=
  {| files := fs; load_csv_cache := load_csv_cache w;
     get_all_data_cache := get_all_data_cache w |}.

End Spec.

(* ===================================================================== *)
(** * Sorting *)
(* ===================================================================== *)

Section stable_sort_facts.
Context {A : Type} (leb : A → A → bool).

Lemma insert_sorted_perm (x : A) (l : list A) :
  insert_sorted leb x l ≡ₚ x :: l.
Proof.
  induction l as [|y l IH]; simpl; [done|].
  destruct (leb x y); [done|].
  rewrite IH. apply Permutation_swap.
Qed.

Lemma stable_sort_perm (l : list A) : stable_sort leb l ≡ₚ l.
Proof.
  induction l as [|x l IH]; simpl; [done|].
  by rewrite insert_sorted_perm, IH.
Qed.

Lemma stable_sort_length (l : list A) : length (stable_sort leb l) = length l.
Proof. apply Permutation_length, stable_sort_perm. Qed.

Lemma stable_sort_elem_of (x : A) (l : list A) : x ∈ stable_sort leb l ↔ x ∈ l.
Proof. by rewrite stable_sort_perm. Qed.

Hypothesis leb_total : ∀ x y, leb x y = true ∨ leb y x = true.

Lemma insert_sorted_sorted (x : A) (l : list A) :
  Sorted (λ a b, leb a b = true) l →
  Sorted (λ a b, leb a b = true) (insert_sorted leb x l).
Proof.
  induction 1 as [|y l Hs IH Hhd]; simpl.
  - by repeat constructor.
  - destruct (leb x y) eqn:Hxy.
    + constructor; [by constructor | by constructor].
    + constructor; [done|].
      destruct Hhd as [|z l Hyz]; simpl.
      * constructor. destruct (leb_total x y); congruence.
      * destruct (leb x z); constructor; [|done].
        destruct (leb_total x y); congruence.
Qed.

Lemma stable_sort_sorted (l : list A) :
  Sorted (λ a b, leb a b = true) (stable_sort leb l).
Proof.
  induction l as [|x l IH]; simpl; [constructor|].
  by apply insert_sorted_sorted.
Qed.

Hypothesis leb_trans : ∀ x y z, leb x y = true → leb y z = true → leb x z = true.

Lemma stable_sort_strongly_sorted (l : list A) :
  StronglySorted (λ a b, leb a b = true) (stable_sort leb l).
Proof.
  apply Sorted_StronglySorted; [|apply stable_sort_sorted].
  intros x y z. apply leb_trans.
Qed.
End stable_sort_facts.

Section orders.
Lemma string_leb_total (s t : string) : String.leb s t = true ∨ String.leb t s = true.
Proof. apply String.leb_total. Qed.

Lemma string_leb_trans (s t u : string) :
  String.leb s t = true → String.leb t u = true → String.leb s u = true.
Proof.
  intros H1 H2. apply Is_true_true.
  apply Is_true_true in H1, H2.
  exact (transitivity (R:=String.le) H1 H2).
Qed.

Lemma string_leb_antisym (s t : string) :
  String.leb s t = true → String.leb t s = true → s = t.
Proof. apply String.leb_antisym. Qed.

Lemma scalar_leb_total (a b : scalar) : scalar_leb a b = true ∨ scalar_leb b a = true.
Proof.
  destruct a as [x|s], b as [y|t]; simpl; auto.
  - destruct (decide (x ≤ y)).
    + left. by apply bool_decide_eq_true.
    + right. apply bool_decide_eq_true. lia.
  - apply string_leb_total.
Qed.

Lemma scalar_leb_trans (a b c : scalar) :
  scalar_leb a b = true → scalar_leb b c = true → scalar_leb a c = true.
Proof.
  destruct a as [x|s], b as [y|t], c as [z|u]; simpl; try done.
  - rewrite !bool_decide_eq_true. lia.
  - apply string_leb_trans.
Qed.

Lemma scalar_leb_antisym (a b : scalar) :
  scalar_leb a b = true → scalar_leb b a = true → a = b.
Proof.
  destruct a as [x|s], b as [y|t]; simpl; try done.
  - rewrite !bool_decide_eq_true. intros. f_equal. lia.
  - intros H1 H2. f_equal. by apply string_leb_antisym.
Qed.

Lemma value_leb_total (a b : value) :
  Pandas.value_leb a b = true ∨ Pandas.value_leb b a = true.
Proof.
  unfold Pandas.value_leb.
  destruct (to_scalar a), (to_scalar b); auto using scalar_leb_total.
Qed.

Lemma value_leb_trans (a b c : value) :
  Pandas.value_leb a b = true → Pandas.value_leb b c = true →
  Pandas.value_leb a c = true.
Proof.
  unfold Pandas.value_leb.
  destruct (to_scalar a), (to_scalar b), (to_scalar c); try done.
  apply scalar_leb_trans.
Qed.

Lemma rows_leb_total (ks : list nat) (r1 r2 : list value) :
  Pandas.rows_leb ks r1 r2 = true ∨ Pandas.rows_leb ks r2 r1 = true.
Proof.
  induction ks as [|k ks IH]; simpl; [auto|].
  destruct (value_leb_total (Pandas.cell k r1) (Pandas.cell k r2)) as [H|H];
    rewrite H;
    [destruct (Pandas.value_leb (Pandas.cell k r2) (Pandas.cell k r1))
    |destruct (Pandas.value_leb (Pandas.cell k r1) (Pandas.cell k r2))]; auto.
Qed.

Lemma rows_leb_trans (ks : list nat) (r1 r2 r3 : list value) :
  Pandas.rows_leb ks r1 r2 = true → Pandas.rows_leb ks r2 r3 = true →
  Pandas.rows_leb ks r1 r3 = true.
Proof.
  induction ks as [|k ks IH]; simpl; [done|].
  pose proof (value_leb_trans (Pandas.cell k r1) (Pandas.cell k r2) (Pandas.cell k r3)).
  pose proof (value_leb_trans (Pandas.cell k r2) (Pandas.cell k r3) (Pandas.cell k r1)).
  pose proof (value_leb_trans (Pandas.cell k r3) (Pandas.cell k r1) (Pandas.cell k r2)).
  pose proof (value_leb_trans (Pandas.cell k r3) (Pandas.cell k r2) (Pandas.cell k r1)).
  destruct (Pandas.value_leb (Pandas.cell k r1) (Pandas.cell k r2));
    destruct (Pandas.value_leb (Pandas.cell k r2) (Pandas.cell k r1));
    destruct (Pandas.value_leb (Pandas.cell k r2) (Pandas.cell k r3));
    destruct (Pandas.value_leb (Pandas.cell k r3) (Pandas.cell k r2));
    destruct (Pandas.value_leb (Pandas.cell k r1) (Pandas.cell k r3));
    destruct (Pandas.value_leb (Pandas.cell k r3) (Pandas.cell k r1));
    try done; try apply IH; intros; exfalso; intuition congruence.
Qed.
End orders.

(* ===================================================================== *)
(** * Urgency labels *)
(* ===================================================================== *)

Section urgency.
Import App.

(** [str] of a number starts with a digit or a sign, never a letter. *)
Lemma pretty_N_go_head (x : N) (s : string) :
  pretty_N_go x s = s ∨
  ∃ d rest, pretty_N_go x s = String (pretty_N_char d) rest.
Proof.
  revert s. induction (N.lt_wf_0 x) as [x _ IH]; intros s.
  assert (x = 0 ∨ 0 < x)%N as [->|Hx] by lia.
  - left. apply pretty_N_go_0.
  - right. rewrite pretty_N_go_step by done.
    destruct (IH (x `div` 10)%N (N.div_lt x 10 Hx eq_refl)
                (String (pretty_N_char (x `mod` 10)) s)) as [->|H]; eauto.
Qed.

Lemma lower_digit_head (d : N) (rest s : string) :
  lower (String (pretty_N_char d) rest) = String "h" s ∨
  lower (String (pretty_N_char d) rest) = String "m" s → False.
Proof.
  simpl. unfold pretty_N_char.
  intros [H|H]; injection H as H _; revert H;
    repeat case_match; by vm_compute.
Qed.

Lemma lower_str_int (z : Z) :
  lower (str (VInt z)) ≠ "high" ∧ lower (str (VInt z)) ≠ "medium".
Proof.
  simpl. unfold pretty, pretty_Z.
  destruct z as [|p|p]; [by split| |by split].
  unfold pretty, pretty_positive, pretty, pretty_N.
  destruct (decide (N.pos p = 0%N)); [done|].
  destruct (pretty_N_go_head (N.pos p) "") as [E|(d & rest & E)]; rewrite E.
  - by split.
  - split; intros H; eapply lower_digit_head; [left|right]; exact H.
Qed.

Lemma urgency_label_cases (v : value) :
  (lower (str v) = "high" ∧ urgency_label v = "🔴 High") ∨
  (lower (str v) = "medium" ∧ urgency_label v = "🟠 Medium") ∨
  (lower (str v) ≠ "high" ∧ lower (str v) ≠ "medium" ∧ urgency_label v = "🟢 Low").
Proof.
  unfold urgency_label; simpl.
  destruct (decide (lower (str v) = "high")) as [->|Hh]; [by left|].
  destruct (decide (lower (str v) = "medium")) as [->|Hm]; [by right; left|].
  by right; right.
Qed.

(** C4. [urgency_label] lowers [str(val)] and compares it with "high" and
    "medium": it is total, returns one of three distinct labels, gives the
    high label exactly to the spellings of "high" in any case, the medium
    label exactly to those of "medium", and the low label to everything
    else, [None], NaN and "unknown" included. *)
Theorem urgency_label_spec :
  (∀ v, urgency_label v = "🔴 High" ∨ urgency_label v = "🟠 Medium"
        ∨ urgency_label v = "🟢 Low") ∧
  (∀ v, urgency_label v = "🔴 High" ↔ lower (str v) = "high") ∧
  (∀ v, urgency_label v = "🟠 Medium" ↔ lower (str v) = "medium") ∧
  (∀ v, urgency_label v = "🟢 Low" ↔
        lower (str v) ≠ "high" ∧ lower (str v) ≠ "medium") ∧
  (∀ s t, lower s = lower t →
          urgency_label (VStr s) = urgency_label (VStr t)) ∧
  urgency_label (VStr "HIGH") = "🔴 High" ∧
  urgency_label (VStr "High") = "🔴 High" ∧
  urgency_label (VStr "high") = "🔴 High" ∧
  urgency_label (VStr "MEDIUM") = "🟠 Medium" ∧
  urgency_label (VStr "low") = "🟢 Low" ∧
  urgency_label (VStr "unknown") = "🟢 Low" ∧
  urgency_label VNone = "🟢 Low" ∧
  urgency_label VNaN = "🟢 Low" ∧
  (∀ z, urgency_label (VInt z) = "🟢 Low").
Proof.
  split_and!; try reflexivity.
  - intros v. destruct (urgency_label_cases v) as [[_ H]|[[_ H]|(_ & _ & H)]]; auto.
  - intros v. destruct (urgency_label_cases v) as [[E H]|[[E H]|(E1 & E2 & H)]];
      rewrite H; split; try done; intros; congruence.
  - intros v. destruct (urgency_label_cases v) as [[E H]|[[E H]|(E1 & E2 & H)]];
      rewrite H; split; try done; intros; congruence.
  - intros v. destruct (urgency_label_cases v) as [[E H]|[[E H]|(E1 & E2 & H)]];
      rewrite H; split; try done; intros [? ?]; congruence.
  - intros s t E. unfold urgency_label; simpl. by rewrite E.
  - intros z. destruct (lower_str_int z) as [Hh Hm].
    destruct (urgency_label_cases (VInt z)) as [[E _]|[[E _]|(_ & _ & H)]]; done.
Qed.
End urgency.

(* ===================================================================== *)
(** * Storage, memoisation and uploads *)
(* ===================================================================== *)

Section storage.
Import Pandas App Spec.
Variable read_csv : list Byte.byte → result DataFrame.
Variable to_csv : DataFrame → list Byte.byte.

Lemma load_csv_body_fresh (path : string) (w : world) :
  load_csv_body read_csv path w = (read_fresh read_csv (files w) path, w).
Proof. unfold load_csv_body, read_fresh. by destruct (files w !! path). Qed.

Lemma load_csv_files (path : string) (w : world) :
  files (load_csv read_csv path w).2 = files w.
Proof.
  unfold load_csv. destruct (load_csv_cache w !! path); [done|].
  rewrite load_csv_body_fresh. by destruct (read_fresh _ _ _).
Qed.

Lemma load_csv_coherent (path : string) (w : world) :
  coherent read_csv w →
  (load_csv read_csv path w).1 = read_fresh read_csv (files w) path ∧
  coherent read_csv (load_csv read_csv path w).2.
Proof.
  intros [Hl Hg]. unfold load_csv.
  destruct (load_csv_cache w !! path) as [df|] eqn:Hc; simpl.
  { split; [by rewrite (Hl _ _ Hc) | by split]. }
  rewrite load_csv_body_fresh.
  destruct (read_fresh read_csv (files w) path) as [df|e] eqn:Hr; simpl.
  - split; [done|]. split; simpl; [|done].
    intros p df'. rewrite lookup_insert. case_decide; [|by apply Hl].
    intros [= <-]. by subst.
  - by repeat split.
Qed.

Lemma load_datasets_coherent (names : list string) (w : world) :
  coherent read_csv w →
  (load_datasets read_csv names w).1 = read_all read_csv (files w) names ∧
  files (load_datasets read_csv names w).2 = files w ∧
  coherent read_csv (load_datasets read_csv names w).2.
Proof.
  revert w. induction names as [|name names IH]; intros w Hw; simpl; [done|].
  unfold mbind.
  destruct (load_csv_coherent (name +:+ ".csv") w Hw) as [H1 H2].
  pose proof (load_csv_files (name +:+ ".csv") w) as Hf.
  destruct (load_csv read_csv (name +:+ ".csv") w) as [[df|e] w1]; simpl in *;
    rewrite <- H1; simpl; [|done].
  destruct (IH w1 H2) as (H3 & H4 & H5).
  destruct (load_datasets read_csv names w1) as [[data|e] w2]; simpl in *;
    rewrite <- Hf, <- H3; simpl; split_and!; try done; congruence.
Qed.

Lemma get_all_data_coherent (w : world) :
  coherent read_csv w →
  (get_all_data read_csv w).1 = read_all read_csv (files w) datasets ∧
  files (get_all_data read_csv w).2 = files w ∧
  coherent read_csv (get_all_data read_csv w).2.
Proof.
  intros Hw. unfold get_all_data.
  destruct (get_all_data_cache w) as [data|] eqn:Hc; simpl.
  { split_and!; try done. symmetry. by apply Hw. }
  unfold get_all_data_body.
  destruct (load_datasets_coherent datasets w Hw) as (H1 & H2 & [H3 H4]).
  destruct (load_datasets read_csv datasets w) as [[data|e] w1]; cbn [fst snd] in *.
  - split_and!; try done. split; cbn [files load_csv_cache get_all_data_cache]; [done|].
    intros d [= <-]. congruence.
  - by repeat split.
Qed.

Lemma upload_raise (fname : string) (file : list Byte.byte) (w : world) (e : exn) :
  read_csv file = Raise e →
  upload read_csv to_csv fname file w = (Raise e, w).
Proof. intros H. unfold upload, mbind, ensure_data_dir, ret, lift. by rewrite H. Qed.

Lemma upload_ok (fname : string) (file : list Byte.byte) (w : world) (df : DataFrame) :
  read_csv file = Ok df →
  upload read_csv to_csv fname file w =
    (Ok tt, {| files := <[fname:=to_csv df]> (files w);
               load_csv_cache := ∅;
               get_all_data_cache := None |}).
Proof. intros H. unfold upload, mbind, ensure_data_dir, ret, lift. by rewrite H. Qed.

Lemma caches_empty_coherent (w : world) : caches_empty w → coherent read_csv w.
Proof.
  intros [H1 H2]. split.
  - intros p df. by rewrite H1, lookup_empty.
  - intros d. by rewrite H2.
Qed.

Lemma upload_slots_coherent slots up (w : world) :
  coherent read_csv w →
  coherent read_csv (upload_slots read_csv to_csv slots up w).2.
Proof.
  revert w. induction slots as [|[label fname] slots IH]; intros w Hw; simpl; [done|].
  destruct (up label) as [file|]; [|by apply IH].
  unfold mbind. destruct (read_csv file) as [df|e] eqn:Hr.
  - rewrite (upload_ok _ _ _ _ Hr). apply IH. by apply caches_empty_coherent.
  - by rewrite (upload_raise _ _ _ _ Hr).
Qed.

Lemma upload_slots_caches_empty slots up (w : world) :
  caches_empty w →
  caches_empty (upload_slots read_csv to_csv slots up w).2.
Proof.
  revert w. induction slots as [|[label fname] slots IH]; intros w Hw; simpl; [done|].
  destruct (up label) as [file|]; [|by apply IH].
  unfold mbind. destruct (read_csv file) as [df|e] eqn:Hr.
  - rewrite (upload_ok _ _ _ _ Hr). by apply IH.
  - by rewrite (upload_raise _ _ _ _ Hr).
Qed.

Lemma upload_slots_clears slots up (w : world) :
  (∃ label fname, (label, fname) ∈ slots ∧ is_Some (up label)) →
  (upload_slots read_csv to_csv slots up w).1 = Ok tt →
  caches_empty (upload_slots read_csv to_csv slots up w).2.
Proof.
  revert w. induction slots as [|[label fname] slots IH]; intros w (l & f & Hin & Hup).
  { by apply elem_of_nil in Hin. }
  simpl. destruct (up label) as [file|] eqn:Hl.
  - unfold mbind. destruct (read_csv file) as [df|e] eqn:Hr.
    + rewrite (upload_ok _ _ _ _ Hr). intros _.
      by apply upload_slots_caches_empty.
    + by rewrite (upload_raise _ _ _ _ Hr).
  - apply IH. exists l, f. split; [|done].
    apply elem_of_cons in Hin as [[= -> ->]|]; [|done].
    rewrite Hl in Hup. by destruct Hup.
Qed.

Lemma upload_slots_failure slots up (w : world) label fname file e :
  NoDup slots.*2 →
  (label, fname) ∈ slots → up label = Some file → read_csv file = Raise e →
  (∃ e', (upload_slots read_csv to_csv slots up w).1 = Raise e') ∧
  files (upload_slots read_csv to_csv slots up w).2 !! fname = files w !! fname.
Proof.
  revert w. induction slots as [|[l0 f0] slots IH]; intros w Hnd Hin Hup Hr.
  { by apply elem_of_nil in Hin. }
  simpl in *. apply NoDup_cons in Hnd as [Hf0 Hnd].
  destruct (decide (l0 = label)) as [->|Hne].
  { rewrite Hup. unfold mbind. rewrite (upload_raise _ _ _ _ Hr). eauto. }
  apply elem_of_cons in Hin as [[= ? ?]|Hin]; [congruence|].
  assert (f0 ≠ fname) as Hfn.
  { intros ->. apply Hf0. apply list_elem_of_fmap. by exists (label, fname). }
  destruct (up l0) as [file0|]; [|by apply IH].
  unfold mbind. destruct (read_csv file0) as [df|e0] eqn:Hr0.
  - rewrite (upload_ok _ _ _ _ Hr0).
    destruct (IH {| files := <[f0:=to_csv df]> (files w); load_csv_cache := ∅;
                    get_all_data_cache := None |} Hnd Hin Hup Hr) as [H1 H2].
    split; [done|]. rewrite H2. simpl. by rewrite lookup_insert_ne.
  - rewrite (upload_raise _ _ _ _ Hr0). eauto.
Qed.

Lemma read_all_lookup fs (names : list string) data (name : string) :
  read_all read_csv fs names = Ok data → name ∈ names →
  ∃ df, data !! name = Some df ∧ read_fresh read_csv fs (name +:+ ".csv") = Ok df.
Proof.
  revert data. induction names as [|n names IH]; intros data Hr Hin.
  { by apply elem_of_nil in Hin. }
  simpl in Hr.
  destruct (read_fresh read_csv fs (n +:+ ".csv")) as [df|] eqn:Hn; [|done].
  simpl in Hr. destruct (read_all read_csv fs names) as [d|]; [|done].
  simpl in Hr. injection Hr as <-.
  destruct (decide (name = n)) as [->|Hne].
  - exists df. by rewrite lookup_insert_eq.
  - apply elem_of_cons in Hin as [?|Hin]; [done|].
    destruct (IH d eq_refl Hin) as (df' & ? & ?).
    exists df'. by rewrite lookup_insert_ne.
Qed.

Lemma step_coherent (w w' : world) :
  step read_csv to_csv w w' → coherent read_csv w → coherent read_csv w'.
Proof.
  destruct 1; intros Hw.
  - by apply load_csv_coherent.
  - by apply get_all_data_coherent.
  - by apply upload_slots_coherent.
Qed.

Lemma reachable_coherent (w : world) :
  reachable read_csv to_csv w → coherent read_csv w.
Proof.
  intros (w0 & Hfresh & Hsteps).
  apply caches_empty_coherent in Hfresh.
  induction Hsteps as [w|w1 w2 w3 Hs _ IH]; [done|].
  apply IH. by eapply step_coherent.
Qed.
End storage.

Section storage_claims.
Import Pandas App Spec.

Lemma mapping_NoDup : NoDup mapping.*2.
Proof. apply (bool_decide_unpack _). by vm_compute. Qed.

(** C6. An upload whose content [read_csv] rejects raises and changes
    nothing: the turn of the loop leaves the whole world as it was, and a
    run of [sidebar_uploaders] with such a file in a slot raises and
    keeps the file of that slot. *)
Theorem upload_failure_keeps_storage
    (read_csv : list Byte.byte → result DataFrame) (to_csv : DataFrame → list Byte.byte)
    (w : world) (up : string → option (list Byte.byte))
    (label fname : string) (file : list Byte.byte) (e : exn) :
  (label, fname) ∈ mapping →
  up label = Some file →
  read_csv file = Raise e →
  upload read_csv to_csv fname file w = (Raise e, w) ∧
  (∃ e', (sidebar_uploaders read_csv to_csv up w).1 = Raise e') ∧
  files (sidebar_uploaders read_csv to_csv up w).2 !! fname = files w !! fname.
Proof.
  intros Hin Hup Hr. split; [by apply upload_raise|].
  by apply (upload_slots_failure read_csv to_csv mapping up w label fname file e
              mapping_NoDup).
Qed.

(** C7. A successful upload to one slot writes that slot's file and
    empties both caches, for every dataset: the next [load_csv] of any
    path and the next [get_all_data] return what a fresh read of storage
    returns; a run of [sidebar_uploaders] that returns with a file in
    some slot ends with both caches empty. *)
Theorem upload_invalidates_all
    (read_csv : list Byte.byte → result DataFrame) (to_csv : DataFrame → list Byte.byte)
    (w : world) (fname : string) (file : list Byte.byte) (df : DataFrame) :
  read_csv file = Ok df →
  let w' := (upload read_csv to_csv fname file w).2 in
  (upload read_csv to_csv fname file w).1 = Ok tt ∧
  files w' = <[fname:=to_csv df]> (files w) ∧
  load_csv_cache w' = ∅ ∧
  get_all_data_cache w' = None ∧
  (∀ path, (load_csv read_csv path w').1 = read_fresh read_csv (files w') path) ∧
  (get_all_data read_csv w').1 = read_all read_csv (files w') datasets ∧
  (∀ up w1, (∃ label fname', (label, fname') ∈ mapping ∧ is_Some (up label)) →
            (sidebar_uploaders read_csv to_csv up w1).1 = Ok tt →
            caches_empty (sidebar_uploaders read_csv to_csv up w1).2).
Proof.
  intros Hr w'. subst w'. rewrite (upload_ok read_csv to_csv _ _ _ _ Hr).
  cbn [fst snd files load_csv_cache get_all_data_cache].
  assert (coherent read_csv
            {| files := <[fname:=to_csv df]> (files w); load_csv_cache := ∅;
               get_all_data_cache := None |}) as Hc
    by by apply caches_empty_coherent.
  split_and!; try done.
  - intros path. by apply load_csv_coherent.
  - by apply get_all_data_coherent.
  - intros up w1. apply upload_slots_clears.
Qed.

(** C8. When the file of a dataset does not exist, the body of
    [load_csv] returns the empty frame and raises nothing, and so does
    the memoised [load_csv] in every state the program reaches;
    [get_all_data], when it returns, holds the empty frame under that
    dataset's name. *)
Theorem load_missing_file_empty
    (read_csv : list Byte.byte → result DataFrame) (to_csv : DataFrame → list Byte.byte)
    (w : world) (path : string) :
  reachable read_csv to_csv w →
  files w !! path = None →
  load_csv_body read_csv path w = (Ok empty_frame, w) ∧
  (load_csv read_csv path w).1 = Ok empty_frame ∧
  empty empty_frame = true ∧
  (∀ name data, name ∈ datasets → path = name +:+ ".csv" →
                (get_all_data read_csv w).1 = Ok data →
                data !! name = Some empty_frame).
Proof.
  intros Hreach Hfile. apply reachable_coherent in Hreach.
  assert (read_fresh read_csv (files w) path = Ok empty_frame) as Hfresh
    by (unfold read_fresh; by rewrite Hfile).
  split_and!.
  - by rewrite load_csv_body_fresh, Hfresh.
  - destruct (load_csv_coherent read_csv path w Hreach) as [-> _]. done.
  - done.
  - intros name data Hin -> Hget.
    destruct (get_all_data_coherent read_csv w Hreach) as (Hg & _ & _).
    rewrite Hget in Hg. symmetry in Hg.
    destruct (read_all_lookup read_csv _ _ _ _ Hg Hin) as (df & Hl & Hf).
    congruence.
Qed.

Lemma upload_failure_keeps_storage_witness :
  let up := Sample.upload_sales [] in
  (sidebar_uploaders Sample.read_csv Sample.to_csv up Sample.world0).1
    = Raise ParserError ∧
  files (sidebar_uploaders Sample.read_csv Sample.to_csv up Sample.world0).2
    !! "sales.csv" = Some Sample.sales_csv.
Proof.
  destruct (upload_failure_keeps_storage Sample.read_csv Sample.to_csv
              Sample.world0 (Sample.upload_sales []) "Sales" "sales.csv" []
              ParserError) as (_ & _ & H).
  - set_solver.
  - reflexivity.
  - reflexivity.
  - split; [reflexivity|]. rewrite H. reflexivity.
Defined.

Lemma upload_invalidates_all_witness :
  let w' := (upload Sample.read_csv Sample.to_csv "sales.csv"
               Sample.forecast_csv Sample.world0).2 in
  load_csv_cache w' = ∅ ∧
  ∀ path, (load_csv Sample.read_csv path w').1
          = read_fresh Sample.read_csv (files w') path.
Proof.
  destruct (upload_invalidates_all Sample.read_csv Sample.to_csv Sample.world0
              "sales.csv" Sample.forecast_csv
              {| columns := ["sku"; "date"; "forecast_qty"];
                 rows := [[VStr "A"; VStr "2024-01-01"; VInt 10];
                          [VStr "B"; VStr "2024-01-02"; VInt 20]] |})
    as (_ & _ & H1 & _ & H2 & _).
  - reflexivity.
  - split; [exact H1 | exact H2].
Defined.

Lemma load_missing_file_empty_witness :
  let w := (get_all_data Sample.read_csv Sample.world0).2 in
  (load_csv Sample.read_csv "kpis.csv" w).1 = Ok empty_frame.
Proof.
  refine (proj1 (proj2 (load_missing_file_empty Sample.read_csv Sample.to_csv
                          (get_all_data Sample.read_csv Sample.world0).2
                          "kpis.csv" _ _))).
  - exists Sample.world0. split; [done|].
    eapply rtc_l; [apply step_get_all_data | apply rtc_refl].
  - vm_compute. reflexivity.
Defined.
End storage_claims.

(* ===================================================================== *)
(** * KPI cards *)
(* ===================================================================== *)

Section kpi_claims.
Import Pandas App.
Context {float : Type}.
Variable py_float : value → result float.
Variable float_zero : float.

Lemma kpi_empty (df : DataFrame) (c : string) :
  empty df = true → kpi py_float float_zero df c = Ok float_zero.
Proof. intros H. unfold kpi. by rewrite H. Qed.

Lemma kpi_missing_column (df : DataFrame) (c : string) :
  index_of c (columns df) = None →
  kpi py_float float_zero df c
  = if empty df then Ok float_zero else py_float (VInt 0).
Proof.
  intros H. unfold kpi, get. rewrite H.
  by destruct (empty df).
Qed.

Lemma kpi_first_row (df : DataFrame) (c : string) (i : nat) r rs :
  empty df = false → rows df = r :: rs → index_of c (columns df) = Some i →
  kpi py_float float_zero df c = py_float (cell i r).
Proof.
  intros He Hr Hi. unfold kpi, get, column. by rewrite He, Hi, Hr.
Qed.

Lemma kpi_only_first_row (df : DataFrame) (c : string) r rs :
  rows df = r :: rs →
  kpi py_float float_zero df c = kpi py_float float_zero {| columns := columns df; rows := [r] |} c.
Proof.
  intros Hr. unfold kpi, empty, get, column. simpl. rewrite Hr.
  destruct (columns df) as [|c0 cols]; [done|].
  by destruct (index_of c (c0 :: cols)).
Qed.

Lemma kpis_inv (df : DataFrame) (cards : kpi_cards) :
  kpis py_float float_zero df = Ok cards ↔
  kpi py_float float_zero df "total_sales" = Ok (total_sales cards) ∧
  kpi py_float float_zero df "avg_inventory_per_sku" = Ok (avg_inventory cards) ∧
  kpi py_float float_zero df "stockout_risk_pct" = Ok (stockout_risk cards) ∧
  kpi py_float float_zero df "avg_lead_time_days" = Ok (avg_lead_time cards) ∧
  kpi py_float float_zero df "avg_delivery_time_days" = Ok (avg_delivery_time cards).
Proof.
  unfold kpis. split.
  - destruct (kpi _ _ df "total_sales") as [a|]; [|done].
    destruct (kpi _ _ df "avg_inventory_per_sku") as [b|]; [|done].
    destruct (kpi _ _ df "stockout_risk_pct") as [c|]; [|done].
    destruct (kpi _ _ df "avg_lead_time_days") as [d|]; [|done].
    destruct (kpi _ _ df "avg_delivery_time_days") as [e|]; [|done].
    cbn [bind]. by intros [= <-].
  - intros (-> & -> & -> & -> & ->). cbn [bind]. by destruct cards.
Qed.

(** C10. Each of the five cards is computed from row 0 of the kpis frame
    alone, and from its own column.  The value of a card is what line
    161-165 computes for its column: the cards are total_sales,
    avg_inventory_per_sku, stockout_risk_pct, avg_lead_time_days and
    avg_delivery_time_days, in this order, and there is a result exactly
    when each of the five conversions returns.  On a non-empty frame the
    value of a column is [float] of its row-0 cell, whatever rows follow;
    when the column is missing it is [float(0)], hence 0.0; on an empty
    frame it is 0.0.  The page shows the cards of data["kpis"]. *)
Theorem kpi_cards_first_row :
  (∀ df cards,
     kpis py_float float_zero df = Ok cards ↔
     kpi py_float float_zero df "total_sales" = Ok (total_sales cards) ∧
     kpi py_float float_zero df "avg_inventory_per_sku" = Ok (avg_inventory cards) ∧
     kpi py_float float_zero df "stockout_risk_pct" = Ok (stockout_risk cards) ∧
     kpi py_float float_zero df "avg_lead_time_days" = Ok (avg_lead_time cards) ∧
     kpi py_float float_zero df "avg_delivery_time_days" = Ok (avg_delivery_time cards)) ∧
  (∀ df c i r rs, empty df = false → rows df = r :: rs →
     index_of c (columns df) = Some i →
     kpi py_float float_zero df c = py_float (cell i r)) ∧
  (∀ df c, empty df = true → kpi py_float float_zero df c = Ok float_zero) ∧
  (∀ df c, index_of c (columns df) = None →
     kpi py_float float_zero df c
     = (if empty df then Ok float_zero else py_float (VInt 0)) ∧
     (py_float (VInt 0) = Ok float_zero →
      kpi py_float float_zero df c = Ok float_zero)) ∧
  (∀ df r rs, rows df = r :: rs →
     kpis py_float float_zero df = kpis py_float float_zero {| columns := columns df; rows := [r] |}) ∧
  (∀ df, empty df = true →
     kpis py_float float_zero df =
       Ok {| total_sales := float_zero; avg_inventory := float_zero;
             stockout_risk := float_zero; avg_lead_time := float_zero;
             avg_delivery_time := float_zero |}) ∧
  (∀ argsort data sel sup cards chart,
     page_kpi_dashboard py_float float_zero argsort data sel sup = Ok (cards, chart) →
     ∃ df_kpis, data !! "kpis" = Some df_kpis ∧ kpis py_float float_zero df_kpis = Ok cards).
Proof.
  split_and!.
  - apply kpis_inv.
  - apply kpi_first_row.
  - apply kpi_empty.
  - intros df c H. split; [by apply kpi_missing_column|].
    intros H0. rewrite (kpi_missing_column _ _ H), H0. by destruct (empty df).
  - intros df r rs Hr. unfold kpis.
    by rewrite !(kpi_only_first_row df _ r rs Hr).
  - intros df He. unfold kpis. by rewrite !kpi_empty.
  - intros argsort data sel sup cards chart. unfold page_kpi_dashboard, data_getitem.
    destruct (data !! "kpis") as [df_kpis|]; [|done]. simpl.
    destruct (kpis py_float float_zero df_kpis) as [k|] eqn:Hk; [|done]. simpl.
    destruct (data !! "inventory") as [df_inv|]; [|done]. simpl.
    intros H. exists df_kpis. split; [done|]. rewrite Hk. f_equal.
    destruct (negb (empty df_inv)); simpl in H.
    + destruct (filter_isin _ _ _) as [df'|]; [|done]. simpl in H.
      destruct (top_n argsort df' "sku" "inventory_qty" 10); [|done].
      simpl in H. congruence.
    + congruence.
Qed.
End kpi_claims.

(* ===================================================================== *)
(** * Filters *)
(* ===================================================================== *)

Section filters.
Import Pandas App Spec.

Lemma frame_eta (df : DataFrame) : {| columns := columns df; rows := rows df |} = df.
Proof. by destruct df. Qed.

Lemma select_fmap (df : DataFrame) (m : list value → bool) :
  select df (m <$> rows df) =
    {| columns := columns df; rows := filter (λ r, m r = true) (rows df) |}.
Proof.
  unfold select. f_equal. induction (rows df) as [|r l IH]; [done|].
  simpl. rewrite !filter_cons. simpl.
  destruct (decide (m r = true)); simpl; [f_equal|]; exact IH.
Qed.

Lemma filter_True {A} (P : A → Prop) `{∀ x, Decision (P x)} (l : list A) :
  (∀ x, P x) → filter P l = l.
Proof.
  intros HP. induction l as [|x l IH]; [done|].
  by rewrite filter_cons_True, IH.
Qed.

Lemma getitem_index (df : DataFrame) (c : string) (i : nat) :
  index_of c (columns df) = Some i → getitem df c = Ok (column i df).
Proof. intros H. unfold getitem. by rewrite H. Qed.

Lemma getitem_missing (df : DataFrame) (c : string) :
  index_of c (columns df) = None → getitem df c = Raise (KeyError c).
Proof. intros H. unfold getitem. by rewrite H. Qed.

Lemma filter_isin_spec (df : DataFrame) (c : string) (sel : list scalar) (i : nat) :
  index_of c (columns df) = Some i →
  filter_isin df c sel =
    Ok {| columns := columns df;
          rows := filter (λ r, sel = [] ∨ cell i r ∈ of_scalar <$> sel) (rows df) |}.
Proof.
  intros Hi. unfold filter_isin. destruct sel as [|x sel].
  - rewrite filter_True by auto. by rewrite frame_eta.
  - rewrite (getitem_index _ _ _ Hi). cbn [bind].
    unfold isin, column. rewrite <- list_fmap_compose, select_fmap.
    do 2 f_equal. apply list_filter_iff. intros r. unfold compose.
    rewrite bool_decide_eq_true. split; [auto | by intros [?|?]].
Qed.

Lemma filter_isin_empty (df : DataFrame) (c : string) : filter_isin df c [] = Ok df.
Proof. done. Qed.

Lemma index_of_None (c : string) (cols : list string) :
  index_of c cols = None ↔ c ∉ cols.
Proof.
  induction cols as [|c' cols IH]; simpl.
  - split; [intros _ H; by apply elem_of_nil in H | done].
  - rewrite not_elem_of_cons. destruct (decide (c = c')); [naive_solver|].
    rewrite fmap_None. naive_solver.
Qed.

Lemma index_of_Some (c : string) (cols : list string) :
  c ∈ cols → ∃ i, index_of c cols = Some i.
Proof.
  intros H. destruct (index_of c cols) eqn:E; [eauto|].
  by apply index_of_None in E.
Qed.

Lemma filter_isin_position (df : DataFrame) (c : string) (sel : list scalar) :
  sel = [] ∨ c ∈ columns df →
  filter_isin df c sel =
    Ok {| columns := columns df;
          rows := filter (λ r, sel = [] ∨ cell (position c df) r ∈ of_scalar <$> sel)
                    (rows df) |}.
Proof.
  intros [->|Hc].
  - cbn [filter_isin]. rewrite filter_True by auto. by rewrite frame_eta.
  - apply index_of_Some in Hc as [i Hi]. unfold position. rewrite Hi.
    by apply filter_isin_spec.
Qed.

Lemma filter_dates_spec (df : DataFrame) (dr : option (list Z)) (i : nat) :
  index_of "date" (columns df) = Some i →
  filter_dates df dr =
    Ok {| columns := columns df;
          rows := filter (λ r, in_range (range_of dr) (cell i r)) (rows df) |}.
Proof.
  intros Hi. unfold filter_dates.
  destruct dr as [[|d0 [|d1 [|d2 l]]]|]; simpl;
    try (rewrite filter_True by done; by rewrite frame_eta).
  rewrite (getitem_index _ _ _ Hi). cbn [bind range_of].
  unfold mask_and, ge_ts, le_ts, column.
  rewrite zip_with_fmap_l, zip_with_fmap_r, zip_with_diag.
  rewrite <- list_fmap_compose, select_fmap.
  do 2 f_equal. apply list_filter_iff. intros r. unfold compose.
  destruct (cell i r); simpl; try done.
  rewrite andb_true_iff, !bool_decide_eq_true. done.
Qed.

Lemma filter_dates_none (df : DataFrame) : filter_dates df None = Ok df.
Proof. done. Qed.
End filters.

Section filter_claims.
Import Pandas App Spec.
Variable parse_datetime : string → option Z.

Lemma setitem_columns (df : DataFrame) (c : string) (s : list value) (i : nat) :
  index_of c (columns df) = Some i → columns (setitem df c s) = columns df.
Proof. intros H. unfold setitem. by rewrite H. Qed.

Lemma recommendations_filtered_spec (df : DataFrame) (skus sups : list scalar) :
  skus = [] ∨ "sku" ∈ columns df →
  sups = [] ∨ "supplier" ∈ columns df →
  recommendations_filtered df skus sups =
    Ok {| columns := columns df;
          rows := filter (keeps (position "sku" df) (position "supplier" df) 0
                            skus sups None) (rows df) |}.
Proof.
  intros HS HP. unfold recommendations_filtered.
  rewrite (filter_isin_position df "sku" skus HS). cbn [bind].
  rewrite (filter_isin_position _ "supplier" sups) by done.
  cbn [columns rows]. rewrite list_filter_filter.
  do 2 f_equal. apply list_filter_iff. intros r. unfold keeps, in_range, position.
  cbn [columns]. tauto.
Qed.

Lemma forecast_filtered_spec (df : DataFrame) (skus : list scalar)
    (dr : option (list Z)) (ts : list value) iD :
  index_of "date" (columns df) = Some iD →
  to_datetime parse_datetime (column iD df) = Ok ts →
  skus = [] ∨ "sku" ∈ columns df →
  forecast_filtered parse_datetime df skus dr =
    Ok {| columns := columns df;
          rows := filter (keeps (position "sku" df) 0 iD skus [] (range_of dr))
                    (rows (setitem df "date" ts)) |}.
Proof.
  intros HD Hts HS. unfold forecast_filtered.
  rewrite (getitem_index _ _ _ HD). cbn [bind]. rewrite Hts. cbn [bind].
  pose proof (setitem_columns df "date" ts iD HD) as Hc.
  rewrite (filter_isin_position _ "sku" skus) by by rewrite Hc.
  cbn [bind]. rewrite (filter_dates_spec _ dr iD) by (cbn [columns]; by rewrite Hc).
  cbn [columns rows]. rewrite list_filter_filter, Hc.
  do 2 f_equal. apply list_filter_iff. intros r. unfold keeps, position.
  rewrite Hc. tauto.
Qed.

Lemma page_forecasting_inv (data : gmap string DataFrame) (skus : list scalar)
    (dr : option (list Z)) (chart table : DataFrame) :
  page_forecasting parse_datetime data skus dr = Ok (Some (chart, table)) →
  ∃ df, data !! "forecast" = Some df ∧
        forecast_filtered parse_datetime df skus dr = Ok chart.
Proof.
  unfold page_forecasting, data_getitem.
  destruct (data !! "forecast") as [df|]; [|done]. cbn [bind].
  destruct (empty df); [done|].
  destruct (forecast_filtered parse_datetime df skus dr) as [df'|] eqn:E; [|done].
  cbn [bind]. destruct (px_line df' _); [|done]. cbn [bind].
  destruct (sort_values df' _); [|done]. cbn [bind].
  intros [= <- _]. eauto.
Qed.

Lemma page_recommendations_inv (argsort : list Z → list nat)
    (data : gmap string DataFrame) (skus sups : list scalar)
    (table : DataFrame) (chart : option (list (scalar * Z))) :
  page_recommendations argsort data skus sups = Ok (Some (table, chart)) →
  ∃ df df', data !! "recommendations" = Some df ∧
            recommendations_filtered df skus sups = Ok df' ∧
            reorder_suggestions df' = Ok table.
Proof.
  unfold page_recommendations, data_getitem.
  destruct (data !! "recommendations") as [df|]; [|done]. cbn [bind].
  destruct (empty df); [done|].
  destruct (recommendations_filtered df skus sups) as [df'|] eqn:E; [|done].
  cbn [bind]. destruct (reorder_suggestions df') as [t|] eqn:E'; [|done].
  cbn [bind]. intros H. exists df, df'. split_and!; [done..|]. rewrite E'. f_equal.
  destruct (negb (empty _)); [|congruence].
  destruct (top_n _ _ _ _ _); [|done]. cbn [bind] in H. congruence.
Qed.

(** C3, as the code has it.  Each page filters by the selections it is
    handed, and keeps exactly the rows that satisfy the conjunction of the
    specification for them, in their order.  The Recommendations page
    filters by the selected skus and suppliers and takes no date range;
    the Forecasting page filters the frame whose date column
    [pd.to_datetime] has converted by the selected skus and by the date
    range, whose ends stand at midnight, and takes no suppliers.  A column
    is indexed only for a selection that is not empty.  An empty selection
    or an absent range filters nothing, and the selection {"A"} keeps only
    rows whose sku is "A". *)
Theorem filters_keep_exactly :
  (∀ df skus sups,
     skus = [] ∨ "sku" ∈ columns df →
     sups = [] ∨ "supplier" ∈ columns df →
     recommendations_filtered df skus sups =
       Ok {| columns := columns df;
             rows := filter (keeps (position "sku" df) (position "supplier" df) 0
                               skus sups None) (rows df) |}) ∧
  (∀ df skus dr ts iD,
     index_of "date" (columns df) = Some iD →
     to_datetime parse_datetime (column iD df) = Ok ts →
     skus = [] ∨ "sku" ∈ columns df →
     forecast_filtered parse_datetime df skus dr =
       Ok {| columns := columns df;
             rows := filter (keeps (position "sku" df) 0 iD skus [] (range_of dr))
                       (rows (setitem df "date" ts)) |}) ∧
  (∀ data skus dr chart table,
     page_forecasting parse_datetime data skus dr = Ok (Some (chart, table)) →
     ∃ df, data !! "forecast" = Some df ∧
           forecast_filtered parse_datetime df skus dr = Ok chart) ∧
  (∀ argsort data skus sups table chart,
     page_recommendations argsort data skus sups = Ok (Some (table, chart)) →
     ∃ df df', data !! "recommendations" = Some df ∧
               recommendations_filtered df skus sups = Ok df' ∧
               reorder_suggestions df' = Ok table) ∧
  (∀ iS iP iD skus sups dr (l : list (list value)),
     filter (keeps iS iP iD skus sups dr) l `sublist_of` l) ∧
  (∀ iS iP iD (l : list (list value)), filter (keeps iS iP iD [] [] None) l = l) ∧
  (∀ df c, filter_isin df c [] = Ok df) ∧
  (∀ df, filter_dates df None = Ok df) ∧
  (∀ df, recommendations_filtered df [] [] = Ok df) ∧
  (∀ iS iP iD sups dr r,
     keeps iS iP iD [SStr "A"] sups dr r → cell iS r = VStr "A") ∧
  (∀ iS iP iD skus sups d0 d1 r,
     keeps iS iP iD skus sups (range_of (Some [d0; d1])) r →
     ∃ t, cell iD r = VInt t ∧ date_to_datetime d0 ≤ t ≤ date_to_datetime d1).
Proof.
  split_and!.
  - apply recommendations_filtered_spec.
  - apply forecast_filtered_spec.
  - apply page_forecasting_inv.
  - apply page_recommendations_inv.
  - intros. apply sublist_filter.
  - intros. apply filter_True. intros r. unfold keeps, in_range. auto.
  - done.
  - done.
  - done.
  - intros iS iP iD sups dr r ([?|Hin] & _); [done|].
    apply list_elem_of_fmap in Hin as (x & -> & Hx).
    by apply list_elem_of_singleton in Hx as ->.
  - intros iS iP iD skus sups d0 d1 r (_ & _ & H). unfold in_range in H.
    cbn [range_of] in H. destruct (cell iD r); try done. eauto.
Qed.

(** The end-to-end example of the specification: two forecast rows, a
    range of one day, the first row alone is kept. *)
Example forecast_one_day :
  forecast_filtered Sample.parse_datetime
    {| columns := ["sku"; "date"; "forecast_qty"];
       rows := [[VStr "A"; VStr "2024-01-01"; VInt 10];
                [VStr "B"; VStr "2024-01-02"; VInt 20]] |}
    [] (Some [19723; 19723])
  = Ok {| columns := ["sku"; "date"; "forecast_qty"];
          rows := [[VStr "A"; VInt (date_to_datetime 19723); VInt 10]] |}.
Proof. reflexivity. Qed.
End filter_claims.

Section filter_runs.
Import Pandas App Spec.

(** C3 as the specification states it does not hold: a page filters only
    by the selections it is handed.  With the supplier S1 selected, the
    Forecasting page keeps the forecast row of supplier S2, which the
    conjunction of the specification leaves out; with the one day
    2024-01-01 as date range, the Recommendations page keeps the row
    dated 2024-01-02. *)
Lemma pages_filter_two_dimensions :
  (main Sample.read_csv Sample.to_csv Sample.parse_datetime
     Sample.py_float Sample.float_zero Sample.argsort_stable
     {| nav := Forecasting; selected_skus := [];
        selected_suppliers := [SStr "S1"]; date_range := None;
        uploaded := λ _, None |}
     Sample.world_by_supplier).1
  = Ok (ForecastView (Some
      ({| columns := ["sku"; "date"; "forecast_qty"; "supplier"];
          rows := [[VStr "A"; VInt (date_to_datetime 19723); VInt 10; VStr "S1"];
                   [VStr "B"; VInt (date_to_datetime 19724); VInt 20; VStr "S2"]] |},
       {| columns := ["sku"; "date"; "forecast_qty"; "supplier"];
          rows := [[VStr "A"; VInt (date_to_datetime 19723); VInt 10; VStr "S1"];
                   [VStr "B"; VInt (date_to_datetime 19724); VInt 20; VStr "S2"]] |}))) ∧
  filter (keeps 0 3 1 [] [SStr "S1"] None)
    [[VStr "A"; VInt (date_to_datetime 19723); VInt 10; VStr "S1"];
     [VStr "B"; VInt (date_to_datetime 19724); VInt 20; VStr "S2"]]
  = [[VStr "A"; VInt (date_to_datetime 19723); VInt 10; VStr "S1"]] ∧
  (main Sample.read_csv Sample.to_csv Sample.parse_datetime
     Sample.py_float Sample.float_zero Sample.argsort_stable
     {| nav := Recommendations; selected_skus := [];
        selected_suppliers := []; date_range := Some [19723; 19723];
        uploaded := λ _, None |}
     Sample.world_by_supplier).1
  = Ok (RecommendationsView (Some
      ({| columns := ["sku"; "supplier"; "Urgency"];
          rows := [[VStr "A"; VStr "S1"; VStr "🔴 High"];
                   [VStr "B"; VStr "S1"; VStr "🟢 Low"]] |},
       Some [(SStr "B", 20); (SStr "A", 10)]))) ∧
  filter (keeps 0 1 3 [] [] (range_of (Some [19723; 19723])))
    [[VStr "A"; VStr "S1"; VStr "high"; VInt (date_to_datetime 19723)];
     [VStr "B"; VStr "S1"; VStr "low"; VInt (date_to_datetime 19724)]]
  = [[VStr "A"; VStr "S1"; VStr "high"; VInt (date_to_datetime 19723)]].
Proof. split_and!; by vm_compute. Qed.
End filter_runs.

(* ===================================================================== *)
(** * Filter options *)
(* ===================================================================== *)

Section options.
Import Pandas App Spec.

Lemma elem_of_unique (x : scalar) (l : list scalar) : x ∈ unique l ↔ x ∈ l.
Proof.
  induction l as [|y l IH]; simpl; [done|].
  rewrite !elem_of_cons, list_elem_of_filter, IH.
  destruct (decide (x = y)); naive_solver.
Qed.

Lemma NoDup_unique (l : list scalar) : NoDup (unique l).
Proof.
  induction l as [|y l IH]; simpl; constructor.
  - rewrite list_elem_of_filter. naive_solver.
  - by apply NoDup_filter.
Qed.

Lemma to_scalar_Some (v : value) (x : scalar) : to_scalar v = Some x ↔ v = of_scalar x.
Proof. destruct v, x; simpl; naive_solver. Qed.

Lemma elem_of_dropna (x : scalar) (s : list value) : x ∈ dropna s ↔ of_scalar x ∈ s.
Proof.
  unfold dropna. rewrite list_elem_of_omap. split.
  - intros (v & Hv & Hx). by apply to_scalar_Some in Hx as ->.
  - intros H. exists (of_scalar x). split; [done|]. by apply to_scalar_Some.
Qed.

Lemma index_of_lookup (c : string) (cols : list string) (i : nat) :
  index_of c cols = Some i → cols !! i = Some c.
Proof.
  revert i. induction cols as [|c' cols IH]; intros i; simpl; [done|].
  destruct (decide (c = c')) as [->|]; [by intros [= <-]|].
  destruct (index_of c cols); simpl; [|done].
  intros [= <-]. by apply IH.
Qed.

Lemma get_missing (df : DataFrame) (c : string) (d : list value) :
  c ∉ columns df → get df c d = d.
Proof. intros H. apply index_of_None in H. unfold get. by rewrite H. Qed.

Lemma sorted_ok (l l' : list scalar) :
  sorted l = Ok l' →
  l' ≡ₚ l ∧ StronglySorted (λ a b, scalar_leb a b = true) l'.
Proof.
  unfold sorted. destruct (_ || _); [|done]. intros [= <-]. split.
  - apply stable_sort_perm.
  - apply stable_sort_strongly_sorted;
      [apply scalar_leb_total | apply scalar_leb_trans].
Qed.

Lemma insert_sorted_fmap {A B} (f : A → B) (lebA : A → A → bool)
    (lebB : B → B → bool) (x : A) (l : list A) :
  (∀ a b, lebB (f a) (f b) = lebA a b) →
  insert_sorted lebB (f x) (f <$> l) = f <$> insert_sorted lebA x l.
Proof.
  intros H. induction l as [|y l IH]; [done|].
  cbn [fmap list_fmap insert_sorted]. rewrite H.
  destruct (lebA x y); [done|]. cbn [fmap list_fmap]. f_equal. exact IH.
Qed.

Lemma stable_sort_fmap {A B} (f : A → B) (lebA : A → A → bool)
    (lebB : B → B → bool) (l : list A) :
  (∀ a b, lebB (f a) (f b) = lebA a b) →
  stable_sort lebB (f <$> l) = f <$> stable_sort lebA l.
Proof.
  intros H. unfold stable_sort. induction l as [|x l IH]; [done|].
  cbn [fmap list_fmap foldr].
  change (list_fmap A B f l) with (f <$> l). rewrite IH.
  by apply insert_sorted_fmap.
Qed.

Lemma sorted_strings (ss : list string) :
  sorted (SStr <$> ss) = Ok (SStr <$> stable_sort String.leb ss).
Proof.
  unfold sorted.
  replace (forallb is_str (SStr <$> ss)) with true.
  - cbn [orb]. f_equal. by apply stable_sort_fmap.
  - symmetry. apply forallb_forall. by intros x [s [<- _]]%in_map_iff.
Qed.

Lemma string_ltb_leb (s t : string) :
  String.leb s t = true → s ≠ t → String.ltb s t = true.
Proof.
  unfold String.leb, String.ltb. intros Hle Hne.
  destruct (String.compare s t) eqn:E; try done.
  by apply String.compare_eq_iff in E.
Qed.

Lemma strictly_sorted (ss : list string) :
  NoDup ss → StronglySorted (λ a b, String.leb a b = true) ss →
  StronglySorted (λ a b, String.ltb a b = true) ss.
Proof.
  intros Hnd. induction 1 as [|s ss Hs IH Hall]; constructor.
  - apply IH. by apply NoDup_cons in Hnd as [_ ?].
  - apply NoDup_cons in Hnd as [Hs' _].
    apply Forall_forall. intros t Ht.
    apply string_ltb_leb; [by eapply Forall_forall in Hall|].
    intros ->. done.
Qed.

(** A list of non-null cells that are all strings. *)
Lemma all_strings (l : list scalar) :
  (∀ x, x ∈ l → ∃ s, x = SStr s) → ∃ ss, l = SStr <$> ss.
Proof.
  induction l as [|x l IH]; intros H; [by exists []|].
  destruct (H x) as [s ->]; [by left|].
  destruct IH as [ss ->]; [intros y Hy; apply H; by right|].
  by exists (s :: ss).
Qed.
End options.

Section options_claims.
Import Pandas App Spec.

Lemma sorted_numbers (zs : list Z) :
  sorted (SInt <$> zs) = Ok (SInt <$> stable_sort (λ x y, bool_decide (x ≤ y)) zs).
Proof.
  unfold sorted.
  replace (forallb (λ x, negb (is_str x)) (SInt <$> zs)) with true.
  - rewrite orb_true_r. f_equal. by apply stable_sort_fmap.
  - symmetry. apply forallb_forall. by intros x [z [<- _]]%in_map_iff.
Qed.

Lemma sorted_mixed (l : list scalar) (z : Z) (s : string) :
  SInt z ∈ l → SStr s ∈ l → sorted l = Raise TypeError.
Proof.
  intros Hz Hs. unfold sorted.
  replace (forallb is_str l) with false.
  - replace (forallb (λ x, negb (is_str x)) l) with false; [done|].
    symmetry. apply not_true_is_false. rewrite forallb_forall. intros H.
    apply list_elem_of_In in Hs. by specialize (H _ Hs).
  - symmetry. apply not_true_is_false. rewrite forallb_forall. intros H.
    apply list_elem_of_In in Hz. by specialize (H _ Hz).
Qed.

Lemma strictly_ascending (zs : list Z) :
  NoDup zs → StronglySorted (λ a b, bool_decide (a ≤ b) = true) zs →
  StronglySorted Z.lt zs.
Proof.
  intros Hnd. induction 1 as [|z zs Hs IH Hall]; constructor.
  - apply IH. by apply NoDup_cons in Hnd as [_ ?].
  - apply NoDup_cons in Hnd as [Hz _].
    apply Forall_forall. intros t Ht.
    eapply Forall_forall in Hall; [|exact Ht]. apply bool_decide_eq_true in Hall.
    assert (z ≠ t) by (by intros ->). lia.
Qed.

(** A list of non-null cells that are all numbers. *)
Lemma all_numbers (l : list scalar) :
  (∀ x, x ∈ l → ∃ z, x = SInt z) → ∃ zs, l = SInt <$> zs.
Proof.
  induction l as [|x l IH]; intros H; [by exists []|].
  destruct (H x) as [z ->]; [by left|].
  destruct IH as [zs ->]; [intros y Hy; apply H; by right|].
  by exists (z :: zs).
Qed.

(** C9, as the code has it.  [all_skus] returns the values that occur in
    the sku column of either table, each once, missing cells left out, a
    table without the column contributing nothing, in the ascending order
    of Python: on tables whose sku cells are strings or missing, the
    strings in strictly ascending order of their code points; on tables
    whose sku cells are numbers or missing, the numbers in strictly
    ascending order of their value; and when a number and a string both
    occur, [sorted] raises TypeError. *)
Theorem all_skus_sorted_union (df_forecast df_reco : DataFrame) :
  ((∀ z, VInt z ∉ get df_forecast "sku" [] ++ get df_reco "sku" []) →
   ∃ ss : list string,
     all_skus df_forecast df_reco = Ok (SStr <$> ss) ∧
     StronglySorted (λ a b, String.ltb a b = true) ss ∧
     NoDup ss ∧
     (∀ s, s ∈ ss ↔ VStr s ∈ get df_forecast "sku" []
                    ∨ VStr s ∈ get df_reco "sku" []) ∧
     ("sku" ∉ columns df_forecast →
        ∀ s, s ∈ ss ↔ VStr s ∈ get df_reco "sku" []) ∧
     ("sku" ∉ columns df_reco →
        ∀ s, s ∈ ss ↔ VStr s ∈ get df_forecast "sku" [])) ∧
  ((∀ s, VStr s ∉ get df_forecast "sku" [] ++ get df_reco "sku" []) →
   ∃ zs : list Z,
     all_skus df_forecast df_reco = Ok (SInt <$> zs) ∧
     StronglySorted Z.lt zs ∧
     NoDup zs ∧
     (∀ z, z ∈ zs ↔ VInt z ∈ get df_forecast "sku" []
                    ∨ VInt z ∈ get df_reco "sku" [])) ∧
  (∀ z s,
     VInt z ∈ get df_forecast "sku" [] ++ get df_reco "sku" [] →
     VStr s ∈ get df_forecast "sku" [] ++ get df_reco "sku" [] →
     all_skus df_forecast df_reco = Raise TypeError).
Proof.
  unfold all_skus.
  set (F := get df_forecast "sku" []) in *.
  set (R := get df_reco "sku" []) in *.
  set (L := remove_dups (unique (dropna F) ++ unique (dropna R))).
  assert (∀ x, x ∈ L ↔ of_scalar x ∈ F ∨ of_scalar x ∈ R) as HL.
  { intros x. unfold L.
    by rewrite elem_of_remove_dups, elem_of_app, !elem_of_unique, !elem_of_dropna. }
  split_and!.
  - intros Htyped.
    destruct (all_strings L) as [ss0 Hss0].
    { intros [z|s] Hx; [|by exists s]. exfalso.
      apply HL in Hx. apply (Htyped z). apply elem_of_app. exact Hx. }
    assert (NoDup ss0) as Hnd0.
    { apply (NoDup_fmap SStr). rewrite <- Hss0. apply NoDup_remove_dups. }
    assert (∀ s, s ∈ stable_sort String.leb ss0 ↔ VStr s ∈ F ∨ VStr s ∈ R) as Hmem.
    { intros s. rewrite stable_sort_elem_of, <- (HL (SStr s)), Hss0.
      by rewrite (list_elem_of_fmap_inj SStr). }
    exists (stable_sort String.leb ss0). rewrite Hss0. split_and!.
    + apply sorted_strings.
    + apply strictly_sorted.
      * by rewrite stable_sort_perm.
      * apply stable_sort_strongly_sorted;
          [apply string_leb_total | apply string_leb_trans].
    + by rewrite stable_sort_perm.
    + exact Hmem.
    + intros Hmiss s. rewrite Hmem. unfold F. rewrite (get_missing _ _ _ Hmiss).
      rewrite elem_of_nil. tauto.
    + intros Hmiss s. rewrite Hmem. unfold R. rewrite (get_missing _ _ _ Hmiss).
      rewrite elem_of_nil. tauto.
  - intros Htyped.
    destruct (all_numbers L) as [zs0 Hzs0].
    { intros [z|s] Hx; [by exists z|]. exfalso.
      apply HL in Hx. apply (Htyped s). apply elem_of_app. exact Hx. }
    assert (NoDup zs0) as Hnd0.
    { apply (NoDup_fmap SInt). rewrite <- Hzs0. apply NoDup_remove_dups. }
    set (leb := λ x y : Z, bool_decide (x ≤ y)).
    exists (stable_sort leb zs0). rewrite Hzs0. split_and!.
    + apply sorted_numbers.
    + apply strictly_ascending.
      * by rewrite stable_sort_perm.
      * apply (stable_sort_strongly_sorted leb).
        -- intros x y. unfold leb. rewrite !bool_decide_eq_true. lia.
        -- intros x y z. unfold leb. rewrite !bool_decide_eq_true. lia.
    + by rewrite stable_sort_perm.
    + intros z. rewrite stable_sort_elem_of, <- (HL (SInt z)), Hzs0.
      by rewrite (list_elem_of_fmap_inj SInt).
  - intros z s Hz Hs. apply (sorted_mixed L z s).
    + apply HL. by apply elem_of_app in Hz.
    + apply HL. by apply elem_of_app in Hs.
Qed.

Lemma all_skus_sorted_union_witness :
  ∃ ss : list string,
    all_skus
      {| columns := ["sku"; "forecast_qty"];
         rows := [[VStr "B"; VInt 2]; [VStr "A"; VInt 1]; [VNaN; VInt 3];
                  [VStr "B"; VInt 4]] |}
      {| columns := ["current_stock"]; rows := [[VInt 5]] |}
    = Ok (SStr <$> ss) ∧
    StronglySorted (λ a b, String.ltb a b = true) ss.
Proof.
  destruct (all_skus_sorted_union
    {| columns := ["sku"; "forecast_qty"];
       rows := [[VStr "B"; VInt 2]; [VStr "A"; VInt 1]; [VNaN; VInt 3];
                [VStr "B"; VInt 4]] |}
    {| columns := ["current_stock"]; rows := [[VInt 5]] |})
    as (Hstr & _ & _).
  destruct Hstr as (ss & H1 & H2 & _).
  - intros z H. vm_compute in H. set_solver.
  - exists ss. split; [exact H1 | exact H2].
Defined.

(** C9 as the specification states it does not hold: skus that pandas has
    read as numbers come out in the order of their value, 9 before 10,
    where their texts stand in the other order; and together with a sku
    that is a string they make [sorted] raise TypeError. *)
Lemma all_skus_numbers_not_lexicographic :
  all_skus {| columns := ["sku"]; rows := [[VInt 10]; [VInt 9]] |} empty_frame
  = Ok [SInt 9; SInt 10] ∧
  String.ltb (str (VInt 10)) (str (VInt 9)) = true ∧
  all_skus {| columns := ["sku"]; rows := [[VInt 10]; [VInt 9]] |}
           {| columns := ["sku"]; rows := [[VStr "A"]] |}
  = Raise TypeError.
Proof. split_and!; reflexivity. Qed.

Example all_skus_example :
  all_skus
    {| columns := ["sku"; "forecast_qty"];
       rows := [[VStr "B"; VInt 2]; [VStr "A"; VInt 1]; [VNaN; VInt 3];
                [VStr "B"; VInt 4]] |}
    {| columns := ["sku"]; rows := [[VStr "C"]; [VStr "A"]] |}
  = Ok [SStr "A"; SStr "B"; SStr "C"].
Proof. reflexivity. Qed.
End options_claims.

(* ===================================================================== *)
(** * The Reorder Suggestions table *)
(* ===================================================================== *)

Section frames.
Import Pandas App Spec.

Lemma index_of_lt (c : string) (cols : list string) (i : nat) :
  index_of c cols = Some i → (i < length cols)%nat.
Proof. intros H. apply index_of_lookup in H. by apply lookup_lt_Some in H. Qed.

Lemma index_of_app_l (c c' : string) (cols : list string) (i : nat) :
  index_of c cols = Some i → index_of c (cols ++ [c']) = Some i.
Proof.
  revert i. induction cols as [|d cols IH]; intros i; simpl; [done|].
  destruct (decide (c = d)); [done|].
  destruct (index_of c cols) as [j|]; simpl; [|done].
  intros [= <-]. by rewrite (IH j).
Qed.

Lemma index_of_app_new (c : string) (cols : list string) :
  index_of c cols = None → index_of c (cols ++ [c]) = Some (length cols).
Proof.
  induction cols as [|d cols IH]; simpl.
  - intros _. by rewrite decide_True.
  - destruct (decide (c = d)); [done|].
    destruct (index_of c cols); simpl; [done|].
    intros _. by rewrite IH.
Qed.

Lemma cell_insert_eq (i : nat) (v : value) (r : list value) :
  (i < length r)%nat → cell i (<[i:=v]> r) = v.
Proof. intros H. unfold cell. by apply list_lookup_total_insert_eq. Qed.

Lemma cell_insert_ne (i j : nat) (v : value) (r : list value) :
  i ≠ j → cell j (<[i:=v]> r) = cell j r.
Proof. intros H. unfold cell. by apply list_lookup_total_insert_ne. Qed.

Lemma cell_app_new (v : value) (r : list value) : cell (length r) (r ++ [v]) = v.
Proof.
  unfold cell. apply list_lookup_total_correct.
  by rewrite lookup_app_r, Nat.sub_diag.
Qed.

Lemma cell_app_old (i : nat) (v : value) (r : list value) :
  (i < length r)%nat → cell i (r ++ [v]) = cell i r.
Proof.
  intros H. unfold cell. rewrite !list_lookup_total_alt.
  by rewrite lookup_app_l.
Qed.

Lemma setitem_fmap (df : DataFrame) (c : string) (g : list value → value) :
  setitem df c (g <$> rows df) =
    match index_of c (columns df) with
    | Some i => {| columns := columns df;
                   rows := (λ r, <[i:=g r]> r) <$> rows df |}
    | None => {| columns := columns df ++ [c];
                 rows := (λ r, r ++ [g r]) <$> rows df |}
    end.
Proof.
  unfold setitem. destruct (index_of c (columns df)); f_equal;
    by rewrite zip_with_fmap_r, zip_with_diag.
Qed.

(** What [df[c] = g(row)] leaves behind on a rectangular frame: the
    column [c] holds [g] of each row and every other column is as it
    was. *)
Lemma setitem_fmap_spec (df : DataFrame) (c : string) (g : list value → value) :
  wf df →
  ∃ (j : nat) (upd : list value → list value),
    index_of c (columns (setitem df c (g <$> rows df))) = Some j ∧
    rows (setitem df c (g <$> rows df)) = upd <$> rows df ∧
    (∀ r, r ∈ rows df → cell j (upd r) = g r) ∧
    (∀ c' i, c' ≠ c → index_of c' (columns df) = Some i →
       index_of c' (columns (setitem df c (g <$> rows df))) = Some i ∧
       ∀ r, r ∈ rows df → cell i (upd r) = cell i r) ∧
    (∀ c', c' ∈ columns df → c' ∈ columns (setitem df c (g <$> rows df))).
Proof.
  intros Hwf. rewrite setitem_fmap.
  assert (∀ r, r ∈ rows df → length r = length (columns df)) as Hlen
    by (by apply Forall_forall).
  destruct (index_of c (columns df)) as [j|] eqn:Hj.
  - exists j, (λ r, <[j:=g r]> r). cbn [columns rows]. split_and!; try done.
    + intros r Hr. apply cell_insert_eq. rewrite (Hlen r Hr).
      by eapply index_of_lt.
    + intros c' i Hne Hi. split; [done|]. intros r Hr.
      apply cell_insert_ne. intros ->.
      apply index_of_lookup in Hi, Hj. congruence.
  - exists (length (columns df)), (λ r, r ++ [g r]). cbn [columns rows].
    split_and!; try done.
    + by apply index_of_app_new.
    + intros r Hr. rewrite <- (Hlen r Hr). apply cell_app_new.
    + intros c' i Hne Hi. split; [by apply index_of_app_l|].
      intros r Hr. apply cell_app_old. rewrite (Hlen r Hr).
      by eapply index_of_lt.
    + intros c' Hc'. apply elem_of_app. by left.
Qed.

Lemma indices_ok (cols : list string) (df : DataFrame) :
  (∀ c, c ∈ cols → c ∈ columns df) →
  ∃ ixs, indices cols df = Ok ixs ∧
         ∀ k c, index_of c cols = Some k →
                ∃ i, index_of c (columns df) = Some i ∧ ixs !! k = Some i.
Proof.
  induction cols as [|d cols IH]; intros Hin.
  { exists []. by split. }
  destruct IH as (ixs & Hixs & Hk); [intros c Hc; apply Hin; by right|].
  destruct (index_of_Some d (columns df)) as [i Hi]; [apply Hin; by left|].
  exists (i :: ixs). simpl. rewrite Hi, Hixs. split; [done|].
  intros k c. destruct (decide (c = d)) as [->|Hne].
  - intros [= <-]. eauto.
  - destruct (index_of c cols) as [k'|] eqn:Hk'; simpl; [|done].
    intros [= <-]. by apply Hk.
Qed.

Lemma cell_fmap (f : nat → value) (ixs : list nat) (k i : nat) :
  ixs !! k = Some i → cell k (f <$> ixs) = f i.
Proof.
  intros H. unfold cell. apply list_lookup_total_correct.
  by rewrite list_lookup_fmap, H.
Qed.

Lemma StronglySorted_impl {A} (R R' : A → A → Prop) (l : list A) :
  (∀ x y, x ∈ l → y ∈ l → R x y → R' x y) →
  StronglySorted R l → StronglySorted R' l.
Proof.
  intros H Hs. induction Hs as [|x l Hs IH Hall]; constructor.
  - apply IH. intros a b Ha Hb. apply H; by right.
  - apply Forall_forall. intros y Hy. apply H; [by left | by right |].
    by eapply Forall_forall in Hall.
Qed.
End frames.

Section reorder_claims.
Import Pandas App Spec.

Lemma rows_leb_urgency_sku (kU kS : nat) (r1 r2 : list value) (l1 l2 : string) :
  cell kU r1 = VStr l1 → cell kU r2 = VStr l2 →
  rows_leb [kU; kS] r1 r2 = true → by_urgency_sku kU kS r1 r2.
Proof.
  intros H1 H2. cbn [rows_leb]. rewrite H1, H2.
  unfold value_leb at 1 2. cbn [to_scalar scalar_leb].
  intros H. exists l1, l2. split_and!; try done.
  destruct (String.leb l1 l2) eqn:H12; [|done].
  destruct (String.leb l2 l1) eqn:H21.
  - right. split; [by apply string_leb_antisym|].
    by destruct (value_leb (cell kS r1) (cell kS r2)).
  - left. apply string_ltb_leb; [done|]. intros ->. congruence.
Qed.

(** C5. On a rectangular table with the columns urgency and sku,
    [reorder_suggestions] returns the rows of the table, each with the
    label of its urgency in the column Urgency, ordered by the text of
    that label first and by sku second (numbers before strings, missing
    skus last); the bytes of the three labels order them high, medium,
    low. *)
Theorem reorder_suggestions_sorted (df_rec : DataFrame) :
  wf df_rec →
  "urgency" ∈ columns df_rec →
  "sku" ∈ columns df_rec →
  ∃ (out : DataFrame) (shown : list (list value)) (kU kS iu iS : nat),
    reorder_suggestions df_rec = Ok out ∧
    index_of "Urgency" (columns out) = Some kU ∧
    index_of "sku" (columns out) = Some kS ∧
    index_of "urgency" (columns df_rec) = Some iu ∧
    index_of "sku" (columns df_rec) = Some iS ∧
    Forall2 (λ r r', cell kS r' = cell iS r ∧
                     cell kU r' = VStr (urgency_label (cell iu r)))
      (rows df_rec) shown ∧
    rows out ≡ₚ shown ∧
    StronglySorted (by_urgency_sku kU kS) (rows out) ∧
    String.ltb "🔴 High" "🟠 Medium" = true ∧
    String.ltb "🟠 Medium" "🟢 Low" = true.
Proof.
  intros Hwf Hurg Hsku.
  destruct (index_of_Some _ _ Hurg) as [iu Hiu].
  destruct (index_of_Some _ _ Hsku) as [iS HiS].
  unfold reorder_suggestions, add_urgency.
  rewrite decide_True by done. rewrite (getitem_index _ _ _ Hiu). cbn [bind].
  unfold column. rewrite <- list_fmap_compose.
  set (g := (λ v, VStr (urgency_label v)) ∘ cell iu).
  destruct (setitem_fmap_spec df_rec "Urgency" g Hwf)
    as (j & upd & Hj & Hrows & HgU & Hother & Hkeep).
  set (display := setitem df_rec "Urgency" (g <$> rows df_rec)) in *.
  destruct (Hother "sku" iS) as [HiS' HcS]; [done|done|].
  assert ("Urgency" ∈ columns_to_show display) as HUin.
  { apply list_elem_of_filter. split; [|set_solver].
    apply index_of_lookup in Hj. by eapply list_elem_of_lookup_2. }
  assert ("sku" ∈ columns_to_show display) as HSin.
  { apply list_elem_of_filter. split; [|set_solver]. by apply Hkeep. }
  destruct (indices_ok (columns_to_show display) display) as (ixs & Hixs & Hk).
  { intros c Hc. by apply list_elem_of_filter in Hc as [? _]. }
  destruct (index_of_Some _ _ HUin) as [kU HkU].
  destruct (index_of_Some _ _ HSin) as [kS HkS].
  destruct (Hk _ _ HkU) as (j' & Hj' & HixU).
  destruct (Hk _ _ HkS) as (iS' & HiS'' & HixS).
  assert (j' = j) as -> by congruence.
  assert (iS' = iS) as -> by congruence.
  unfold getitems. rewrite Hixs. cbn [bind]. unfold sort_values.
  cbn [indices columns]. rewrite HkU, HkS. cbn [bind rows].
  set (proj := λ r : list value, (λ i, cell i r) <$> ixs).
  assert (∀ r, r ∈ rows df_rec →
            cell kS (proj (upd r)) = cell iS r ∧
            cell kU (proj (upd r)) = VStr (urgency_label (cell iu r))) as Hcells.
  { intros r Hr. unfold proj.
    rewrite (cell_fmap _ _ _ _ HixS), (cell_fmap _ _ _ _ HixU).
    split; [by apply HcS | by apply HgU]. }
  eexists _, (proj <$> rows display), kU, kS, iu, iS.
  split_and!; try done.
  - rewrite Hrows, <- list_fmap_compose. apply Forall2_fmap_r.
    apply Forall_Forall2_diag, Forall_forall. intros r Hr. by apply Hcells.
  - cbn [rows]. apply stable_sort_perm.
  - cbn [rows].
    apply (StronglySorted_impl (λ a b, rows_leb [kU; kS] a b = true)).
    + intros x y Hx Hy.
      apply stable_sort_elem_of in Hx, Hy.
      rewrite Hrows, <- list_fmap_compose in Hx, Hy.
      apply list_elem_of_fmap in Hx as (rx & -> & Hrx).
      apply list_elem_of_fmap in Hy as (ry & -> & Hry).
      apply rows_leb_urgency_sku with
        (urgency_label (cell iu rx)) (urgency_label (cell iu ry));
        [by apply Hcells | by apply Hcells].
    + apply stable_sort_strongly_sorted;
        [apply rows_leb_total | apply rows_leb_trans].
Qed.

Lemma reorder_suggestions_sorted_witness :
  ∃ out, reorder_suggestions
           {| columns := ["sku"; "supplier"; "urgency"];
              rows := [[VStr "B"; VStr "S1"; VStr "low"];
                       [VStr "C"; VStr "S2"; VStr "HIGH"];
                       [VStr "A"; VStr "S1"; VStr "Medium"];
                       [VStr "A"; VStr "S3"; VStr "high"]] |}
         = Ok out.
Proof.
  destruct (reorder_suggestions_sorted
    {| columns := ["sku"; "supplier"; "urgency"];
       rows := [[VStr "B"; VStr "S1"; VStr "low"];
                [VStr "C"; VStr "S2"; VStr "HIGH"];
                [VStr "A"; VStr "S1"; VStr "Medium"];
                [VStr "A"; VStr "S3"; VStr "high"]] |})
    as (out & _ & _ & _ & _ & _ & H & _).
  - repeat constructor.
  - set_solver.
  - set_solver.
  - by exists out.
Defined.

Example reorder_suggestions_example :
  reorder_suggestions
    {| columns := ["sku"; "supplier"; "urgency"];
       rows := [[VStr "B"; VStr "S1"; VStr "low"];
                [VStr "C"; VStr "S2"; VStr "HIGH"];
                [VStr "A"; VStr "S1"; VStr "Medium"];
                [VStr "A"; VStr "S3"; VStr "high"]] |}
  = Ok {| columns := ["sku"; "supplier"; "Urgency"];
          rows := [[VStr "A"; VStr "S3"; VStr "🔴 High"];
                   [VStr "C"; VStr "S2"; VStr "🔴 High"];
                   [VStr "A"; VStr "S1"; VStr "🟠 Medium"];
                   [VStr "B"; VStr "S1"; VStr "🟢 Low"]] |}.
Proof. reflexivity. Qed.
End reorder_claims.

(* ===================================================================== *)
(** * Group-by-sum, sort, head *)
(* ===================================================================== *)

Section groups.
Import Pandas App Spec.

Lemma group_add_keys (add : Z → Z → Z) (k : scalar) (q : Z)
    (acc : list (scalar * Z)) (k' : scalar) :
  k' ∈ (group_add add k q acc).*1 ↔ k' = k ∨ k' ∈ acc.*1.
Proof.
  induction acc as [|[k0 s] acc IH]; simpl.
  - rewrite list_elem_of_singleton, elem_of_nil. tauto.
  - destruct (decide (k = k0)) as [->|Hne]; simpl.
    + rewrite !elem_of_cons. tauto.
    + destruct (scalar_leb k k0); simpl.
      * rewrite !elem_of_cons. tauto.
      * rewrite !elem_of_cons, IH. tauto.
Qed.

Lemma group_add_total (k : scalar) (q : Z) (acc : list (scalar * Z)) (k' : scalar) :
  total_of k' (group_add Z.add k q acc)
  = (if decide (k = k') then q else 0) + total_of k' acc.
Proof.
  induction acc as [|[k0 s] acc IH]; simpl.
  - destruct (decide (k = k')); lia.
  - destruct (decide (k = k0)) as [->|Hne]; simpl.
    + destruct (decide (k0 = k')); lia.
    + destruct (scalar_leb k k0); simpl.
      * destruct (decide (k = k')), (decide (k0 = k')); lia.
      * rewrite IH. destruct (decide (k = k')), (decide (k0 = k')); lia.
Qed.

Lemma group_add_sorted (add : Z → Z → Z) (k : scalar) (q : Z) (acc : list (scalar * Z)) :
  StronglySorted key_lt acc.*1 → StronglySorted key_lt (group_add add k q acc).*1.
Proof.
  induction acc as [|[k0 s] acc IH]; simpl; intros Hs.
  - repeat constructor.
  - apply StronglySorted_inv in Hs as [Hs Hall].
    destruct (decide (k = k0)) as [->|Hne]; simpl.
    + by constructor.
    + destruct (scalar_leb k k0) eqn:Hle; simpl.
      * constructor; [by constructor|].
        constructor; [done|].
        eapply Forall_impl; [exact Hall|]. intros x [Hx Hxne]. split.
        -- by eapply scalar_leb_trans.
        -- intros ->. apply Hne. by apply scalar_leb_antisym.
      * constructor; [by apply IH|].
        apply Forall_forall. intros x Hx.
        apply group_add_keys in Hx as [->|Hx].
        -- split; [|done]. destruct (scalar_leb_total k k0); congruence.
        -- by eapply Forall_forall in Hall.
Qed.

Lemma group_sums_keys (add : Z → Z → Z) (keyed : list (value * option Z)) (k : scalar) :
  k ∈ (group_sums add keyed).*1 ↔ of_scalar k ∈ keyed.*1.
Proof.
  induction keyed as [|[v q] keyed IH]; simpl.
  - by rewrite !elem_of_nil.
  - rewrite elem_of_cons, <- IH.
    destruct (to_scalar v) as [k0|] eqn:Hv.
    + apply to_scalar_Some in Hv as ->. rewrite group_add_keys.
      split; (intros [H|H]; [left|by right]); [by subst|].
      by destruct k, k0; simplify_eq/=.
    + split; [by right|]. intros [<-|H]; [|done]. by destruct k.
Qed.

Lemma group_sums_sorted (add : Z → Z → Z) (keyed : list (value * option Z)) :
  StronglySorted key_lt (group_sums add keyed).*1.
Proof.
  induction keyed as [|[v q] keyed IH]; simpl; [constructor|].
  destruct (to_scalar v); [by apply group_add_sorted | done].
Qed.

Lemma group_sums_total (keyed : list (value * option Z)) (k : scalar) :
  total_of k (group_sums Z.add keyed) = sum_for k keyed.
Proof.
  induction keyed as [|[v q] keyed IH]; simpl; [done|].
  destruct (to_scalar v) as [k0|] eqn:Hv; simpl.
  - rewrite group_add_total, IH.
    destruct (decide (k0 = k)) as [->|Hne].
    + by rewrite decide_True.
    + rewrite decide_False by congruence. lia.
  - exact IH.
Qed.

Lemma wrap64_add_l (a b : Z) : wrap64 (wrap64 a + b) = wrap64 (a + b).
Proof.
  unfold wrap64.
  replace ((a + 9223372036854775808) `mod` 18446744073709551616
           - 9223372036854775808 + b + 9223372036854775808)
    with ((a + 9223372036854775808) `mod` 18446744073709551616 + b) by lia.
  rewrite Zplus_mod_idemp_l. do 2 f_equal. lia.
Qed.

Lemma wrap64_int64 (z : Z) : int64 (wrap64 z).
Proof.
  unfold int64, wrap64.
  pose proof (Z.mod_pos_bound (z + 9223372036854775808) 18446744073709551616).
  lia.
Qed.

Lemma wrap64_small (z : Z) : int64 z → wrap64 z = z.
Proof. unfold int64, wrap64. intros H. rewrite Z.mod_small; lia. Qed.

Lemma wrap64_add (a b : Z) : wrap64 (wrap64 a + wrap64 b) = wrap64 (a + b).
Proof. by rewrite wrap64_add_l, (Z.add_comm a), wrap64_add_l, Z.add_comm. Qed.

(** Sums in int64 are the exact sums, wrapped. *)
Lemma group_add_wrapped (k : scalar) (q : Z) (acc : list (scalar * Z)) :
  group_add (sum_add true) k q (wrapped acc) = wrapped (group_add Z.add k q acc).
Proof.
  unfold wrapped. induction acc as [|[k0 s] acc IH]; [done|].
  cbn [fmap list_fmap group_add fst snd].
  destruct (decide (k = k0)) as [->|Hne].
  - cbn [fmap list_fmap fst snd sum_add]. by rewrite wrap64_add_l.
  - destruct (scalar_leb k k0); cbn [fmap list_fmap fst snd]; [done|].
    f_equal. exact IH.
Qed.

Lemma group_sums_wrapped (keyed : list (value * option Z)) :
  group_sums (sum_add true) keyed = wrapped (group_sums Z.add keyed).
Proof.
  induction keyed as [|[v q] keyed IH]; [done|].
  cbn [group_sums foldr fst snd].
  destruct (to_scalar v); [|exact IH].
  change (foldr _ [] keyed) with (group_sums (sum_add true) keyed) at 1.
  rewrite IH. apply group_add_wrapped.
Qed.

Lemma wrapped_keys (g : list (scalar * Z)) : (wrapped g).*1 = g.*1.
Proof. unfold wrapped. rewrite <- list_fmap_compose. by apply list_fmap_ext. Qed.

Lemma mapM_numeric (vals : list value) (nums : list (option Z)) :
  mapM numeric vals = Ok nums → nums = number <$> vals.
Proof.
  revert nums. induction vals as [|v vals IH]; intros nums; cbn [mapM].
  { by intros [= <-]. }
  destruct (numeric v) as [x|] eqn:Hv; [|done]. cbn [bind].
  destruct (mapM numeric vals) as [ys|]; [|done]. cbn [bind].
  intros [= <-]. cbn [fmap list_fmap]. f_equal; [|by apply IH].
  destruct v; cbn in Hv; by simplify_eq.
Qed.

Lemma is_int64_numeric (vals : list value) :
  is_int64 vals = true → mapM numeric vals = Ok (number <$> vals).
Proof.
  induction vals as [|v vals IH]; [done|].
  cbn [is_int64 forallb]. intros [Hv Hvals]%andb_true_iff.
  destruct v; try done. cbn [mapM numeric bind].
  unfold is_int64 in IH. by rewrite (IH Hvals).
Qed.

Lemma total_of_absent (k : scalar) (g : list (scalar * Z)) :
  k ∉ g.*1 → total_of k g = 0.
Proof.
  induction g as [|[k0 s] g IH]; simpl; [done|].
  rewrite not_elem_of_cons. intros [Hne Hk].
  rewrite decide_False by done. by apply IH.
Qed.

Lemma total_of_elem (k : scalar) (s : Z) (g : list (scalar * Z)) :
  NoDup g.*1 → (k, s) ∈ g → total_of k g = s.
Proof.
  induction g as [|[k0 s0] g IH]; simpl; intros Hnd Hin.
  { by apply elem_of_nil in Hin. }
  apply NoDup_cons in Hnd as [Hk0 Hnd].
  apply elem_of_cons in Hin as [[= -> ->]|Hin].
  - rewrite decide_True by done. rewrite total_of_absent by done. lia.
  - rewrite decide_False; [by apply IH|].
    intros ->. apply Hk0. apply list_elem_of_fmap. by exists (k, s).
Qed.

Lemma key_lt_NoDup (ks : list scalar) : StronglySorted key_lt ks → NoDup ks.
Proof.
  induction 1 as [|k ks Hs IH Hall]; constructor; [|done].
  intros Hin. eapply Forall_forall in Hall; [|done]. by destruct Hall.
Qed.

Lemma mapM_length {A B} (f : A → result B) (l : list A) (l' : list B) :
  mapM f l = Ok l' → length l' = length l.
Proof.
  revert l'. induction l as [|x l IH]; intros l'; simpl; [by intros [= <-]|].
  destruct (f x); [|done]. simpl.
  destruct (mapM f l) as [ys|]; [|done]. simpl.
  intros [= <-]. simpl. by rewrite (IH ys).
Qed.
End groups.

Section indexers.
Import Pandas App Spec.

Lemma omap_lookup_seq {A} (pre l : list A) :
  omap (λ i, (pre ++ l) !! i) (seq (length pre) (length l)) = l.
Proof.
  revert pre. induction l as [|x l IH]; intros pre; [done|].
  cbn [length seq omap list_omap]. rewrite list_lookup_middle by done.
  f_equal. specialize (IH (pre ++ [x])).
  rewrite <- app_assoc, length_app in IH. cbn [length app] in IH.
  by rewrite Nat.add_1_r in IH.
Qed.

Lemma take_indexer_perm {A} (l : list A) (idx : list nat) :
  idx ≡ₚ seq 0 (length l) → omap (λ i, l !! i) idx ≡ₚ l.
Proof.
  intros ->. pose proof (omap_lookup_seq [] l) as H.
  cbn [app length] in H. by rewrite H.
Qed.

Lemma omap_lookup_snd {A B} (l : list (A * B)) (idx : list nat) :
  (omap (λ i, l !! i) idx).*2 = omap (λ i, l.*2 !! i) idx.
Proof.
  induction idx as [|i idx IH]; [done|].
  cbn [omap list_omap]. rewrite list_lookup_fmap.
  destruct (l !! i); cbn [fmap option_fmap option_map list_fmap]; by rewrite <- IH.
Qed.

Lemma omap_lookup_default (l : list Z) (idx : list nat) :
  Forall (λ i, (i < length l)%nat) idx →
  omap (λ i, l !! i) idx = (λ i, default 0 (l !! i)) <$> idx.
Proof.
  induction 1 as [|i idx Hi _ IH]; [done|].
  cbn [omap list_omap fmap list_fmap].
  apply lookup_lt_is_Some in Hi as [x Hx]. rewrite Hx. simpl. f_equal. exact IH.
Qed.

Lemma desc_leb_total (l : list Z) (i j : nat) :
  Sample.desc_leb l i j = true ∨ Sample.desc_leb l j i = true.
Proof. unfold Sample.desc_leb. rewrite !bool_decide_eq_true. lia. Qed.

(** A stable sort of any enumeration of the indices is an indexer of
    the descending order. *)
Lemma argsort_by_spec (order : list Z → list nat) :
  (∀ l, order l ≡ₚ seq 0 (length l)) →
  argsort_desc_spec (λ l, stable_sort (Sample.desc_leb l) (order l)).
Proof.
  intros Horder l. split.
  - by rewrite stable_sort_perm.
  - rewrite omap_lookup_default.
    + apply (Sorted_fmap _ (λ i j, Sample.desc_leb l i j = true)).
      * intros i j. unfold Sample.desc_leb. by rewrite bool_decide_eq_true.
      * apply stable_sort_sorted, desc_leb_total.
    + apply Forall_forall. intros i Hi.
      rewrite stable_sort_elem_of, Horder in Hi.
      apply elem_of_seq in Hi. lia.
Qed.

Lemma argsort_stable_spec : argsort_desc_spec Sample.argsort_stable.
Proof. by apply (argsort_by_spec (λ l, seq 0 (length l))). Qed.

Lemma descending_take_drop (l : list (scalar * Z)) (n : nat) :
  descending l.*2 →
  descending (take n l).*2 ∧
  ∀ x y, x ∈ take n l → y ∈ drop n l → y.2 ≤ x.2.
Proof.
  intros Hs. apply Sorted_StronglySorted in Hs; [|apply _].
  rewrite <- (take_drop n l), fmap_app in Hs. split.
  - apply StronglySorted_Sorted. by eapply StronglySorted_app_1_l.
  - intros x y Hx Hy.
    apply (StronglySorted_app_1_elem_of _ _ _ x.2 y.2 Hs);
      by apply list_elem_of_fmap_2.
Qed.
End indexers.

Section top_n_claims.
Import Pandas App Spec.

Lemma getitem_length (df : DataFrame) (c : string) (s : list value) :
  getitem df c = Ok s → length s = length (rows df).
Proof.
  unfold getitem. destruct (index_of c (columns df)); [|done].
  intros [= <-]. unfold column. by rewrite length_fmap.
Qed.

Lemma groupby_sum_int64 (df : DataFrame) (by_ metric : string)
    (keys vals : list value) :
  getitem df by_ = Ok keys →
  getitem df metric = Ok vals →
  is_int64 vals = true →
  groupby_sum df by_ metric
  = Ok (wrapped (group_sums Z.add (zip keys (number <$> vals)))).
Proof.
  intros Hk Hv Hi. unfold groupby_sum. rewrite Hk, Hv. cbn [bind].
  rewrite (is_int64_numeric _ Hi), Hi. cbn [bind].
  by rewrite group_sums_wrapped.
Qed.

Lemma wrapped_elem (k : scalar) (s : Z) (g : list (scalar * Z)) :
  (k, s) ∈ wrapped g → ∃ s0, (k, s0) ∈ g ∧ s = wrap64 s0.
Proof.
  unfold wrapped. intros ([k0 s0] & [= -> ->] & Hin)%list_elem_of_fmap. eauto.
Qed.

Lemma group_sums_elem (keyed : list (value * option Z)) (k : scalar) (s : Z) :
  (k, s) ∈ group_sums Z.add keyed → s = sum_for k keyed.
Proof.
  intros Hin. rewrite <- group_sums_total. symmetry.
  apply total_of_elem; [|done]. apply key_lt_NoDup, group_sums_sorted.
Qed.

(** Group-by-sum, sort, head on an int64 metric (lines 178-182 and
    265-267).  With any indexer that sorts in descending order, [top_n]
    groups the rows by the key (rows with a missing key belong to no
    group), sums the metric of each group in int64, where the sum wraps
    around modulo 2^64 and is the exact sum when an int64 holds it, orders
    the groups by descending sum and keeps the first [n]: every group kept
    has a sum at least that of every group left out, and [min n] (number
    of groups) rows are returned, 10 for 15 groups and n = 10.  The order
    among groups of equal sum is the indexer's. *)
Theorem top_n_spec (argsort : list Z → list nat) (df : DataFrame)
    (by_ metric : string) (n : nat) (keys vals : list value) :
  argsort_desc_spec argsort →
  getitem df by_ = Ok keys →
  getitem df metric = Ok vals →
  is_int64 vals = true →
  ∃ grouped out rest : list (scalar * Z),
    groupby_sum df by_ metric = Ok grouped ∧
    top_n argsort df by_ metric n = Ok out ∧
    StronglySorted key_lt grouped.*1 ∧
    (∀ k, k ∈ grouped.*1 ↔ of_scalar k ∈ keys) ∧
    (∀ k s, (k, s) ∈ grouped →
       s = wrap64 (sum_for k (zip keys (number <$> vals)))) ∧
    (∀ k s, (k, s) ∈ grouped →
       int64 (sum_for k (zip keys (number <$> vals))) →
       s = sum_for k (zip keys (number <$> vals))) ∧
    out ++ rest ≡ₚ grouped ∧
    descending out.*2 ∧
    (∀ x y, x ∈ out → y ∈ rest → y.2 ≤ x.2) ∧
    length out = (n `min` length grouped)%nat ∧
    (length grouped = 15%nat → n = 10%nat → length out = 10%nat).
Proof.
  intros Hspec Hk Hv Hi. unfold top_n.
  rewrite (groupby_sum_int64 _ _ _ _ _ Hk Hv Hi). cbn [bind].
  set (nums := number <$> vals).
  set (grouped := wrapped (group_sums Z.add (zip keys nums))).
  set (ordered := sort_values_desc argsort grouped).
  assert (length keys = length nums) as Hlen.
  { unfold nums. rewrite length_fmap.
    by rewrite (getitem_length _ _ _ Hk), (getitem_length _ _ _ Hv). }
  assert (ordered ≡ₚ grouped) as Hperm.
  { apply take_indexer_perm. destruct (Hspec grouped.*2) as [Hp _].
    by rewrite length_fmap in Hp. }
  assert (descending ordered.*2) as Hdesc.
  { unfold ordered, sort_values_desc. rewrite omap_lookup_snd.
    by destruct (Hspec grouped.*2) as [_ ?]. }
  destruct (descending_take_drop ordered n Hdesc) as [Htake Hsplit].
  assert (length (head n ordered) = (n `min` length grouped)%nat) as Hlength.
  { unfold head. by rewrite length_take, Hperm. }
  assert (∀ k s, (k, s) ∈ grouped → s = wrap64 (sum_for k (zip keys nums))) as Hsum.
  { intros k s (s0 & Hin & ->)%wrapped_elem. f_equal. by apply group_sums_elem. }
  exists grouped, (head n ordered), (drop n ordered).
  split_and!; try done.
  - unfold grouped. rewrite wrapped_keys. apply group_sums_sorted.
  - intros k. unfold grouped.
    rewrite wrapped_keys, group_sums_keys, fst_zip; [done|lia].
  - intros k s Hin Hr. rewrite (Hsum k s Hin). by apply wrap64_small.
  - unfold head. by rewrite take_drop.
  - intros H15 ->. rewrite Hlength, H15. done.
Qed.

Lemma top_n_spec_witness :
  ∃ out, top_n Sample.argsort_stable
           {| columns := ["sku"; "qty"];
              rows := [[VStr "B"; VInt 2]; [VStr "A"; VInt 5];
                       [VStr "B"; VInt 4]; [VNaN; VInt 9]; [VStr "C"; VInt 0]] |}
           "sku" "qty" 2
         = Ok out ∧ length out = 2%nat.
Proof.
  destruct (top_n_spec Sample.argsort_stable
    {| columns := ["sku"; "qty"];
       rows := [[VStr "B"; VInt 2]; [VStr "A"; VInt 5];
                [VStr "B"; VInt 4]; [VNaN; VInt 9]; [VStr "C"; VInt 0]] |}
    "sku" "qty" 2
    [VStr "B"; VStr "A"; VStr "B"; VNaN; VStr "C"]
    [VInt 2; VInt 5; VInt 4; VInt 9; VInt 0])
    as (grouped & out & rest & Hg & Ht & _ & _ & _ & _ & _ & _ & _ & Hl & _).
  - exact argsort_stable_spec.
  - reflexivity.
  - reflexivity.
  - reflexivity.
  - exists out. split; [exact Ht|]. rewrite Hl.
    injection Hg as <-. reflexivity.
Defined.

Example top_n_example :
  top_n Sample.argsort_stable
    {| columns := ["sku"; "qty"];
       rows := [[VStr "B"; VInt 2]; [VStr "A"; VInt 5];
                [VStr "B"; VInt 4]; [VNaN; VInt 9]; [VStr "C"; VNaN]] |}
    "sku" "qty" 2
  = Ok [(SStr "B", 6); (SStr "A", 5)].
Proof. reflexivity. Qed.

(** C2. [top_n] sums the metric of a group in int64, and a sum that no
    int64 holds wraps around: on the rows (A, 2^62), (A, 2^62), (B, 1) the
    group A, whose sum is 2^63, is given the sum -2^63 and is listed after
    the group B of sum 1, whatever the indexer of the descending sort. *)
Theorem top_n_sum_overflows :
  groupby_sum
    {| columns := ["sku"; "qty"];
       rows := [[VStr "A"; VInt 4611686018427387904];
                [VStr "A"; VInt 4611686018427387904];
                [VStr "B"; VInt 1]] |}
    "sku" "qty"
  = Ok [(SStr "A", -9223372036854775808); (SStr "B", 1)] ∧
  sum_for (SStr "A")
    [(VStr "A", Some 4611686018427387904); (VStr "A", Some 4611686018427387904);
     (VStr "B", Some 1)]
  = 9223372036854775808 ∧
  (∀ argsort : list Z → list nat,
     argsort_desc_spec argsort →
     top_n argsort
       {| columns := ["sku"; "qty"];
          rows := [[VStr "A"; VInt 4611686018427387904];
                   [VStr "A"; VInt 4611686018427387904];
                   [VStr "B"; VInt 1]] |}
       "sku" "qty" 10
     = Ok [(SStr "B", 1); (SStr "A", -9223372036854775808)]).
Proof.
  split_and!; [reflexivity..|].
  intros argsort Hspec. unfold top_n.
  change (groupby_sum _ "sku" "qty")
    with (Ok (A:=list (scalar * Z))
            [(SStr "A", -9223372036854775808); (SStr "B", 1)]).
  cbn [bind]. unfold sort_values_desc. cbn [fmap list_fmap snd].
  destruct (Hspec [-9223372036854775808; 1]) as [Hperm Hdesc].
  cbn [length seq] in Hperm. symmetry in Hperm.
  apply Permutation_length_2_inv in Hperm as [E|E]; rewrite E in *.
  - exfalso. cbn in Hdesc. apply Sorted_inv in Hdesc as [_ Hhd].
    apply HdRel_inv in Hhd. lia.
  - reflexivity.
Qed.
End top_n_claims.

(* ===================================================================== *)
(** * Missing columns *)
(* ===================================================================== *)

Section missing_columns.
Import Pandas App Spec.

(** C1. The filters of the pages index the frame with [df[c]], which
    raises KeyError when the column is missing, where the sidebar and
    the KPI cards use [df.get(c, default)]:
    - a recommendations table without a supplier column and a non-empty
      supplier selection raises KeyError 'supplier';
    - a forecast table without a date column raises KeyError 'date',
      with or without a date range, also in a whole run of the script
      on a data directory whose forecast.csv has the columns sku and
      forecast_qty only;
    - a recommendations table without an urgency column raises
      KeyError 'Urgency' when the table is sorted, after the guard of
      line 245 let it pass;
    - on the same tables the sidebar and the cards return defaults. *)
Theorem missing_column_raises :
  recommendations_filtered
    {| columns := ["sku"; "urgency"]; rows := [[VStr "A"; VStr "high"]] |}
    [] [SStr "S1"]
  = Raise (KeyError "supplier") ∧
  forecast_filtered Sample.parse_datetime
    {| columns := ["sku"; "forecast_qty"]; rows := [[VStr "A"; VInt 10]] |}
    [] (Some [19723; 19724])
  = Raise (KeyError "date") ∧
  forecast_filtered Sample.parse_datetime
    {| columns := ["sku"; "forecast_qty"]; rows := [[VStr "A"; VInt 10]] |}
    [] None
  = Raise (KeyError "date") ∧
  (main Sample.read_csv Sample.to_csv Sample.parse_datetime Sample.py_float Sample.float_zero
     Sample.argsort_stable
     {| nav := Forecasting; selected_skus := [SStr "A"];
        selected_suppliers := []; date_range := None;
        uploaded := λ _, None |}
     {| files := {[ "forecast.csv" := Sample.bytes "sku,forecast_qty
A,10" ]};
        load_csv_cache := ∅; get_all_data_cache := None |}).1
  = Raise (KeyError "date") ∧
  reorder_suggestions
    {| columns := ["sku"; "supplier"]; rows := [[VStr "A"; VStr "S1"]] |}
  = Raise (KeyError "Urgency") ∧
  all_suppliers
    {| columns := ["sku"; "urgency"]; rows := [[VStr "A"; VStr "high"]] |}
  = Ok [] ∧
  date_bounds Sample.parse_datetime
    {| columns := ["sku"; "forecast_qty"]; rows := [[VStr "A"; VInt 10]] |}
  = Ok None ∧
  kpi Sample.py_float Sample.float_zero
    {| columns := ["avg_lead_time_days"]; rows := [[VInt 4]] |} "total_sales"
  = Ok (Some 0).
Proof. split_and!; by vm_compute. Qed.
End missing_columns.

(* ===================================================================== *)
(** * Further properties of the sidebar *)
(* ===================================================================== *)

Section sidebar_more.
Import Pandas App Spec.
Variable parse_datetime : string → option Z.

(** [all_suppliers] (line 116): on a recommendations table whose supplier
    cells are strings or missing, the options of the supplier widget are
    the suppliers of the table, each once, in strictly ascending order;
    a table without the column offers none. *)
Theorem all_suppliers_sorted (df_reco : DataFrame) :
  (∀ z, VInt z ∉ get df_reco "supplier" []) →
  ∃ ss : list string,
    all_suppliers df_reco = Ok (SStr <$> ss) ∧
    StronglySorted (λ a b, String.ltb a b = true) ss ∧
    NoDup ss ∧
    (∀ s, s ∈ ss ↔ VStr s ∈ get df_reco "supplier" []) ∧
    ("supplier" ∉ columns df_reco → ss = []).
Proof.
  intros Htyped. unfold all_suppliers.
  set (R := get df_reco "supplier" []) in *.
  destruct (all_strings (unique (dropna R))) as [ss0 Hss0].
  { intros [z|s] Hx; [|by exists s]. exfalso.
    apply elem_of_unique, elem_of_dropna in Hx. by apply (Htyped z). }
  assert (NoDup ss0) as Hnd0.
  { apply (NoDup_fmap SStr). rewrite <- Hss0. apply NoDup_unique. }
  assert (∀ s, s ∈ stable_sort String.leb ss0 ↔ VStr s ∈ R) as Hmem.
  { intros s. rewrite stable_sort_elem_of.
    rewrite <- (list_elem_of_fmap_inj SStr), <- Hss0.
    by rewrite elem_of_unique, elem_of_dropna. }
  exists (stable_sort String.leb ss0). rewrite Hss0. split_and!.
  - apply sorted_strings.
  - apply strictly_sorted.
    + by rewrite stable_sort_perm.
    + apply stable_sort_strongly_sorted;
        [apply string_leb_total | apply string_leb_trans].
  - by rewrite stable_sort_perm.
  - exact Hmem.
  - intros Hmiss. destruct (stable_sort String.leb ss0) as [|s l] eqn:E; [done|].
    exfalso. assert (VStr s ∈ R) as Hs by (apply Hmem; by left).
    unfold R in Hs. rewrite (get_missing _ _ _ Hmiss) in Hs.
    by apply elem_of_nil in Hs.
Qed.

Lemma all_suppliers_sorted_witness :
  ∃ ss : list string,
    all_suppliers
      {| columns := ["sku"; "supplier"];
         rows := [[VStr "A"; VStr "S2"]; [VStr "B"; VNaN]; [VStr "C"; VStr "S1"];
                  [VStr "D"; VStr "S2"]] |}
    = Ok (SStr <$> ss) ∧ NoDup ss.
Proof.
  destruct (all_suppliers_sorted
    {| columns := ["sku"; "supplier"];
       rows := [[VStr "A"; VStr "S2"]; [VStr "B"; VNaN]; [VStr "C"; VStr "S1"];
                [VStr "D"; VStr "S2"]] |}) as (ss & H1 & _ & H2 & _).
  - intros z H. vm_compute in H. set_solver.
  - exists ss. split; [exact H1 | exact H2].
Defined.

Lemma ts_min_spec (s : list value) :
  match ts_min s with
  | None => ∀ t, VInt t ∉ s
  | Some m => VInt m ∈ s ∧ ∀ t, VInt t ∈ s → m ≤ t
  end.
Proof.
  induction s as [|v s IH]; simpl.
  { intros t H. by apply elem_of_nil in H. }
  destruct v as [| |x|x]; destruct (ts_min s) as [m|];
    try (destruct IH as [IH1 IH2]);
    repeat setoid_rewrite elem_of_cons.
  all: try (split; [by right | intros t [?|?]; [done | by apply IH2]]).
  all: try (intros t [?|?]; [done | by eapply IH]).
  - split.
    + destruct (Z.min_spec x m) as [[_ ->]|[_ ->]]; [by left | by right].
    + intros t [[= ->]|Ht]; [lia|]. specialize (IH2 t Ht). lia.
  - split; [by left|]. intros t [[= ->]|Ht]; [lia|]. by apply IH in Ht.
Qed.

Lemma ts_max_spec (s : list value) :
  match ts_max s with
  | None => ∀ t, VInt t ∉ s
  | Some m => VInt m ∈ s ∧ ∀ t, VInt t ∈ s → t ≤ m
  end.
Proof.
  induction s as [|v s IH]; simpl.
  { intros t H. by apply elem_of_nil in H. }
  destruct v as [| |x|x]; destruct (ts_max s) as [m|];
    try (destruct IH as [IH1 IH2]);
    repeat setoid_rewrite elem_of_cons.
  all: try (split; [by right | intros t [?|?]; [done | by apply IH2]]).
  all: try (intros t [?|?]; [done | by eapply IH]).
  - split.
    + destruct (Z.max_spec x m) as [[_ ->]|[_ ->]]; [by right | by left].
    + intros t [[= ->]|Ht]; [lia|]. specialize (IH2 t Ht). lia.
  - split; [by left|]. intros t [[= ->]|Ht]; [lia|]. by apply IH in Ht.
Qed.

Lemma Timestamp_date_floor (t : Z) :
  date_to_datetime (Timestamp_date t) ≤ t < date_to_datetime (Timestamp_date t + 1).
Proof.
  unfold date_to_datetime, Timestamp_date, ns_per_day.
  pose proof (Z.mul_div_le t 86400000000000).
  pose proof (Z.mul_succ_div_gt t 86400000000000). lia.
Qed.

Lemma Timestamp_date_mono (t u : Z) : t ≤ u → Timestamp_date t ≤ Timestamp_date u.
Proof. intros H. unfold Timestamp_date, ns_per_day. by apply Z.div_le_mono. Qed.

Lemma Timestamp_date_midnight (d : Z) : Timestamp_date (date_to_datetime d) = d.
Proof. unfold Timestamp_date, date_to_datetime, ns_per_day. by apply Z.div_mul. Qed.

Lemma date_bounds_inv (df_forecast : DataFrame) (ts : list value) (d0 d1 : Z) :
  to_datetime parse_datetime (get df_forecast "date" []) = Ok ts →
  date_bounds parse_datetime df_forecast = Ok (Some (d0, d1)) →
  ∃ lo hi, VInt lo ∈ ts ∧ VInt hi ∈ ts ∧ (∀ t, VInt t ∈ ts → lo ≤ t ≤ hi) ∧
           d0 = Timestamp_date lo ∧ d1 = Timestamp_date hi.
Proof.
  intros Hts. unfold date_bounds. rewrite Hts. cbn [bind].
  pose proof (ts_min_spec ts) as Hmin. pose proof (ts_max_spec ts) as Hmax.
  destruct (ts_min ts) as [lo|], (ts_max ts) as [hi|]; try done.
  destruct Hmin as [Hlo Hmin], Hmax as [Hhi Hmax].
  intros [= <- <-]. exists lo, hi. split_and!; try done.
  intros t Ht. split; [by apply Hmin | by apply Hmax].
Qed.

(** [date_min], [date_max] (lines 121-126): when the date column converts
    to the timestamps [ts], the date widget is offered exactly when some
    date is present; it then starts from the calendar dates of the least
    and of the greatest timestamp of the column, so that every timestamp
    of the column lies between midnight of the first date and the end of
    the last one; a missing date column offers no widget. *)
Theorem date_bounds_spec (df_forecast : DataFrame) (ts : list value) :
  to_datetime parse_datetime (get df_forecast "date" []) = Ok ts →
  (date_bounds parse_datetime df_forecast = Ok None ↔ ∀ t, VInt t ∉ ts) ∧
  (∀ d0 d1, date_bounds parse_datetime df_forecast = Ok (Some (d0, d1)) →
     (∃ lo hi, VInt lo ∈ ts ∧ VInt hi ∈ ts ∧ (∀ t, VInt t ∈ ts → lo ≤ t ≤ hi) ∧
               d0 = Timestamp_date lo ∧ d1 = Timestamp_date hi) ∧
     d0 ≤ d1 ∧
     ∀ t, VInt t ∈ ts → date_to_datetime d0 ≤ t < date_to_datetime (d1 + 1)) ∧
  (∃ r, date_bounds parse_datetime df_forecast = Ok r) ∧
  ("date" ∉ columns df_forecast → date_bounds parse_datetime df_forecast = Ok None).
Proof.
  intros Hts. split_and!.
  - unfold date_bounds. rewrite Hts. cbn [bind].
    pose proof (ts_min_spec ts) as Hmin. pose proof (ts_max_spec ts) as Hmax.
    destruct (ts_min ts) as [lo|], (ts_max ts) as [hi|]; try done;
      try (destruct Hmin as [Hlo _]); try (destruct Hmax as [Hhi _]).
    all: try (split; [done|]; intros H; by destruct (H lo)).
    all: try by destruct (Hmax lo).
    all: try by destruct (Hmin hi).
  - intros d0 d1 Hb.
    destruct (date_bounds_inv _ _ _ _ Hts Hb) as (lo & hi & Hlo & Hhi & Hbtw & -> & ->).
    split_and!.
    + exists lo, hi. by split_and!.
    + apply Timestamp_date_mono. by apply Hbtw.
    + intros t Ht. destruct (Hbtw t Ht) as [H1 H2].
      pose proof (Timestamp_date_floor lo). pose proof (Timestamp_date_floor hi).
      lia.
  - unfold date_bounds. rewrite Hts. cbn [bind].
    destruct (ts_min ts), (ts_max ts); eauto.
  - intros Hmiss. unfold date_bounds. by rewrite (get_missing _ _ _ Hmiss).
Qed.

End sidebar_more.

Section sidebar_more_runs.
Import Pandas App Spec.

Lemma date_bounds_spec_witness :
  date_bounds Sample.parse_datetime
    {| columns := ["sku"; "date"];
       rows := [[VStr "A"; VStr "2024-01-03 12:00:00"]; [VStr "B"; VNaN];
                [VStr "C"; VStr "2024-01-01"]] |}
  = Ok (Some (19723, 19725)) ∧ 19723 ≤ 19725.
Proof.
  split; [reflexivity|].
  destruct (date_bounds_spec Sample.parse_datetime
    {| columns := ["sku"; "date"];
       rows := [[VStr "A"; VStr "2024-01-03 12:00:00"]; [VStr "B"; VNaN];
                [VStr "C"; VStr "2024-01-01"]] |}
    [VInt (date_to_datetime 19725 + 43200000000000); VNaN;
     VInt (date_to_datetime 19723)] eq_refl) as (_ & H & _).
  destruct (H 19723 19725 eq_refl) as (_ & Hle & _). exact Hle.
Defined.
End sidebar_more_runs.

(* ===================================================================== *)
(** * Further properties of storage and of a run *)
(* ===================================================================== *)

Section storage_more.
Import Pandas App Spec.
Variable read_csv : list Byte.byte → result DataFrame.
Variable to_csv : DataFrame → list Byte.byte.
Variable parse_datetime : string → option Z.
Context {float : Type}.
Variable py_float : value → result float.
Variable float_zero : float.
Variable argsort : list Z → list nat.

Lemma load_csv_keeps_all_cache (path : string) (w : world) :
  get_all_data_cache (load_csv read_csv path w).2 = get_all_data_cache w.
Proof.
  unfold load_csv. destruct (load_csv_cache w !! path); [done|].
  rewrite load_csv_body_fresh. by destruct (read_fresh _ _ _).
Qed.

Lemma load_datasets_keeps (names : list string) (w : world) :
  files (load_datasets read_csv names w).2 = files w ∧
  get_all_data_cache (load_datasets read_csv names w).2 = get_all_data_cache w.
Proof.
  revert w. induction names as [|name names IH]; intros w; [done|].
  cbn [load_datasets]. unfold mbind.
  pose proof (load_csv_files read_csv (name +:+ ".csv") w) as Hf.
  pose proof (load_csv_keeps_all_cache (name +:+ ".csv") w) as Hc.
  destruct (load_csv read_csv (name +:+ ".csv") w) as [[df|e] w1];
    cbn [fst snd] in *; [|done].
  destruct (IH w1) as [Hf1 Hc1].
  destruct (load_datasets read_csv names w1) as [[data|e] w2];
    cbn [fst snd ret] in *; split; congruence.
Qed.

Lemma get_all_data_files (w : world) :
  files (get_all_data read_csv w).2 = files w.
Proof.
  unfold get_all_data. destruct (get_all_data_cache w); [done|].
  unfold get_all_data_body.
  destruct (load_datasets_keeps datasets w) as [Hf _].
  by destruct (load_datasets read_csv datasets w) as [[data|e] w1].
Qed.

(** [st.cache_data] (lines 74, 80): once a loader has returned, it
    returns the same result again without reading storage, whatever has
    become of the files, and changes nothing; a loader that raises stores
    no result. *)
Theorem loaders_memoised :
  (∀ path w df w1,
     load_csv read_csv path w = (Ok df, w1) →
     ∀ fs, load_csv read_csv path (with_files fs w1) = (Ok df, with_files fs w1)) ∧
  (∀ w data w1,
     get_all_data read_csv w = (Ok data, w1) →
     ∀ fs, get_all_data read_csv (with_files fs w1) = (Ok data, with_files fs w1)) ∧
  (∀ path w e w1, load_csv read_csv path w = (Raise e, w1) → w1 = w) ∧
  (∀ w e w1,
     get_all_data read_csv w = (Raise e, w1) → get_all_data_cache w1 = None).
Proof.
  split_and!.
  - intros path w df w1 H fs. unfold load_csv in *.
    destruct (load_csv_cache w !! path) as [df'|] eqn:Hc.
    + injection H as <- <-. cbn [with_files load_csv_cache]. by rewrite Hc.
    + rewrite load_csv_body_fresh in H.
      destruct (read_fresh read_csv (files w) path); [|done].
      injection H as <- <-. cbn [with_files load_csv_cache].
      by rewrite lookup_insert_eq.
  - intros w data w1 H fs. unfold get_all_data in *.
    destruct (get_all_data_cache w) as [d|] eqn:Hc.
    + injection H as <- <-. cbn [with_files get_all_data_cache]. by rewrite Hc.
    + destruct (get_all_data_body read_csv w) as [[d|e] w']; [|done].
      by injection H as <- <-.
  - intros path w e w1 H. unfold load_csv in *.
    destruct (load_csv_cache w !! path); [done|].
    rewrite load_csv_body_fresh in H.
    destruct (read_fresh read_csv (files w) path); [done|]. by injection H as _ <-.
  - intros w e w1 H. unfold get_all_data in *.
    destruct (get_all_data_cache w) eqn:Hc; [done|].
    unfold get_all_data_body in *.
    destruct (load_datasets_keeps datasets w) as [_ Hk].
    destruct (load_datasets read_csv datasets w) as [[d|e'] w']; [done|].
    injection H as _ <-. cbn [snd] in Hk. congruence.
Qed.

Lemma upload_slots_untouched slots up (w : world) (f : string) :
  (∀ label, (label, f) ∈ slots → up label = None) →
  files (upload_slots read_csv to_csv slots up w).2 !! f = files w !! f.
Proof.
  revert w. induction slots as [|[l0 f0] slots IH]; intros w Hf; [done|].
  cbn [upload_slots].
  assert (∀ label, (label, f) ∈ slots → up label = None) as Hf'
    by (intros label Hin; apply Hf; by right).
  destruct (up l0) as [file|] eqn:Hl0; [|by apply IH].
  assert (f0 ≠ f) as Hne.
  { intros ->. specialize (Hf l0 ltac:(by left)). congruence. }
  unfold mbind. destruct (read_csv file) as [df|e] eqn:Hr.
  - rewrite (upload_ok _ _ _ _ _ _ Hr). rewrite IH by done.
    cbn [files]. by rewrite lookup_insert_ne.
  - by rewrite (upload_raise _ _ _ _ _ _ Hr).
Qed.

Lemma upload_slots_none slots (w : world) :
  upload_slots read_csv to_csv slots (λ _, None) w = (Ok tt, w).
Proof. induction slots as [|[l0 f0] slots IH]; [done|]. exact IH. Qed.

Lemma upload_slots_writes slots up (w : world) label fname :
  NoDup slots.*1 → NoDup slots.*2 →
  (∀ l f file, (l, f) ∈ slots → up l = Some file → ∃ df, read_csv file = Ok df) →
  (label, fname) ∈ slots →
  (upload_slots read_csv to_csv slots up w).1 = Ok tt ∧
  match up label with
  | Some file =>
      ∃ df, read_csv file = Ok df ∧
            files (upload_slots read_csv to_csv slots up w).2 !! fname
              = Some (to_csv df)
  | None => files (upload_slots read_csv to_csv slots up w).2 !! fname
              = files w !! fname
  end.
Proof.
  revert w. induction slots as [|[l0 f0] slots IH]; intros w Hl Hf Hok Hin.
  { by apply elem_of_nil in Hin. }
  cbn [fmap list_fmap] in Hl, Hf. cbn [fst snd] in Hl, Hf.
  apply NoDup_cons in Hl as [Hl0 Hl], Hf as [Hf0 Hf].
  assert (∀ l f file, (l, f) ∈ slots → up l = Some file →
            ∃ df, read_csv file = Ok df) as Hok'
    by (intros l f file ?; apply (Hok l f); by right).
  assert (∀ w', (upload_slots read_csv to_csv slots up w').1 = Ok tt) as Hrest.
  { intros w'. clear -Hok'. revert w'.
    induction slots as [|[l f] slots IH]; intros w'; [done|].
    cbn [upload_slots]. destruct (up l) as [file|] eqn:Hl.
    - destruct (Hok' l f file ltac:(by left) Hl) as [df Hr].
      unfold mbind. rewrite (upload_ok _ _ _ _ _ _ Hr).
      apply IH. intros l' f' file' ?. apply (Hok' l' f'). by right.
    - apply IH. intros l' f' file' ?. apply (Hok' l' f'). by right. }
  cbn [upload_slots].
  apply elem_of_cons in Hin as [[= -> ->]|Hin].
  - assert (∀ l, (l, f0) ∈ slots → up l = None) as Hnone.
    { intros l Hl'. exfalso. apply Hf0. apply list_elem_of_fmap.
      by exists (l, f0). }
    destruct (up l0) as [file|] eqn:Hl0'.
    + destruct (Hok l0 f0 file ltac:(by left) Hl0') as [df Hr].
      unfold mbind. rewrite (upload_ok _ _ _ _ _ _ Hr).
      split; [apply Hrest|]. exists df. split; [done|].
      rewrite upload_slots_untouched by done. cbn [files].
      by rewrite lookup_insert_eq.
    + split; [apply Hrest|]. by apply upload_slots_untouched.
  - assert (l0 ≠ label) as Hnl.
    { intros ->. apply Hl0. apply list_elem_of_fmap. by exists (label, fname). }
    assert (f0 ≠ fname) as Hnf.
    { intros ->. apply Hf0. apply list_elem_of_fmap. by exists (label, fname). }
    destruct (up l0) as [file|] eqn:Hl0'.
    + destruct (Hok l0 f0 file ltac:(by left) Hl0') as [df Hr].
      unfold mbind. rewrite (upload_ok _ _ _ _ _ _ Hr).
      destruct (IH {| files := <[f0:=to_csv df]> (files w); load_csv_cache := ∅;
                      get_all_data_cache := None |} Hl Hf Hok' Hin) as [H1 H2].
      split; [done|]. destruct (up label); [done|].
      rewrite H2. cbn [files]. by rewrite lookup_insert_ne.
    + by apply IH.
Qed.
End storage_more.

Section run_more.
Import Pandas App Spec.
Variable read_csv : list Byte.byte → result DataFrame.
Variable to_csv : DataFrame → list Byte.byte.
Variable parse_datetime : string → option Z.
Context {float : Type}.
Variable py_float : value → result float.
Variable float_zero : float.
Variable argsort : list Z → list nat.

Lemma mapping_labels_NoDup : NoDup mapping.*1.
Proof. apply (bool_decide_unpack _). by vm_compute. Qed.

(** [sidebar_uploaders] (lines 301-309): when every uploaded file parses,
    the run returns, the file of each slot that holds an upload is the
    CSV text of the parsed upload, and every other file is as before. *)
Theorem sidebar_uploaders_writes (up : string → option (list Byte.byte)) (w : world) :
  (∀ label file, up label = Some file → ∃ df, read_csv file = Ok df) →
  (sidebar_uploaders read_csv to_csv up w).1 = Ok tt ∧
  (∀ label fname, (label, fname) ∈ mapping →
     match up label with
     | Some file =>
         ∃ df, read_csv file = Ok df ∧
               files (sidebar_uploaders read_csv to_csv up w).2 !! fname
                 = Some (to_csv df)
     | None => files (sidebar_uploaders read_csv to_csv up w).2 !! fname
                 = files w !! fname
     end) ∧
  (∀ f, f ∉ mapping.*2 →
     files (sidebar_uploaders read_csv to_csv up w).2 !! f = files w !! f).
Proof.
  intros Hok.
  assert (∀ l f file, (l, f) ∈ mapping → up l = Some file →
            ∃ df, read_csv file = Ok df) as Hok' by (intros l f file _; apply Hok).
  split_and!.
  - by apply (upload_slots_writes read_csv to_csv mapping up w "Sales" "sales.csv"
                mapping_labels_NoDup mapping_NoDup Hok'); left.
  - intros label fname Hin.
    by apply (upload_slots_writes read_csv to_csv mapping up w label fname
                mapping_labels_NoDup mapping_NoDup Hok').
  - intros f Hf. apply upload_slots_untouched. intros label Hin.
    exfalso. apply Hf. apply list_elem_of_fmap. by exists (label, f).
Qed.

(** [main] (lines 313-338): a run writes no file but those of the slots
    that hold an upload; without uploads storage is as before the run,
    whatever page is shown and whether or not the run raises. *)
Theorem main_storage (i : inputs) (w : world) (f : string) :
  (∀ label, (label, f) ∈ mapping → uploaded i label = None) →
  files (main read_csv to_csv parse_datetime py_float float_zero argsort i w).2 !! f
    = files w !! f.
Proof.
  intros Hf. unfold main, mbind, ensure_data_dir, ret, lift.
  pose proof (get_all_data_files read_csv w) as Hg.
  destruct (get_all_data read_csv w) as [[data|e] w1]; cbn [snd] in *;
    [|by rewrite Hg].
  destruct (data_getitem data "forecast") as [df_f|]; cbn [snd];
    [|by rewrite Hg].
  destruct (data_getitem data "recommendations") as [df_r|]; cbn [snd];
    [|by rewrite Hg].
  destruct (sidebar_filters parse_datetime df_f df_r); cbn [snd];
    [|by rewrite Hg].
  pose proof (upload_slots_untouched read_csv to_csv mapping (uploaded i) w1 f Hf) as Hu.
  unfold sidebar_uploaders.
  destruct (upload_slots read_csv to_csv mapping (uploaded i) w1) as [[[]|e] w2];
    cbn [snd] in *; congruence.
Qed.

(** [main]: the page of a run is computed from the data loaded before the
    uploaders run, so a run that returns shows what the same run without
    any upload shows; the uploaded data is seen by the next run. *)
Theorem main_view_before_uploads (i : inputs) (w : world) (v : view) :
  (main read_csv to_csv parse_datetime py_float float_zero argsort i w).1 = Ok v →
  (main read_csv to_csv parse_datetime py_float float_zero argsort (no_uploads i) w).1 = Ok v.
Proof.
  unfold main, mbind, ensure_data_dir, ret, lift, sidebar_uploaders.
  cbn [no_uploads nav selected_skus selected_suppliers date_range uploaded].
  destruct (get_all_data read_csv w) as [[data|e] w1]; [|done].
  destruct (data_getitem data "forecast") as [df_f|]; [|done].
  destruct (data_getitem data "recommendations") as [df_r|]; [|done].
  destruct (sidebar_filters parse_datetime df_f df_r); [|done].
  rewrite upload_slots_none.
  by destruct (upload_slots read_csv to_csv mapping (uploaded i) w1) as [[[]|e] w2].
Qed.
End run_more.

Section empty_directory.
Import Pandas App Spec.
Variable read_csv : list Byte.byte → result DataFrame.
Variable to_csv : DataFrame → list Byte.byte.
Variable parse_datetime : string → option Z.
Context {float : Type}.
Variable py_float : value → result float.
Variable float_zero : float.
Variable argsort : list Z → list nat.

Lemma read_all_missing (fs : gmap string (list Byte.byte)) :
  (∀ name, name ∈ datasets → fs !! (name +:+ ".csv") = None) →
  read_all read_csv fs datasets
    = Ok (list_to_map ((λ name, (name, empty_frame)) <$> datasets)).
Proof.
  intros Hmiss. unfold datasets in *. cbn [read_all]. unfold read_fresh.
  rewrite !Hmiss by set_solver. reflexivity.
Qed.

(** [main] on a data directory without any dataset file (lines 76-77,
    161-165, 175, 191, 226, 275): with no upload, every page returns its
    placeholder and nothing raises: the cards show 0 and no chart, the
    Forecasting and Recommendations pages show their info message, and
    the Download page offers no file. *)
Theorem main_empty_data_dir (i : inputs) (w : world) :
  coherent read_csv w →
  (∀ name, name ∈ datasets → files w !! (name +:+ ".csv") = None) →
  (∀ label, uploaded i label = None) →
  (main read_csv to_csv parse_datetime py_float float_zero argsort i w).1
    = Ok (placeholder float_zero (nav i)).
Proof.
  intros Hw Hmiss Hup.
  destruct (get_all_data_coherent read_csv w Hw) as (Hr & _ & _).
  rewrite (read_all_missing _ Hmiss) in Hr.
  unfold main, mbind, ensure_data_dir, ret, lift.
  destruct (get_all_data read_csv w) as [r w1]. cbn [fst] in Hr. subst r.
  assert (upload_slots read_csv to_csv mapping (uploaded i) w1 = (Ok tt, w1)) as Hu.
  { clear -Hup. induction mapping as [|[l f] slots IH]; [done|].
    cbn [upload_slots]. by rewrite Hup. }
  unfold sidebar_uploaders.
  replace (data_getitem _ "forecast") with (Ok empty_frame) by reflexivity.
  replace (data_getitem _ "recommendations") with (Ok empty_frame) by reflexivity.
  replace (sidebar_filters parse_datetime empty_frame empty_frame)
    with (Ok ([] : list scalar, [] : list scalar, None : option (Z * Z)))
    by reflexivity.
  rewrite Hu. cbn [fst]. destruct (nav i); reflexivity.
Qed.
End empty_directory.

Section run_witnesses.
Import Pandas App Spec.

Lemma sidebar_uploaders_writes_witness :
  files (sidebar_uploaders Sample.read_csv Sample.to_csv
           (Sample.upload_sales Sample.forecast_csv) Sample.world0).2
    !! "forecast.csv" = Some Sample.forecast_csv.
Proof.
  destruct (sidebar_uploaders_writes Sample.read_csv Sample.to_csv
              (Sample.upload_sales Sample.forecast_csv) Sample.world0)
    as (_ & H & _).
  - intros label file. unfold Sample.upload_sales.
    destruct (decide (label = "Sales")); [|done].
    intros [= <-]. eexists. reflexivity.
  - assert (("Forecast", "forecast.csv") ∈ mapping) as Hin by set_solver.
    pose proof (H "Forecast" "forecast.csv" Hin) as H'.
    change (Sample.upload_sales Sample.forecast_csv "Forecast")
      with (@None (list Byte.byte)) in H'.
    rewrite H'. reflexivity.
Defined.

Lemma main_storage_witness :
  files (main Sample.read_csv Sample.to_csv Sample.parse_datetime
           Sample.py_float Sample.float_zero Sample.argsort_stable
           {| nav := Forecasting; selected_skus := []; selected_suppliers := [];
              date_range := None; uploaded := Sample.upload_sales [] |}
           Sample.world0).2 !! "forecast.csv"
  = Some Sample.forecast_csv.
Proof.
  rewrite (main_storage Sample.read_csv Sample.to_csv Sample.parse_datetime
             Sample.py_float Sample.float_zero Sample.argsort_stable).
  - reflexivity.
  - intros label Hin. cbn [uploaded]. unfold Sample.upload_sales.
    destruct (decide (label = "Sales")) as [->|]; [|done].
    exfalso. vm_compute in Hin. set_solver.
Defined.

Lemma main_view_before_uploads_witness :
  (main Sample.read_csv Sample.to_csv Sample.parse_datetime Sample.py_float Sample.float_zero
     Sample.argsort_stable
     (no_uploads
        {| nav := Download; selected_skus := []; selected_suppliers := [];
           date_range := None;
           uploaded := Sample.upload_sales Sample.forecast_csv |})
     Sample.world0).1
  = Ok (DownloadView
          [("recommendations.csv", None);
           ("forecast.csv", Some (Sample.to_csv
              {| columns := ["sku"; "date"; "forecast_qty"];
                 rows := [[VStr "A"; VStr "2024-01-01"; VInt 10];
                          [VStr "B"; VStr "2024-01-02"; VInt 20]] |}));
           ("kpis.csv", None)]).
Proof.
  apply (main_view_before_uploads Sample.read_csv Sample.to_csv
           Sample.parse_datetime Sample.py_float Sample.float_zero Sample.argsort_stable).
  vm_compute. reflexivity.
Defined.

Lemma main_empty_data_dir_witness :
  (main Sample.read_csv Sample.to_csv Sample.parse_datetime Sample.py_float Sample.float_zero
     Sample.argsort_stable
     {| nav := KPIDashboard; selected_skus := [SStr "A"];
        selected_suppliers := []; date_range := None; uploaded := λ _, None |}
     {| files := ∅; load_csv_cache := ∅; get_all_data_cache := None |}).1
  = Ok (placeholder Sample.float_zero KPIDashboard).
Proof.
  apply (main_empty_data_dir Sample.read_csv Sample.to_csv Sample.parse_datetime
           Sample.py_float Sample.float_zero Sample.argsort_stable).
  - by apply caches_empty_coherent.
  - intros name _. apply lookup_empty.
  - done.
Defined.
End run_witnesses.

(* ===================================================================== *)
(** * Further properties of the filters and of the charts *)
(* ===================================================================== *)

Section filters_more.
Import Pandas App Spec.
Variable parse_datetime : string → option Z.

Lemma filter_isin_columns (df df' : DataFrame) (c : string) (sel : list scalar) :
  filter_isin df c sel = Ok df' → columns df' = columns df.
Proof.
  unfold filter_isin. destruct sel; [by intros [= <-]|].
  destruct (getitem df c); [|done]. by intros [= <-].
Qed.

Lemma filter_isin_raises (df : DataFrame) (c : string) (sel : list scalar) (e : exn) :
  filter_isin df c sel = Raise e ↔ sel ≠ [] ∧ (c ∉ columns df) ∧ e = KeyError c.
Proof.
  unfold filter_isin, getitem. destruct sel as [|x sel].
  { split; [done | by intros [? _]]. }
  destruct (index_of c (columns df)) as [i|] eqn:Hi; cbn [bind].
  - split; [done|]. intros (_ & Hc & _). apply index_of_None in Hc. congruence.
  - apply index_of_None in Hi. split.
    + by intros [= <-].
    + by intros (_ & _ & ->).
Qed.

(** The filters of the pages (lines 195-200, 230-233) fail exactly on a
    missing column that a non-empty selection needs: a filter by selection
    raises KeyError for its column when the selection is non-empty and the
    column is missing and never otherwise, the filter of the
    Recommendations page raises for sku first and for supplier second, and
    the filter of the Forecasting page raises KeyError 'date' on every
    table without a date column, whatever is selected. *)
Theorem filter_failures :
  (∀ df c sel e,
     filter_isin df c sel = Raise e ↔ sel ≠ [] ∧ (c ∉ columns df) ∧ e = KeyError c) ∧
  (∀ df skus sups e,
     recommendations_filtered df skus sups = Raise e ↔
       (skus ≠ [] ∧ ("sku" ∉ columns df) ∧ e = KeyError "sku") ∨
       ((skus = [] ∨ "sku" ∈ columns df) ∧
        sups ≠ [] ∧ ("supplier" ∉ columns df) ∧ e = KeyError "supplier")) ∧
  (∀ df skus dr,
     "date" ∉ columns df →
     forecast_filtered parse_datetime df skus dr = Raise (KeyError "date")).
Proof.
  split_and!.
  - apply filter_isin_raises.
  - intros df skus sups e. unfold recommendations_filtered.
    destruct (filter_isin df "sku" skus) as [df1|e1] eqn:H1; cbn [bind].
    + rewrite filter_isin_raises, (filter_isin_columns _ _ _ _ H1).
      assert (skus = [] ∨ "sku" ∈ columns df) as Hsku.
      { destruct skus as [|x skus]; [by left|]. right.
        destruct (decide ("sku" ∈ columns df)) as [|Hn]; [done|].
        assert (filter_isin df "sku" (x :: skus) = Raise (KeyError "sku")) as Hr
          by (by apply filter_isin_raises).
        congruence. }
      split; [by right|]. intros [(Hs & Hc & _)|(_ & H)]; [|done].
      by destruct Hsku.
    + apply filter_isin_raises in H1 as (Hs & Hc & ->). split.
      * intros [= <-]. by left.
      * intros [(_ & _ & ->)|([?|?] & _)]; done.
  - intros df skus dr Hd. unfold forecast_filtered.
    apply index_of_None in Hd. by rewrite (getitem_missing _ _ Hd).
Qed.
End filters_more.

Section charts_more.
Import Pandas App Spec.

Lemma total_group_add (k : scalar) (q : Z) (acc : list (scalar * Z)) :
  total (group_add Z.add k q acc).*2 = q + total acc.*2.
Proof.
  induction acc as [|[k0 s] acc IH]; simpl; [done|].
  destruct (decide (k = k0)); simpl; [lia|].
  destruct (scalar_leb k k0); simpl; [done|].
  change (list_fmap (scalar * Z)%type Z snd) with (fmap (M:=list) (@snd scalar Z)).
  rewrite IH. lia.
Qed.

Lemma group_sums_conserve (keyed : list (value * option Z)) :
  total (group_sums Z.add keyed).*2 = keyed_total keyed.
Proof.
  induction keyed as [|[v q] keyed IH]; [done|].
  change (group_sums Z.add ((v, q) :: keyed))
    with (match to_scalar v with
          | Some k => group_add Z.add k (default 0 q) (group_sums Z.add keyed)
          | None => group_sums Z.add keyed
          end).
  change (keyed_total ((v, q) :: keyed))
    with (if isna v then keyed_total keyed else default 0 q + keyed_total keyed).
  destruct v; cbn [to_scalar isna]; rewrite ?total_group_add; by rewrite IH.
Qed.

Lemma total_perm (l1 l2 : list Z) : l1 ≡ₚ l2 → total l1 = total l2.
Proof. unfold total. induction 1; simpl; lia. Qed.

Lemma groupby_sum_inv (df : DataFrame) (by_ metric : string) grouped :
  groupby_sum df by_ metric = Ok grouped →
  ∃ keys vals nums,
    getitem df by_ = Ok keys ∧ getitem df metric = Ok vals ∧
    mapM numeric vals = Ok nums ∧
    grouped = group_sums (sum_add (is_int64 vals)) (zip keys nums).
Proof.
  unfold groupby_sum.
  destruct (getitem df by_) as [keys|]; [|done]. cbn [bind].
  destruct (getitem df metric) as [vals|]; [|done]. cbn [bind].
  destruct (mapM numeric vals) as [nums|] eqn:Hm; [|done]. cbn [bind].
  intros [= <-]. exists keys, vals, nums. by split_and!.
Qed.

Lemma sort_values_desc_perm (argsort : list Z → list nat) (grouped : list (scalar * Z)) :
  argsort_desc_spec argsort → sort_values_desc argsort grouped ≡ₚ grouped.
Proof.
  intros Hspec. apply take_indexer_perm.
  destruct (Hspec grouped.*2) as [Hp _]. by rewrite length_fmap in Hp.
Qed.

Lemma total_wrapped (g : list (scalar * Z)) :
  wrap64 (total (wrapped g).*2) = wrap64 (total g.*2).
Proof.
  unfold wrapped. induction g as [|[k s] g IH]; [done|].
  cbn [fmap list_fmap fst snd].
  change (total (wrap64 s :: ?l)) with (wrap64 s + total l).
  change (total (s :: ?l)) with (s + total l).
  rewrite wrap64_add_l, Z.add_comm, <- wrap64_add_l.
  by rewrite IH, wrap64_add_l, Z.add_comm.
Qed.

Lemma wrapped_exact (g : list (scalar * Z)) :
  (∀ k s, (k, s) ∈ g → int64 s) → wrapped g = g.
Proof.
  unfold wrapped. induction g as [|[k s] g IH]; intros H; [done|].
  cbn [fmap list_fmap fst snd]. f_equal.
  - f_equal. apply wrap64_small, (H k). by left.
  - apply IH. intros k' s' Hin. apply (H k'). by right.
Qed.

(** Group-by-sum, sort, head on an int64 metric (lines 178-182, 265-267):
    grouping loses nothing.  The sums of the groups add up to the sum of
    the metric over the rows that have a key, modulo 2^64 as int64 sums
    do, and exactly when an int64 holds the sum of every group; and when
    there are no more than [n] groups, the chart shows every group. *)
Theorem groupby_sum_conserves (argsort : list Z → list nat) (df : DataFrame)
    (by_ metric : string) (n : nat) (keys vals : list value) :
  argsort_desc_spec argsort →
  getitem df by_ = Ok keys →
  getitem df metric = Ok vals →
  is_int64 vals = true →
  ∃ grouped,
    groupby_sum df by_ metric = Ok grouped ∧
    wrap64 (total grouped.*2) = wrap64 (keyed_total (zip keys (number <$> vals))) ∧
    ((∀ k, of_scalar k ∈ keys → int64 (sum_for k (zip keys (number <$> vals)))) →
     total grouped.*2 = keyed_total (zip keys (number <$> vals))) ∧
    ((length grouped ≤ n)%nat →
     ∃ out, top_n argsort df by_ metric n = Ok out ∧ out ≡ₚ grouped).
Proof.
  intros Hspec Hk Hv Hi.
  pose proof (groupby_sum_int64 _ _ _ _ _ Hk Hv Hi) as Hg.
  set (keyed := zip keys (number <$> vals)) in *.
  exists (wrapped (group_sums Z.add keyed)). split_and!.
  - exact Hg.
  - by rewrite total_wrapped, group_sums_conserve.
  - intros Hfit. rewrite wrapped_exact; [apply group_sums_conserve|].
    intros k s Hin. rewrite (group_sums_elem _ _ _ Hin). apply Hfit.
    assert (k ∈ (group_sums Z.add keyed).*1) as Hkin
      by (apply list_elem_of_fmap; by exists (k, s)).
    apply group_sums_keys in Hkin. unfold keyed in Hkin.
    apply list_elem_of_fmap in Hkin as ([v q] & -> & Hvq). cbn [fst].
    by apply elem_of_zip_l in Hvq.
  - intros Hn. exists (sort_values_desc argsort (wrapped (group_sums Z.add keyed))).
    split; [|by apply sort_values_desc_perm].
    unfold top_n. rewrite Hg. cbn [bind]. unfold head.
    rewrite take_ge; [done|]. by rewrite sort_values_desc_perm.
Qed.

Lemma groupby_sum_conserves_witness :
  ∃ grouped,
    groupby_sum
      {| columns := ["sku"; "qty"];
         rows := [[VStr "B"; VInt 2]; [VStr "A"; VInt 5];
                  [VStr "B"; VInt 4]; [VNaN; VInt 9]; [VStr "C"; VInt 0]] |}
      "sku" "qty"
    = Ok grouped ∧ total grouped.*2 = 11.
Proof.
  destruct (groupby_sum_conserves Sample.argsort_stable
    {| columns := ["sku"; "qty"];
       rows := [[VStr "B"; VInt 2]; [VStr "A"; VInt 5];
                [VStr "B"; VInt 4]; [VNaN; VInt 9]; [VStr "C"; VInt 0]] |}
    "sku" "qty" 10
    [VStr "B"; VStr "A"; VStr "B"; VNaN; VStr "C"]
    [VInt 2; VInt 5; VInt 4; VInt 9; VInt 0])
    as (grouped & Hg & _ & Hsum & _).
  - exact argsort_stable_spec.
  - reflexivity.
  - reflexivity.
  - reflexivity.
  - exists grouped. split; [exact Hg|]. rewrite Hsum; [reflexivity|].
    intros k Hk. unfold int64.
    repeat (apply elem_of_cons in Hk as [Hk|Hk]);
      [..|by apply elem_of_nil in Hk];
      destruct k; try discriminate Hk; injection Hk as ->; by vm_compute.
Defined.

Lemma elem_of_omap_lookup {A} (l : list A) (idx : list nat) (x : A) :
  x ∈ omap (λ i, l !! i) idx → x ∈ l.
Proof.
  intros (i & _ & Hi)%list_elem_of_omap. by eapply list_elem_of_lookup_2.
Qed.

Lemma top_n_subset (argsort : list Z → list nat) (df : DataFrame)
    (by_ metric : string) (n : nat) out :
  top_n argsort df by_ metric n = Ok out →
  ∃ grouped, groupby_sum df by_ metric = Ok grouped ∧ ∀ x, x ∈ out → x ∈ grouped.
Proof.
  unfold top_n. destruct (groupby_sum df by_ metric) as [grouped|]; [|done].
  cbn [bind]. intros [= <-]. exists grouped. split; [done|].
  intros x Hx. unfold head in Hx. apply elem_of_take in Hx as (i & Hi & _).
  apply list_elem_of_lookup_2 in Hi. by eapply elem_of_omap_lookup.
Qed.

Lemma select_rows_elem (df : DataFrame) (mask : list bool) (r : list value) :
  r ∈ rows (select df mask) → ∃ i, mask !! i = Some true ∧ rows df !! i = Some r.
Proof.
  unfold select. cbn [rows]. intros ([b r'] & -> & Hin)%list_elem_of_fmap.
  apply list_elem_of_filter in Hin as [Hb Hin]. cbn [fst snd] in *. subst b.
  apply list_elem_of_lookup in Hin as [i Hi].
  apply lookup_zip_with_Some in Hi as (b & r'' & [= <- <-] & Hm & Hr).
  eauto.
Qed.

(** The chart of the KPI Dashboard (lines 175-183): with a non-empty
    selection, every SKU the chart shows is a selected SKU, whatever the
    indexer of the sort. *)
Theorem kpi_chart_within_selection {float : Type} (py_float : value → result float) (float_zero : float)
    (argsort : list Z → list nat) (data : gmap string DataFrame)
    (selected_skus selected_suppliers : list scalar) cards chart :
  page_kpi_dashboard py_float float_zero argsort data selected_skus selected_suppliers
    = Ok (cards, Some chart) →
  selected_skus ≠ [] →
  ∀ k, k ∈ chart.*1 → k ∈ selected_skus.
Proof.
  unfold page_kpi_dashboard. intros H Hsel k Hk.
  destruct (data_getitem data "kpis") as [df_kpis|]; [|done]. cbn [bind] in H.
  destruct (kpis py_float float_zero df_kpis); [|done]. cbn [bind] in H.
  destruct (data_getitem data "inventory") as [df_inv|]; [|done]. cbn [bind] in H.
  destruct (negb (empty df_inv)); [|done].
  unfold filter_isin in H. destruct selected_skus as [|x sel]; [done|].
  unfold getitem in H.
  destruct (index_of "sku" (columns df_inv)) as [i|] eqn:Hi; [|done].
  cbn [bind] in H.
  set (df' := select df_inv (isin (column i df_inv) (x :: sel))) in *.
  destruct (top_n argsort df' "sku" "inventory_qty" 10) as [top|] eqn:Ht; [|done].
  cbn [bind] in H. injection H as _ <-.
  destruct (top_n_subset _ _ _ _ _ _ Ht) as (grouped & Hg & Hsub).
  destruct (groupby_sum_inv _ _ _ _ Hg) as (keys & vals & nums & Hkeys & _ & _ & ->).
  apply list_elem_of_fmap in Hk as ([k' s] & -> & Hks). cbn [fst].
  apply Hsub in Hks.
  assert (k' ∈ (group_sums (sum_add (is_int64 vals)) (zip keys nums)).*1) as Hin
    by (apply list_elem_of_fmap; by exists (k', s)).
  apply group_sums_keys in Hin.
  apply list_elem_of_fmap in Hin as ([v q] & Hv & Hvq). cbn [fst] in Hv. subst v.
  apply elem_of_zip_l in Hvq.
  unfold getitem in Hkeys. cbn [columns df' select] in Hkeys. rewrite Hi in Hkeys.
  injection Hkeys as <-. unfold column in Hvq.
  apply list_elem_of_fmap in Hvq as (r & Hr & Hrin).
  apply select_rows_elem in Hrin as (j & Hmask & Hrow).
  unfold isin, column in Hmask. rewrite <- list_fmap_compose in Hmask.
  rewrite list_lookup_fmap, Hrow in Hmask. cbn in Hmask.
  injection Hmask as Hmask. apply bool_decide_eq_true in Hmask.
  rewrite <- Hr in Hmask.
  change (of_scalar x :: (of_scalar <$> sel)) with (of_scalar <$> x :: sel) in Hmask.
  apply list_elem_of_fmap in Hmask as (y & Hy & Hyin).
  assert (k' = y) as -> by (destruct k', y; simplify_eq/=; done). done.
Qed.

(** The chart of the Recommendations page (lines 262-268) is computed from
    the whole forecast table: it is the same for every selection of SKUs
    and suppliers under which the page returns its table. *)
Theorem recommendations_chart_ignores_selection (argsort : list Z → list nat)
    (data : gmap string DataFrame) (skus1 sups1 skus2 sups2 : list scalar)
    table1 chart1 table2 chart2 :
  page_recommendations argsort data skus1 sups1 = Ok (Some (table1, chart1)) →
  page_recommendations argsort data skus2 sups2 = Ok (Some (table2, chart2)) →
  chart1 = chart2.
Proof.
  unfold page_recommendations.
  destruct (data_getitem data "recommendations") as [df_rec|]; [|done]. cbn [bind].
  destruct (empty df_rec); [done|].
  destruct (recommendations_filtered df_rec skus1 sups1) as [d1|]; [|done].
  destruct (recommendations_filtered df_rec skus2 sups2) as [d2|]; [|done].
  cbn [bind].
  destruct (reorder_suggestions d1) as [t1|]; [|done].
  destruct (reorder_suggestions d2) as [t2|]; [|done].
  cbn [bind].
  destruct (negb (empty (default empty_frame (data !! "forecast")))).
  - destruct (top_n argsort _ "sku" "forecast_qty" 10); [|done].
    cbn [bind]. congruence.
  - congruence.
Qed.
End charts_more.

Section charts_runs.
Import Pandas App Spec.

Lemma kpi_chart_within_selection_witness :
  SStr "B" ∈ [SStr "B"; SStr "Z"].
Proof.
  apply (kpi_chart_within_selection Sample.py_float Sample.float_zero Sample.argsort_stable
    {[ "kpis" := empty_frame;
       "inventory" := {| columns := ["sku"; "inventory_qty"];
                         rows := [[VStr "A"; VInt 1]; [VStr "B"; VInt 3];
                                  [VStr "B"; VInt 4]] |} ]}
    [SStr "B"; SStr "Z"] []
    {| total_sales := Some 0; avg_inventory := Some 0; stockout_risk := Some 0;
       avg_lead_time := Some 0; avg_delivery_time := Some 0 |}
    [(SStr "B", 7)]).
  - vm_compute. reflexivity.
  - done.
  - by left.
Defined.

Lemma recommendations_chart_ignores_selection_witness :
  Some [(SStr "B", 20); (SStr "A", 10)] = Some [(SStr "B", 20); (SStr "A", 10)].
Proof.
  apply (recommendations_chart_ignores_selection Sample.argsort_stable
    {[ "recommendations" := {| columns := ["sku"; "supplier"; "urgency"];
                               rows := [[VStr "A"; VStr "S1"; VStr "high"];
                                        [VStr "B"; VStr "S2"; VStr "low"]] |};
       "forecast" := {| columns := ["sku"; "forecast_qty"];
                        rows := [[VStr "A"; VInt 10]; [VStr "B"; VInt 20]] |} ]}
    [SStr "A"] [] [] [SStr "S2"]
    {| columns := ["sku"; "supplier"; "Urgency"];
       rows := [[VStr "A"; VStr "S1"; VStr "🔴 High"]] |}
    (Some [(SStr "B", 20); (SStr "A", 10)])
    {| columns := ["sku"; "supplier"; "Urgency"];
       rows := [[VStr "B"; VStr "S2"; VStr "🟢 Low"]] |}
    (Some [(SStr "B", 20); (SStr "A", 10)])).
  - vm_compute. reflexivity.
  - vm_compute. reflexivity.
Defined.
End charts_runs.

(* ===================================================================== *)
(** * Further properties of the tables *)
(* ===================================================================== *)

Section tables_more.
Import Pandas App Spec.
Variable parse_datetime : string → option Z.

Lemma indices_in (cols : list string) (df : DataFrame) (ixs : list nat) :
  indices cols df = Ok ixs → ∀ c, c ∈ cols → c ∈ columns df.
Proof.
  revert ixs. induction cols as [|d cols IH]; intros ixs H c Hc.
  { by apply elem_of_nil in Hc. }
  cbn [indices] in H.
  destruct (index_of d (columns df)) as [i|] eqn:Hi; [|done].
  destruct (indices cols df) as [ixs'|]; [|done].
  apply elem_of_cons in Hc as [->|Hc].
  - apply index_of_lookup in Hi. by eapply list_elem_of_lookup_2.
  - by eapply IH.
Qed.

Lemma add_urgency_inv (df display : DataFrame) :
  add_urgency df = Ok display →
  length (rows display) = length (rows df) ∧
  ∀ c, c ∈ columns display → c = "Urgency" ∨ c ∈ columns df.
Proof.
  unfold add_urgency. destruct (decide ("urgency" ∈ columns df)) as [Hu|];
    [|intros [= <-]; auto].
  destruct (index_of_Some _ _ Hu) as [iu Hiu].
  rewrite (getitem_index _ _ _ Hiu). cbn [bind]. intros [= <-].
  unfold column. rewrite <- list_fmap_compose, setitem_fmap.
  destruct (index_of "Urgency" (columns df)); cbn [rows columns];
    rewrite length_fmap; split; auto.
  intros c [?|Hc]%elem_of_app; [auto|].
  apply list_elem_of_singleton in Hc as ->. auto.
Qed.

(** The Reorder Suggestions table (lines 248-256): whenever it is shown,
    its columns are among the eight display columns, in their fixed
    order, Urgency and sku among them; a column of the CSV file outside
    that list, the raw urgency included, is never shown; and it has a row
    for every row of the filtered table. *)
Theorem reorder_suggestions_columns (df_rec out : DataFrame) :
  reorder_suggestions df_rec = Ok out →
  columns out `sublist_of`
    ["sku"; "current_stock"; "reorder_point"; "recommended_order_qty";
     "supplier"; "transport_mode"; "lead_time_days"; "Urgency"] ∧
  "Urgency" ∈ columns out ∧
  "sku" ∈ columns out ∧
  ("urgency" ∉ columns out) ∧
  (∀ c, c ∈ columns out → c = "Urgency" ∨ c ∈ columns df_rec) ∧
  length (rows out) = length (rows df_rec).
Proof.
  unfold reorder_suggestions.
  destruct (add_urgency df_rec) as [display|] eqn:Hd; [|done]. cbn [bind].
  destruct (add_urgency_inv _ _ Hd) as [Hlen Hcols].
  unfold getitems.
  destruct (indices (columns_to_show display) display) as [ixs|]; [|done].
  cbn [bind]. unfold sort_values.
  destruct (indices ["Urgency"; "sku"] _) as [ks|] eqn:Hks; [|done].
  cbn [bind columns]. intros [= <-]. cbn [columns rows].
  pose proof (indices_in _ _ _ Hks) as Hin. cbn [columns] in Hin.
  assert (columns_to_show display `sublist_of`
            ["sku"; "current_stock"; "reorder_point"; "recommended_order_qty";
             "supplier"; "transport_mode"; "lead_time_days"; "Urgency"]) as Hsub
    by apply sublist_filter.
  split_and!.
  - done.
  - apply Hin. set_solver.
  - apply Hin. set_solver.
  - intros Hu. apply list_elem_of_filter in Hu as [_ Hu]. set_solver.
  - intros c Hc. apply Hcols. by apply list_elem_of_filter in Hc as [? _].
  - by rewrite stable_sort_length, length_fmap.
Qed.

Lemma filter_ext_in {A} (P Q : A → Prop) `{∀ x, Decision (P x)} `{∀ x, Decision (Q x)}
    (l : list A) :
  (∀ x, x ∈ l → P x ↔ Q x) → filter P l = filter Q l.
Proof.
  induction l as [|x l IH]; intros Hl; [done|].
  rewrite !filter_cons.
  rewrite IH by (intros y Hy; apply Hl; by right).
  assert (P x ↔ Q x) as Hx by (apply Hl; by left).
  destruct (decide (P x)) as [HP|HP], (decide (Q x)) as [HQ|HQ]; try done;
    exfalso; tauto.
Qed.

Lemma to_datetime_cells (s ts : list value) :
  to_datetime parse_datetime s = Ok ts →
  length ts = length s ∧ ∀ v, v ∈ ts → v = VNaN ∨ ∃ t, v = VInt t.
Proof.
  unfold to_datetime. intros H. split; [by eapply mapM_length|].
  revert ts H. induction s as [|x s IH]; intros ts; cbn [mapM].
  { intros [= <-] v Hv. by apply elem_of_nil in Hv. }
  destruct (to_datetime1 parse_datetime x) as [y|] eqn:Hy; [|done]. cbn [bind].
  destruct (mapM (to_datetime1 parse_datetime) s) as [ys|]; [|done]. cbn [bind].
  intros [= <-] v [->|Hv]%elem_of_cons; [|by eapply IH].
  unfold to_datetime1 in Hy.
  destruct x; try (injection Hy as <-; eauto; fail).
  destruct (parse_datetime s0); [|done]. injection Hy as <-. eauto.
Qed.

(** The date widget and the date filter together (lines 121-126 and
    198-200): with the range the widget starts from, the calendar dates of
    the earliest and of the latest timestamp, and no SKU selected, the
    Forecasting page keeps exactly the rows whose timestamp is not after
    midnight of the last date.  Rows whose date is missing are dropped,
    and so are the rows of the last day that carry a later time of the
    day; on a column of dates at midnight exactly the rows that have a
    date are kept. *)
Theorem full_range_keeps_dated_rows (df : DataFrame) (iD : nat)
    (ts : list value) (d0 d1 : Z) :
  wf df →
  index_of "date" (columns df) = Some iD →
  to_datetime parse_datetime (column iD df) = Ok ts →
  date_bounds parse_datetime df = Ok (Some (d0, d1)) →
  forecast_filtered parse_datetime df [] (Some [d0; d1]) =
    Ok {| columns := columns df;
          rows := filter (λ r, not_after (date_to_datetime d1) (cell iD r))
                    (rows (setitem df "date" ts)) |} ∧
  ((∀ t, VInt t ∈ ts → date_to_datetime (Timestamp_date t) = t) →
   forecast_filtered parse_datetime df [] (Some [d0; d1]) =
     Ok {| columns := columns df;
           rows := filter (λ r, isna (cell iD r) = false)
                     (rows (setitem df "date" ts)) |}).
Proof.
  intros Hwf HD Hts Hb.
  assert (get df "date" [] = column iD df) as Hget by (unfold get; by rewrite HD).
  destruct (date_bounds_inv parse_datetime df ts d0 d1) as
    (lo & hi & Hlo & Hhi & Hbtw & -> & ->); [by rewrite Hget | done |].
  destruct (to_datetime_cells _ _ Hts) as [_ Hcells].
  assert (∀ r', r' ∈ rows (setitem df "date" ts) → cell iD r' ∈ ts) as Hcell.
  { intros r' Hr'. unfold setitem in Hr'. rewrite HD in Hr'. cbn [rows] in Hr'.
    apply elem_of_zip_with in Hr' as (r & v & -> & Hr & Hv).
    rewrite cell_insert_eq; [done|].
    eapply Forall_forall in Hwf; [|exact Hr]. cbn beta in Hwf. rewrite Hwf.
    by eapply index_of_lt. }
  assert (forecast_filtered parse_datetime df []
            (Some [Timestamp_date lo; Timestamp_date hi]) =
          Ok {| columns := columns df;
                rows := filter (λ r, not_after (date_to_datetime (Timestamp_date hi))
                                       (cell iD r))
                          (rows (setitem df "date" ts)) |}) as Heq.
  { unfold forecast_filtered.
    rewrite (getitem_index _ _ _ HD). cbn [bind]. rewrite Hts. cbn [bind filter_isin].
    pose proof (setitem_columns df "date" ts iD HD) as Hc.
    rewrite (filter_dates_spec _ _ iD) by by rewrite Hc.
    rewrite Hc. do 2 f_equal. cbn [range_of].
    apply filter_ext_in. intros r' Hr'. specialize (Hcell r' Hr').
    destruct (Hcells _ Hcell) as [E|[t E]]; rewrite E in *; [done|].
    cbn [in_range not_after]. split; [tauto|]. intros Ht. split; [|done].
    pose proof (Timestamp_date_floor lo). destruct (Hbtw t Hcell). lia. }
  split; [exact Heq|].
  intros Hmid. rewrite Heq. do 2 f_equal.
  apply filter_ext_in. intros r' Hr'. specialize (Hcell r' Hr').
  destruct (Hcells _ Hcell) as [E|[t E]]; rewrite E in *; [done|].
  cbn [not_after isna]. split; [done|]. intros _.
  rewrite (Hmid hi Hhi). by apply Hbtw.
Qed.

(** The Forecast Table (lines 215-220): when the page returns, the table
    holds the rows of the chart, ordered by sku first and by date
    second. *)
Theorem forecast_table_sorted (data : gmap string DataFrame)
    (selected_skus : list scalar) (date_range : option (list Z))
    (chart table : DataFrame) :
  page_forecasting parse_datetime data selected_skus date_range
    = Ok (Some (chart, table)) →
  ∃ iS iD,
    index_of "sku" (columns chart) = Some iS ∧
    index_of "date" (columns chart) = Some iD ∧
    columns table = columns chart ∧
    rows table ≡ₚ rows chart ∧
    StronglySorted (λ r1 r2, rows_leb [iS; iD] r1 r2 = true) (rows table).
Proof.
  unfold page_forecasting.
  destruct (data_getitem data "forecast") as [df_fc|]; [|done]. cbn [bind].
  destruct (empty df_fc); [done|].
  destruct (forecast_filtered _ _ _ _) as [df|]; [|done]. cbn [bind].
  destruct (px_line df _); [|done]. cbn [bind].
  unfold sort_values. cbn [indices].
  destruct (index_of "sku" (columns df)) as [iS|] eqn:HS; [|done].
  destruct (index_of "date" (columns df)) as [iD|] eqn:HD; [|done].
  cbn [bind]. intros [= <- <-]. exists iS, iD. cbn [columns rows].
  split_and!; try done.
  - apply stable_sort_perm.
  - apply (stable_sort_strongly_sorted (rows_leb [iS; iD]));
      [exact (rows_leb_total [iS; iD]) | exact (rows_leb_trans [iS; iD])].
Qed.
End tables_more.

Section tables_runs.
Import Pandas App Spec.

Lemma reorder_suggestions_columns_witness :
  columns {| columns := ["sku"; "supplier"; "Urgency"];
             rows := [[VStr "A"; VStr "S1"; VStr "🔴 High"]] |}
  `sublist_of`
    ["sku"; "current_stock"; "reorder_point"; "recommended_order_qty";
     "supplier"; "transport_mode"; "lead_time_days"; "Urgency"].
Proof.
  apply (reorder_suggestions_columns
    {| columns := ["sku"; "note"; "supplier"; "urgency"];
       rows := [[VStr "A"; VStr "x"; VStr "S1"; VStr "high"]] |}).
  vm_compute. reflexivity.
Defined.

Lemma full_range_keeps_dated_rows_witness :
  forecast_filtered Sample.parse_datetime
    {| columns := ["sku"; "date"];
       rows := [[VStr "A"; VStr "2024-01-03 12:00:00"]; [VStr "B"; VNaN];
                [VStr "C"; VStr "2024-01-01"]] |}
    [] (Some [19723; 19725])
  = Ok {| columns := ["sku"; "date"];
          rows := [[VStr "C"; VInt (date_to_datetime 19723)]] |}.
Proof.
  destruct (full_range_keeps_dated_rows Sample.parse_datetime
              {| columns := ["sku"; "date"];
                 rows := [[VStr "A"; VStr "2024-01-03 12:00:00"]; [VStr "B"; VNaN];
                          [VStr "C"; VStr "2024-01-01"]] |}
              1%nat
              [VInt (date_to_datetime 19725 + 43200000000000); VNaN;
               VInt (date_to_datetime 19723)] 19723 19725) as [H _].
  - repeat constructor.
  - reflexivity.
  - reflexivity.
  - reflexivity.
  - rewrite H. reflexivity.
Defined.

Lemma forecast_table_sorted_witness :
  ∃ iS iD : nat,
    index_of "sku" ["sku"; "date"; "forecast_qty"] = Some iS ∧
    index_of "date" ["sku"; "date"; "forecast_qty"] = Some iD.
Proof.
  destruct (forecast_table_sorted Sample.parse_datetime
    {[ "forecast" := {| columns := ["sku"; "date"; "forecast_qty"];
                        rows := [[VStr "B"; VStr "2024-01-02"; VInt 20];
                                 [VStr "A"; VStr "2024-01-01"; VInt 10]] |} ]}
    [] None
    {| columns := ["sku"; "date"; "forecast_qty"];
       rows := [[VStr "B"; VInt (date_to_datetime 19724); VInt 20];
                [VStr "A"; VInt (date_to_datetime 19723); VInt 10]] |}
    {| columns := ["sku"; "date"; "forecast_qty"];
       rows := [[VStr "A"; VInt (date_to_datetime 19723); VInt 10];
                [VStr "B"; VInt (date_to_datetime 19724); VInt 20]] |})
    as (iS & iD & HS & HD & _).
  - vm_compute. reflexivity.
  - exists iS, iD. split; [exact HS | exact HD].
Defined.
End tables_runs.

(* ===================================================================== *)
(** * Runs of the script and the caches *)
(* ===================================================================== *)

Section runs_more.
Import Pandas App Spec.
Variable read_csv : list Byte.byte → result DataFrame.
Variable to_csv : DataFrame → list Byte.byte.
Variable parse_datetime : string → option Z.
Context {float : Type}.
Variable py_float : value → result float.
Variable float_zero : float.
Variable argsort : list Z → list nat.

(** The world a run leaves: that of the loaders, or that of the uploaders
    after them. *)
Lemma main_world (i : inputs) (w : world) :
  (main read_csv to_csv parse_datetime py_float float_zero argsort i w).2
    = (get_all_data read_csv w).2 ∨
  (main read_csv to_csv parse_datetime py_float float_zero argsort i w).2
    = (sidebar_uploaders read_csv to_csv (uploaded i) (get_all_data read_csv w).2).2.
Proof.
  unfold main, mbind, ensure_data_dir, ret, lift.
  destruct (get_all_data read_csv w) as [[data|e] w1]; cbn [fst snd]; [|by left].
  destruct (data_getitem data "forecast") as [df_f|]; cbn [snd]; [|by left].
  destruct (data_getitem data "recommendations") as [df_r|]; cbn [snd]; [|by left].
  destruct (sidebar_filters parse_datetime df_f df_r); cbn [snd]; [|by left].
  right.
  by destruct (sidebar_uploaders read_csv to_csv (uploaded i) w1) as [[[]|e] w2].
Qed.

(** A run of [main] keeps the caches in agreement with storage: if every
    memoised result is what a fresh read of storage returns before the
    run, the same holds after it, whether the run returns or raises. *)
Theorem main_coherent (i : inputs) (w : world) :
  coherent read_csv w →
  coherent read_csv (main read_csv to_csv parse_datetime py_float float_zero argsort i w).2.
Proof.
  intros Hw.
  destruct (get_all_data_coherent read_csv w Hw) as (_ & _ & Hg).
  destruct (main_world i w) as [->| ->]; [done|].
  by apply upload_slots_coherent.
Qed.

(** A run of [main] that returns its page with a file in some upload slot
    ends with both caches empty: the next run reads every dataset from
    storage again. *)
Theorem main_upload_clears (i : inputs) (w : world) (v : view) :
  (main read_csv to_csv parse_datetime py_float float_zero argsort i w).1 = Ok v →
  (∃ label fname, (label, fname) ∈ mapping ∧ is_Some (uploaded i label)) →
  caches_empty (main read_csv to_csv parse_datetime py_float float_zero argsort i w).2.
Proof.
  intros Hv Hup. revert Hv.
  unfold main, mbind, ensure_data_dir, ret, lift.
  destruct (get_all_data read_csv w) as [[data|e] w1]; [|done].
  destruct (data_getitem data "forecast") as [df_f|]; [|done].
  destruct (data_getitem data "recommendations") as [df_r|]; [|done].
  destruct (sidebar_filters parse_datetime df_f df_r); [|done].
  pose proof (upload_slots_clears read_csv to_csv mapping (uploaded i) w1 Hup) as Hc.
  unfold sidebar_uploaders.
  destruct (upload_slots read_csv to_csv mapping (uploaded i) w1) as [[[]|e] w2];
    [|done].
  intros _. by apply Hc.
Qed.
End runs_more.

Section runs_witnesses.
Import Pandas App Spec.

Lemma main_coherent_witness :
  coherent Sample.read_csv
    (main Sample.read_csv Sample.to_csv Sample.parse_datetime Sample.py_float Sample.float_zero
       Sample.argsort_stable
       {| nav := Forecasting; selected_skus := []; selected_suppliers := [];
          date_range := None;
          uploaded := Sample.upload_sales Sample.forecast_csv |}
       Sample.world0).2.
Proof.
  apply main_coherent. by apply caches_empty_coherent.
Defined.

Lemma main_upload_clears_witness :
  caches_empty
    (main Sample.read_csv Sample.to_csv Sample.parse_datetime Sample.py_float Sample.float_zero
       Sample.argsort_stable
       {| nav := Home; selected_skus := []; selected_suppliers := [];
          date_range := None;
          uploaded := Sample.upload_sales Sample.forecast_csv |}
       Sample.world0).2.
Proof.
  apply (main_upload_clears Sample.read_csv Sample.to_csv Sample.parse_datetime
           Sample.py_float Sample.float_zero Sample.argsort_stable _ _ HomeView).
  - vm_compute. reflexivity.
  - exists "Sales", "sales.csv". split; [set_solver|]. by eexists.
Defined.
End runs_witnesses.
